(** * AstroLink 4 Pi: motion control and sensor acquisition

    A shallow embedding of the focuser motion controller, the stepping
    worker, the thermal compensator, the two multi-cycle sensor acquirers,
    the temperature, humidity and sky sensors, the DAC bytes and the fan
    control of [astrolink4pi.cpp], with the properties stated about them.

    Conventions of the embedding.
    - [uint32_t] and [int] values are integers of [Z]; the conversions of
      the source are written out ([to_uint32], [to_int], [to_int16]), and
      so is the wrap of an [int] product ([int_mul]).
    - An INDI number element holds a [double].  The focuser position, its
      bounds and the backlash value only ever receive integral values, so
      they are kept in [Z]; temperatures, coefficients and power readings
      are kept as exact rationals ([Q]), the sky brightness as a real
      number ([R]) because it needs the natural logarithm.  Rounding of
      the machine arithmetic is not modelled.
    - The motion thread is modelled by interleaving: [worker_tick] runs
      one evaluation of the worker's loop condition together with the
      iteration (or the exit code) that follows it, so that a controller
      call sees the worker between two iterations.
    - Bus reads, the clock and the return codes of bus writes are inputs
      of the step functions. *)

From Stdlib Require Import ZArith List Bool Lia.
From Stdlib Require Import QArith Qround Qabs.
From Stdlib Require Import Reals Lra Qreals.
From Stdlib Require Lqa.
Import ListNotations.

Local Open Scope Z_scope.

(** ** Machine integers *)

Definition to_uint32 (z : Z) : Z := z mod 2 ^ 32.

Definition to_int (z : Z) : Z := (z + 2 ^ 31) mod 2 ^ 32 - 2 ^ 31.

Definition to_int16 (z : Z) : Z := (z + 2 ^ 15) mod 2 ^ 16 - 2 ^ 15.

(** The product of two [int]s.  Signed overflow is undefined in the
    language; on the target the product wraps to 32 bits, which is what is
    written here. *)
Definition int_mul (a b : Z) : Z := to_int (a * b).

(** [(int)x] for a rational [x]: truncation towards zero. *)
Definition Qtrunc (q : Q) : Z :=
  if Qle_bool 0 q then Qfloor q else Qceiling q.

(** C's [round]: nearest integer, halfway cases away from zero. *)
Definition c_round (q : Q) : Z :=
  if Qle_bool 0 q then Qfloor (q + (1 # 2)) else Qceiling (q - (1 # 2)).

Definition MAX_RESOLUTION : Z := 32.

(** ** INDI property state *)

Inductive IPState : Type := IPS_IDLE | IPS_OK | IPS_BUSY | IPS_ALERT.

Definition IPState_eqb (a b : IPState) : bool :=
  match a, b with
  | IPS_IDLE, IPS_IDLE | IPS_OK, IPS_OK
  | IPS_BUSY, IPS_BUSY | IPS_ALERT, IPS_ALERT => true
  | _, _ => false
  end.

(** A one-element number vector: the element's value and limits and the
    vector's state. *)
Record NumberProp : Type := mkNumber {
  getValue : Z;
  getMin : Z;
  getMax : Z;
  getStep : Z;
  getState : IPState
}.

Definition setValue (v : Z) (p : NumberProp) : NumberProp :=
  mkNumber v (getMin p) (getMax p) (getStep p) (getState p).
Definition setMin (v : Z) (p : NumberProp) : NumberProp :=
  mkNumber (getValue p) v (getMax p) (getStep p) (getState p).
Definition setMax (v : Z) (p : NumberProp) : NumberProp :=
  mkNumber (getValue p) (getMin p) v (getStep p) (getState p).
Definition setStep (v : Z) (p : NumberProp) : NumberProp :=
  mkNumber (getValue p) (getMin p) (getMax p) v (getState p).
Definition setState (st : IPState) (p : NumberProp) : NumberProp :=
  mkNumber (getValue p) (getMin p) (getMax p) (getStep p) st.

(** ** The focuser *)

Module Focuser.

(** One step pulse on STP_PIN: the level driven on DIR_PIN before it, and
    whether the iteration advanced the position counter. *)
Record Pulse : Type := mkPulse {
  dirLevel : bool;
  counted : bool
}.

(** The motion thread of [getMotorThread]: its by-value parameters, its
    local position counter, the pulses it has emitted so far and whether
    its body has returned. *)
Record Worker : Type := mkWorker {
  targetPos : Z;
  motorDirection : Z;
  backlashLeft : Z;
  currentPos : Z;
  pulses : list Pulse;
  exited : bool
}.

(** FocuserInfoN: step size, critical focus zone, steps per CFZ. *)
Record FocuserInfo : Type := mkInfo {
  FOC_STEP_SIZE : Q;
  FOC_CFZ : Q;
  FOC_STEPS_CFZ : Q;
  infoState : IPState
}.

Record Driver : Type := mkDriver {
  isConnected : bool;
  revision : Z;
  (* properties *)
  FocusAbsPosNP : NumberProp;
  FocusRelPosNP : NumberProp;
  FocusMaxPosNP : NumberProp;
  FocusBacklash : Z;
  FocusReverse : bool;
  holdPower : Z;
  StepperCurrent : Z;
  TemperatureCompensate : bool;
  TemperatureCoef : Q;
  FocusTemperature : Q;
  FocuserTravel : Q;
  SCOPE_DIAM : Q;
  SCOPE_FL : Q;
  FocuserInfoN : FocuserInfo;
  (* members *)
  resolution : Z;
  lastDirection : Z;
  backlashTicksRemaining : Z;
  lastTemperature : Q;
  _abort : bool;
  _motionThread : option Worker;
  (* hardware and files *)
  EN_PIN : bool;
  DECAY_PIN : bool;
  modePins : bool * bool * bool;
  motorLevel : Z;
  positionFile : option Z
}.

Definition with_abs (f : NumberProp -> NumberProp) (s : Driver) : Driver :=
  mkDriver (isConnected s) (revision s) (f (FocusAbsPosNP s)) (FocusRelPosNP s)
    (FocusMaxPosNP s) (FocusBacklash s) (FocusReverse s) (holdPower s)
    (StepperCurrent s) (TemperatureCompensate s) (TemperatureCoef s)
    (FocusTemperature s) (FocuserTravel s) (SCOPE_DIAM s) (SCOPE_FL s)
    (FocuserInfoN s) (resolution s) (lastDirection s)
    (backlashTicksRemaining s) (lastTemperature s) (_abort s)
    (_motionThread s) (EN_PIN s) (DECAY_PIN s) (modePins s) (motorLevel s)
    (positionFile s).

Definition with_rel (f : NumberProp -> NumberProp) (s : Driver) : Driver :=
  mkDriver (isConnected s) (revision s) (FocusAbsPosNP s) (f (FocusRelPosNP s))
    (FocusMaxPosNP s) (FocusBacklash s) (FocusReverse s) (holdPower s)
    (StepperCurrent s) (TemperatureCompensate s) (TemperatureCoef s)
    (FocusTemperature s) (FocuserTravel s) (SCOPE_DIAM s) (SCOPE_FL s)
    (FocuserInfoN s) (resolution s) (lastDirection s)
    (backlashTicksRemaining s) (lastTemperature s) (_abort s)
    (_motionThread s) (EN_PIN s) (DECAY_PIN s) (modePins s) (motorLevel s)
    (positionFile s).

Definition with_max (f : NumberProp -> NumberProp) (s : Driver) : Driver :=
  mkDriver (isConnected s) (revision s) (FocusAbsPosNP s) (FocusRelPosNP s)
    (f (FocusMaxPosNP s)) (FocusBacklash s) (FocusReverse s) (holdPower s)
    (StepperCurrent s) (TemperatureCompensate s) (TemperatureCoef s)
    (FocusTemperature s) (FocuserTravel s) (SCOPE_DIAM s) (SCOPE_FL s)
    (FocuserInfoN s) (resolution s) (lastDirection s)
    (backlashTicksRemaining s) (lastTemperature s) (_abort s)
    (_motionThread s) (EN_PIN s) (DECAY_PIN s) (modePins s) (motorLevel s)
    (positionFile s).

Definition set_FocuserInfoN (i : FocuserInfo) (s : Driver) : Driver :=
  mkDriver (isConnected s) (revision s) (FocusAbsPosNP s) (FocusRelPosNP s)
    (FocusMaxPosNP s) (FocusBacklash s) (FocusReverse s) (holdPower s)
    (StepperCurrent s) (TemperatureCompensate s) (TemperatureCoef s)
    (FocusTemperature s) (FocuserTravel s) (SCOPE_DIAM s) (SCOPE_FL s)
    i (resolution s) (lastDirection s)
    (backlashTicksRemaining s) (lastTemperature s) (_abort s)
    (_motionThread s) (EN_PIN s) (DECAY_PIN s) (modePins s) (motorLevel s)
    (positionFile s).

Definition set_resolution (r : Z) (s : Driver) : Driver :=
  mkDriver (isConnected s) (revision s) (FocusAbsPosNP s) (FocusRelPosNP s)
    (FocusMaxPosNP s) (FocusBacklash s) (FocusReverse s) (holdPower s)
    (StepperCurrent s) (TemperatureCompensate s) (TemperatureCoef s)
    (FocusTemperature s) (FocuserTravel s) (SCOPE_DIAM s) (SCOPE_FL s)
    (FocuserInfoN s) r (lastDirection s)
    (backlashTicksRemaining s) (lastTemperature s) (_abort s)
    (_motionThread s) (EN_PIN s) (DECAY_PIN s) (modePins s) (motorLevel s)
    (positionFile s).

Definition set_lastDirection (d : Z) (s : Driver) : Driver :=
  mkDriver (isConnected s) (revision s) (FocusAbsPosNP s) (FocusRelPosNP s)
    (FocusMaxPosNP s) (FocusBacklash s) (FocusReverse s) (holdPower s)
    (StepperCurrent s) (TemperatureCompensate s) (TemperatureCoef s)
    (FocusTemperature s) (FocuserTravel s) (SCOPE_DIAM s) (SCOPE_FL s)
    (FocuserInfoN s) (resolution s) d
    (backlashTicksRemaining s) (lastTemperature s) (_abort s)
    (_motionThread s) (EN_PIN s) (DECAY_PIN s) (modePins s) (motorLevel s)
    (positionFile s).

Definition set_backlashTicksRemaining (b : Z) (s : Driver) : Driver :=
  mkDriver (isConnected s) (revision s) (FocusAbsPosNP s) (FocusRelPosNP s)
    (FocusMaxPosNP s) (FocusBacklash s) (FocusReverse s) (holdPower s)
    (StepperCurrent s) (TemperatureCompensate s) (TemperatureCoef s)
    (FocusTemperature s) (FocuserTravel s) (SCOPE_DIAM s) (SCOPE_FL s)
    (FocuserInfoN s) (resolution s) (lastDirection s)
    b (lastTemperature s) (_abort s)
    (_motionThread s) (EN_PIN s) (DECAY_PIN s) (modePins s) (motorLevel s)
    (positionFile s).

Definition set_lastTemperature (t : Q) (s : Driver) : Driver :=
  mkDriver (isConnected s) (revision s) (FocusAbsPosNP s) (FocusRelPosNP s)
    (FocusMaxPosNP s) (FocusBacklash s) (FocusReverse s) (holdPower s)
    (StepperCurrent s) (TemperatureCompensate s) (TemperatureCoef s)
    (FocusTemperature s) (FocuserTravel s) (SCOPE_DIAM s) (SCOPE_FL s)
    (FocuserInfoN s) (resolution s) (lastDirection s)
    (backlashTicksRemaining s) t (_abort s)
    (_motionThread s) (EN_PIN s) (DECAY_PIN s) (modePins s) (motorLevel s)
    (positionFile s).

Definition set_abort (a : bool) (s : Driver) : Driver :=
  mkDriver (isConnected s) (revision s) (FocusAbsPosNP s) (FocusRelPosNP s)
    (FocusMaxPosNP s) (FocusBacklash s) (FocusReverse s) (holdPower s)
    (StepperCurrent s) (TemperatureCompensate s) (TemperatureCoef s)
    (FocusTemperature s) (FocuserTravel s) (SCOPE_DIAM s) (SCOPE_FL s)
    (FocuserInfoN s) (resolution s) (lastDirection s)
    (backlashTicksRemaining s) (lastTemperature s) a
    (_motionThread s) (EN_PIN s) (DECAY_PIN s) (modePins s) (motorLevel s)
    (positionFile s).

Definition set_motionThread (t : option Worker) (s : Driver) : Driver :=
  mkDriver (isConnected s) (revision s) (FocusAbsPosNP s) (FocusRelPosNP s)
    (FocusMaxPosNP s) (FocusBacklash s) (FocusReverse s) (holdPower s)
    (StepperCurrent s) (TemperatureCompensate s) (TemperatureCoef s)
    (FocusTemperature s) (FocuserTravel s) (SCOPE_DIAM s) (SCOPE_FL s)
    (FocuserInfoN s) (resolution s) (lastDirection s)
    (backlashTicksRemaining s) (lastTemperature s) (_abort s)
    t (EN_PIN s) (DECAY_PIN s) (modePins s) (motorLevel s)
    (positionFile s).

Definition set_motor (en decay : bool) (level : Z) (s : Driver) : Driver :=
  mkDriver (isConnected s) (revision s) (FocusAbsPosNP s) (FocusRelPosNP s)
    (FocusMaxPosNP s) (FocusBacklash s) (FocusReverse s) (holdPower s)
    (StepperCurrent s) (TemperatureCompensate s) (TemperatureCoef s)
    (FocusTemperature s) (FocuserTravel s) (SCOPE_DIAM s) (SCOPE_FL s)
    (FocuserInfoN s) (resolution s) (lastDirection s)
    (backlashTicksRemaining s) (lastTemperature s) (_abort s)
    (_motionThread s) en decay (modePins s) level
    (positionFile s).

Definition set_modePins (m : bool * bool * bool) (s : Driver) : Driver :=
  mkDriver (isConnected s) (revision s) (FocusAbsPosNP s) (FocusRelPosNP s)
    (FocusMaxPosNP s) (FocusBacklash s) (FocusReverse s) (holdPower s)
    (StepperCurrent s) (TemperatureCompensate s) (TemperatureCoef s)
    (FocusTemperature s) (FocuserTravel s) (SCOPE_DIAM s) (SCOPE_FL s)
    (FocuserInfoN s) (resolution s) (lastDirection s)
    (backlashTicksRemaining s) (lastTemperature s) (_abort s)
    (_motionThread s) (EN_PIN s) (DECAY_PIN s) m (motorLevel s)
    (positionFile s).

Definition set_positionFile (f : option Z) (s : Driver) : Driver :=
  mkDriver (isConnected s) (revision s) (FocusAbsPosNP s) (FocusRelPosNP s)
    (FocusMaxPosNP s) (FocusBacklash s) (FocusReverse s) (holdPower s)
    (StepperCurrent s) (TemperatureCompensate s) (TemperatureCoef s)
    (FocusTemperature s) (FocuserTravel s) (SCOPE_DIAM s) (SCOPE_FL s)
    (FocuserInfoN s) (resolution s) (lastDirection s)
    (backlashTicksRemaining s) (lastTemperature s) (_abort s)
    (_motionThread s) (EN_PIN s) (DECAY_PIN s) (modePins s) (motorLevel s)
    f.

(** The focuser position, [FocusAbsPosNP[0].getValue()]. *)
Definition Position (s : Driver) : Z := getValue (FocusAbsPosNP s).

Definition Qlt_bool (x y : Q) : bool := negb (Qle_bool y x).

(** *** Motor current: [getMotorPWM], [setCurrent] *)

Definition getMotorPWM (current : Z) : Z := current ÷ 20.

(** [setCurrent(standby)].  [motorLevel] is the value handed to the DAC
    (revision 3) or to the PWM generator (revision 4 and later). *)
Definition setCurrent (standby : bool) (s : Driver) : Driver :=
  if negb (isConnected s) then s
  else if standby then
    let hold := (inject_Z (holdPower s * StepperCurrent s) / 5)%Q in
    set_motor (negb (0 <? holdPower s)) false
      (if revision s <? 4 then Qtrunc (255 * hold / 4096)%Q
       else getMotorPWM (Qtrunc hold)) s
  else
    set_motor false true
      (if revision s <? 4
       then Qtrunc (255 * inject_Z (StepperCurrent s) / 4096)%Q
       else getMotorPWM (StepperCurrent s)) s.

(** *** Position file: [savePosition]

    Called with [-1] the function reads the file and writes nothing; with
    any other value it overwrites the file with that value.  Opening the
    file is assumed to succeed. *)
Definition savePosition (pos : Z) (s : Driver) : Driver :=
  if pos =? -1 then s else set_positionFile (Some pos) s.

(** The value [savePosition(-1)] returns. *)
Definition readPosition (s : Driver) : Z :=
  match positionFile s with Some v => v | None => -1 end.

(** [Connect], line "read last position from file & convert from
    MAX_RESOLUTION to current resolution". *)
Definition restorePosition (s : Driver) : Driver :=
  with_abs (setValue (if negb (readPosition s =? -1)
                      then int_mul (to_int (readPosition s)) (resolution s)
                           ÷ MAX_RESOLUTION
                      else 0)) s.

(** *** [getFocuserInfo] *)

Definition getFocuserInfo (s : Driver) : Driver :=
  let travel_mm := FocuserTravel s in
  let aperture := SCOPE_DIAM s in
  let focal := SCOPE_FL s in
  let f_ratio :=
    if negb (Qeq_bool (aperture * focal) 0) then (focal / aperture)%Q else 0%Q in
  let cfz := ((488 # 100) * (520 # 1000) * (f_ratio * f_ratio))%Q in
  let step_size :=
    (1000 * travel_mm / inject_Z (getValue (FocusMaxPosNP s)))%Q in
  let steps_per_cfz := (inject_Z (Qtrunc cfz) / step_size)%Q in
  let st :=
    if Qle_bool 4 steps_per_cfz then IPS_OK
    else if Qlt_bool 2 steps_per_cfz && Qlt_bool steps_per_cfz 4 then IPS_BUSY
    else IPS_ALERT in
  set_FocuserInfoN (mkInfo step_size cfz steps_per_cfz st) s.

(** *** [SetResolution]: the microstep mode lines M0, M1, M2 *)

Definition SetResolution (res : Z) (s : Driver) : Driver :=
  set_modePins
    (if res =? 1 then (false, false, false)
     else if res =? 2 then (true, false, false)
     else if res =? 4 then (false, true, false)
     else if res =? 8 then (true, true, false)
     else if res =? 16 then (false, false, true)
     else if res =? 32 then (true, true, true)
     else (false, false, false)) s.

(** *** The motion worker: the lambda of [getMotorThread] *)

(** The thread as it starts: it copies its arguments and reads the
    position into its [uint32_t] counter.  The read is the first statement
    of the thread body and is done here at once; a later read, after the
    creator has written the position, is [thread_reads] below. *)
Definition getMotorThread (s : Driver) (targetTicks lastDir backlash : Z) : Worker :=
  mkWorker targetTicks lastDir backlash (to_uint32 (Position s)) [] false.

(** The loop condition [currentPos != targetPos && !_abort]. *)
Definition worker_continues (s : Driver) (w : Worker) : bool :=
  negb (currentPos w =? targetPos w) && negb (_abort s).

(** One iteration of the loop body. *)
Definition worker_iteration (s : Driver) (w : Worker) : Driver :=
  let s1 :=
    if currentPos w mod 100 =? 0
    then with_abs (fun p => setState IPS_BUSY (setValue (currentPos w) p)) s
    else s in
  let level :=
    if FocusReverse s
    then (if motorDirection w <? 0 then true else false)
    else (if motorDirection w <? 0 then false else true) in
  let w' :=
    if backlashLeft w <=? 0
    then mkWorker (targetPos w) (motorDirection w) (backlashLeft w)
           (to_uint32 (currentPos w + motorDirection w))
           (pulses w ++ [mkPulse level true]) false
    else mkWorker (targetPos w) (motorDirection w) (backlashLeft w - 1)
           (currentPos w)
           (pulses w ++ [mkPulse level false]) false in
  set_motionThread (Some w') s1.

(** The code after the loop.  The argument of [savePosition] is
    [(int)pos * MAX_RESOLUTION / resolution], an [int] product followed by
    an [int] division. *)
Definition worker_exit (s : Driver) (w : Worker) : Driver :=
  let s1 := with_abs (fun p => setState IPS_OK (setValue (currentPos w) p)) s in
  let s2 := with_rel (setState IPS_OK) s1 in
  let s3 :=
    savePosition
      (int_mul (to_int (Position s2)) MAX_RESOLUTION ÷ resolution s2) s2 in
  let s4 := set_lastTemperature (FocusTemperature s3) s3 in
  let s5 := setCurrent true s4 in
  set_motionThread
    (Some (mkWorker (targetPos w) (motorDirection w) (backlashLeft w)
             (currentPos w) (pulses w) true)) s5.

(** One scheduling step of the thread: evaluate the loop condition, then
    run an iteration or leave the loop. *)
Definition worker_tick (s : Driver) : Driver :=
  match _motionThread s with
  | None => s
  | Some w =>
      if exited w then s
      else if worker_continues s w then worker_iteration s w
      else worker_exit s w
  end.

(** Letting the worker run: ticks until the thread body has returned.
    [None] when the fuel does not suffice. *)
Fixpoint run_worker (fuel : nat) (s : Driver) : option Driver :=
  match _motionThread s with
  | None => Some s
  | Some w =>
      if exited w then Some s
      else match fuel with
           | O => None
           | S fuel' => run_worker fuel' (worker_tick s)
           end
  end.

(** [if (_motionThread.joinable()) { _abort = true; _motionThread.join(); }]:
    with the flag set the loop condition fails at its next evaluation, so
    a thread that has not returned yet runs its exit code. *)
Definition abort_and_join (s : Driver) : Driver :=
  match _motionThread s with
  | None => s
  | Some w =>
      let s1 := set_abort true s in
      set_motionThread None (if exited w then s1 else worker_exit s1 w)
  end.

(** *** [AbortFocuser], [SyncFocuser] *)

Definition AbortFocuser (s : Driver) : Driver * bool := (abort_and_join s, true).

Definition SyncFocuser (ticks : Z) (s : Driver) : Driver * bool :=
  let s1 := with_abs (setValue ticks) s in
  (savePosition (to_int ticks) s1, true).

(** *** [MoveAbsFocuser] *)

Definition newDirection (s : Driver) (targetTicks : Z) : Z :=
  if Position s <? targetTicks then 1 else -1.

Definition MoveAbsFocuser (targetTicks : Z) (s : Driver) : Driver * IPState :=
  if (targetTicks <? getMin (FocusAbsPosNP s)) || (getMax (FocusAbsPosNP s) <? targetTicks)
  then (s, IPS_ALERT)
  else if targetTicks =? Position s
  then (s, IPS_OK)
  else
    let s1 := with_abs (setState IPS_BUSY) s in
    let s2 := setCurrent false s1 in
    let newDir := newDirection s2 targetTicks in
    let s3 :=
      if negb (lastDirection s2 =? 0) && negb (newDir =? lastDirection s2)
         && negb (FocusBacklash s2 =? 0)
      then set_backlashTicksRemaining (FocusBacklash s2) s2
      else set_backlashTicksRemaining 0 s2 in
    let s4 := set_lastDirection newDir s3 in
    let s5 := abort_and_join s4 in
    let s6 := set_abort false s5 in
    (set_motionThread
       (Some (getMotorThread s6 targetTicks (lastDirection s6)
                (backlashTicksRemaining s6))) s6,
     IPS_BUSY).

(** The conversion of a [double] argument to the [uint32_t] parameter of
    [MoveAbsFocuser] is the identity on integral values of [0, 2^32) and
    undefined outside; it is kept as a parameter of the two callers that
    pass a computed [double]. *)
Section Callers.

Variable double_to_uint32 : Z -> Z.

(** *** [temperatureCompensation]

    [abs] is taken at its floating-point overload, and [FocuserInfoN[2]]
    to be the steps-per-CFZ element, the third that [getFocuserInfo]
    fills. *)

Definition deltaPos (s : Driver) : Q :=
  (TemperatureCoef s * (FocusTemperature s - lastTemperature s))%Q.

Definition temperatureCompensation (s : Driver) : Driver :=
  if negb (isConnected s) then s
  else if TemperatureCompensate s
          && negb (Qeq_bool (FocusTemperature s) (lastTemperature s))
  then
    let deltaTemperature := (FocusTemperature s - lastTemperature s)%Q in
    let deltaPos := (TemperatureCoef s * deltaTemperature)%Q in
    if Qlt_bool (FOC_STEPS_CFZ (FocuserInfoN s) / 2)%Q (Qabs deltaPos)
    then
      let thermalAdjustment := c_round deltaPos in
      let s1 :=
        fst (MoveAbsFocuser (double_to_uint32 (Position s + thermalAdjustment)) s) in
      set_lastTemperature (FocusTemperature s1) s1
    else s
  else s.

(** *** [ISNewSwitch], branch of [FocusResolutionSP] *)

Inductive FocusResolution : Type :=
  RES_1 | RES_2 | RES_4 | RES_8 | RES_16 | RES_32.

Definition resolution_of (r : FocusResolution) : Z :=
  match r with
  | RES_1 => 1 | RES_2 => 2 | RES_4 => 4
  | RES_8 => 8 | RES_16 => 16 | RES_32 => 32
  end.

(** [last_resolution * (pos / last_resolution - (int)pos / last_resolution)],
    the first quotient a [double] division, the second an [int] division,
    the result converted to [int]. *)
Definition position_adjustment (last_resolution pos : Z) : Z :=
  Qtrunc (inject_Z last_resolution
          * (inject_Z pos / inject_Z last_resolution
             - inject_Z (to_int pos ÷ last_resolution)))%Q.

(** The displacement of the realignment move, when one is requested. *)
Definition realignment (last_resolution res pos : Z) : option Z :=
  let adj := position_adjustment last_resolution pos in
  if (res <? last_resolution) && (0 <? adj)
  then Some (if Qlt_bool (inject_Z adj / inject_Z last_resolution)%Q (1 # 2)
             then adj * -1
             else last_resolution - adj)
  else None.

(** [(int)x * resolution / last_resolution], an [int] product followed by
    an [int] division. *)
Definition rescale (res last_resolution x : Z) : Z :=
  int_mul (to_int x) res ÷ last_resolution.

Definition rescale_limits (res last_resolution : Z) (withMin : bool)
    (p : NumberProp) : NumberProp :=
  let p1 := if withMin then setMin (rescale res last_resolution (getMin p)) p else p in
  let p2 := setMax (rescale res last_resolution (getMax p1)) p1 in
  setStep (rescale res last_resolution (getStep p2)) p2.

Definition ISNewSwitch_FocusResolution (sel : FocusResolution) (s : Driver) : Driver :=
  let last_resolution := resolution s in
  let s1 := set_resolution (resolution_of sel) s in
  let s2 :=
    match realignment last_resolution (resolution s1) (Position s1) with
    | Some adj => fst (MoveAbsFocuser (double_to_uint32 (Position s1 + adj)) s1)
    | None => s1
    end in
  let s3 := SetResolution (resolution s2) s2 in
  let r := rescale (resolution s3) last_resolution in
  let s4 :=
    with_rel (fun p => let p' := rescale_limits (resolution s3) last_resolution true p in
                       setValue (r (getValue p')) p') s3 in
  let s5 :=
    with_abs (fun p => let p' := rescale_limits (resolution s3) last_resolution false p in
                       setValue (r (getValue p')) p') s4 in
  let s6 :=
    with_max (fun p => let p' := rescale_limits (resolution s3) last_resolution true p in
                       setValue (r (getValue p')) p') s5 in
  getFocuserInfo s6.

End Callers.

(** *** Vocabulary of the properties *)

(** The level the worker drives on DIR_PIN. *)
Definition dir_level (s : Driver) (w : Worker) : bool :=
  if FocusReverse s
  then (if motorDirection w <? 0 then true else false)
  else (if motorDirection w <? 0 then false else true).

(** Counted steps still to do, the counter wrapping as a [uint32_t]. *)
Definition steps_left (w : Worker) : Z :=
  ((targetPos w - currentPos w) * motorDirection w) mod 2 ^ 32.

(** Uncounted pulses still to emit before the loop can end. *)
Definition backlash_left (w : Worker) : Z :=
  if currentPos w =? targetPos w then 0 else Z.max 0 (backlashLeft w).

Definition worker_ok (w : Worker) : Prop :=
  exited w = false
  /\ (motorDirection w = 1 \/ motorDirection w = -1)
  /\ 0 <= currentPos w < 2 ^ 32
  /\ 0 <= targetPos w < 2 ^ 32.

(** No worker is running: none was started, or the last one returned. *)
Definition settled (s : Driver) : Prop :=
  match _motionThread s with
  | None => True
  | Some w => exited w = true
  end.

(** The backlash budget [MoveAbsFocuser] computes. *)
Definition backlash_budget (s : Driver) (targetTicks : Z) : Z :=
  if negb (lastDirection s =? 0)
     && negb (newDirection s targetTicks =? lastDirection s)
     && negb (FocusBacklash s =? 0)
  then FocusBacklash s else 0.

Definition in_range (s : Driver) (targetTicks : Z) : Prop :=
  getMin (FocusAbsPosNP s) <= targetTicks <= getMax (FocusAbsPosNP s).

(** The state a move that is accepted leaves behind. *)
Definition start_move (t : Z) (s : Driver) : Driver :=
  let s2 := setCurrent false (with_abs (setState IPS_BUSY) s) in
  let s4 :=
    set_lastDirection (newDirection s t)
      (set_backlashTicksRemaining (backlash_budget s t) s2) in
  let s6 := set_abort false (abort_and_join s4) in
  set_motionThread
    (Some (mkWorker t (newDirection s t) (backlash_budget s t)
             (to_uint32 (Position s6)) [] false)) s6.

(** The level on DIR_PIN during a move. *)
Definition move_level (s : Driver) (t : Z) : bool :=
  if FocusReverse s
  then (if newDirection s t <? 0 then true else false)
  else (if newDirection s t <? 0 then false else true).

(** The fields neither a worker nor the start of a move writes. *)
Definition same_config (s s' : Driver) : Prop :=
  lastDirection s' = lastDirection s
  /\ FocusBacklash s' = FocusBacklash s
  /\ FocusReverse s' = FocusReverse s
  /\ getMin (FocusAbsPosNP s') = getMin (FocusAbsPosNP s)
  /\ getMax (FocusAbsPosNP s') = getMax (FocusAbsPosNP s)
  /\ resolution s' = resolution s.

(** The handler in two halves: the realignment request, then the
    rescaling of the properties. *)
Definition realign (cvt : Z -> Z) (sel : FocusResolution) (s : Driver) : Driver :=
  let s1 := set_resolution (resolution_of sel) s in
  match realignment (resolution s) (resolution s1) (Position s1) with
  | Some adj => fst (MoveAbsFocuser (cvt (Position s1 + adj)) s1)
  | None => s1
  end.

Definition rescale_all (last_resolution : Z) (s2 : Driver) : Driver :=
  let s3 := SetResolution (resolution s2) s2 in
  let r := rescale (resolution s3) last_resolution in
  getFocuserInfo
    (with_max (fun p => let p' := rescale_limits (resolution s3) last_resolution true p in
                        setValue (r (getValue p')) p')
       (with_abs (fun p => let p' := rescale_limits (resolution s3) last_resolution false p in
                           setValue (r (getValue p')) p')
          (with_rel (fun p => let p' := rescale_limits (resolution s3) last_resolution true p in
                              setValue (r (getValue p')) p') s3))).

(** The thread body begins by reading the position into its counter
    (line 984).  [getMotorThread] performs that read at once: this is the
    schedule in which the new thread runs its first statement before its
    creator goes on.  [thread_reads] is the same read performed later, for
    the schedules in which the creator writes the position first; it
    applies to a thread that has not stepped yet. *)
Definition thread_reads (s : Driver) : Driver :=
  match _motionThread s with
  | Some w =>
      match pulses w, exited w with
      | [], false =>
          set_motionThread
            (Some (mkWorker (targetPos w) (motorDirection w) (backlashLeft w)
                     (to_uint32 (Position s)) [] false)) s
      | _, _ => s
      end
  | None => s
  end.

(** The position in full steps. *)
Definition full_steps (s : Driver) : Q :=
  (inject_Z (Position s) / inject_Z (resolution s))%Q.

(** *** States used in the examples *)

(** A connected revision-4 board at rest at resolution 1/32, position
    1000 of 320000, backlash 20, which last moved outward. *)
Definition at_rest : Driver :=
  mkDriver true 4
    (mkNumber 1000 0 320000 3200 IPS_OK)
    (mkNumber 3200 0 320000 3200 IPS_OK)
    (mkNumber 320000 32000 3200000 32000 IPS_OK)
    20 false 2 400 true 5 10 10 80 400
    (mkInfo (1 # 32) 66 2 IPS_BUSY)
    32 1 0 0 false None false false (true, true, true) 8 (Some 1000).

(** Modelled from the spec: the initial value of [lastDirection], which
    the class declaration in [astrolink4pi.h] gives and which stands for
    "no previous move", is 0.  The same board before its first move. *)
Definition fresh : Driver := set_lastDirection 0 at_rest.

(** The same board with the temperature of its last move at 9.8 C: the
    compensation due is exactly half a critical focus zone. *)
Definition steady : Driver := set_lastTemperature (98 # 10) at_rest.

(** The same board at position 1001 = 31 x 32 + 9, off the grid of every
    coarser resolution. *)
Definition off_grid : Driver := with_abs (setValue 1001) at_rest.

(** The same board at full-step resolution. *)
Definition full_step : Driver :=
  set_resolution 1 (with_abs (setMax 10000) at_rest).

End Focuser.

(** ** The light sensor: [readTSL] *)

Module TSL.

Inductive Mode : Type := TSL_NOTAVAILABLE | TSL_AVAILABLE | TSL_INITIALIZED.

Definition TSL2591_ADC_TIME : Z := 750.

Definition FILTER_COEFF : R := (-1.2)%R.

Record Sensor : Type := mkSensor {
  TSLmode : Mode;
  adcStartTime : Z;
  niter : Z;
  fullCumulative : Z;
  irCumulative : Z;
  SQMOffset : R;
  SQM_READING : R
}.

(** What one invocation gets from the bus and the clock: the handle of
    [lgI2cOpen], the return code of its k-th [lgI2cWriteByte], the value
    of [millis()] and the two channel words. *)
Record Bus : Type := mkBus {
  i2cHandle : Z;
  writeByte : nat -> Z;
  millis : Z;
  ir : Z;
  full : Z
}.

(** The brightness computed at finalization.  The logarithm is the real
    one, which the source's [log] agrees with for a visible sum above 0;
    at a visible sum of 0 or below the source yields an infinity or a NaN,
    and this value says nothing about it. *)
Definition mpsas (visCumulative n : Z) (offset : R) : R :=
  let VIS := (IZR visCumulative / (29628 * IZR n))%R in
  (12.6 - 1.086 * ln VIS + offset + FILTER_COEFF)%R.

Definition mode_after (write : Z) : Mode :=
  if write =? 0 then TSL_INITIALIZED else TSL_NOTAVAILABLE.

Definition readTSL (b : Bus) (t : Sensor) : Sensor * bool :=
  if i2cHandle b <? 0
  then (mkSensor TSL_NOTAVAILABLE (adcStartTime t) (niter t) (fullCumulative t)
          (irCumulative t) (SQMOffset t) (SQM_READING t), false)
  else
    match TSLmode t with
    | TSL_NOTAVAILABLE =>
        let write := writeByte b 0%nat in
        if write =? 0
        then (mkSensor TSL_AVAILABLE (adcStartTime t) (niter t) (fullCumulative t)
                (irCumulative t) (SQMOffset t) (SQM_READING t), true)
        else (t, false)
    | TSL_AVAILABLE =>
        let write :=
          writeByte b 0%nat + writeByte b 1%nat + writeByte b 2%nat
          + writeByte b 3%nat + writeByte b 4%nat + writeByte b 5%nat in
        (mkSensor (mode_after write) (adcStartTime t) (niter t) (fullCumulative t)
           (irCumulative t) (SQMOffset t) (SQM_READING t), write =? 0)
    | TSL_INITIALIZED =>
        if adcStartTime t =? 0
        then
          let write := writeByte b 0%nat + writeByte b 1%nat in
          (mkSensor (mode_after write) (millis b) (niter t) (fullCumulative t)
             (irCumulative t) (SQMOffset t) (SQM_READING t), write =? 0)
        else if adcStartTime t + TSL2591_ADC_TIME <? millis b
        then
          let write := writeByte b 0%nat + writeByte b 1%nat in
          let visCumulative := fullCumulative t - irCumulative t in
          if full b <? ir b
          then (mkSensor (TSLmode t) 0 (niter t) (fullCumulative t)
                  (irCumulative t) (SQMOffset t) (SQM_READING t), true)
          else if (niter t <? 5) || ((visCumulative <? 500) && (niter t <? 150))
          then (mkSensor (mode_after write) 0 (niter t + 1)
                  (fullCumulative t + full b) (irCumulative t + ir b)
                  (SQMOffset t) (SQM_READING t), write =? 0)
          else (mkSensor (mode_after write) 0 0 0 0 (SQMOffset t)
                  (mpsas visCumulative (niter t) (SQMOffset t)), write =? 0)
        else (t, false)
    end.

(** Whether this invocation takes the finalizing branch: it publishes a
    reading and clears the sums and the cycle counter. *)
Definition finalizes (b : Bus) (t : Sensor) : bool :=
  negb (i2cHandle b <? 0)
  && match TSLmode t with TSL_INITIALIZED => true | _ => false end
  && negb (adcStartTime t =? 0)
  && (adcStartTime t + TSL2591_ADC_TIME <? millis b)
  && negb (full b <? ir b)
  && negb ((niter t <? 5)
           || ((fullCumulative t - irCumulative t <? 500) && (niter t <? 150))).

(** One complete integration cycle on a healthy bus: the invocation that
    powers the sensor on at time [start], then the invocation at time
    [start + 751] that reads the sample [(full, ir)]. *)
Definition bus_ok (now ir full : Z) : Bus := mkBus 0 (fun _ => 0) now ir full.

Definition cycle (start : Z) (sample : Z * Z) (t : Sensor) : Sensor :=
  let t1 := fst (readTSL (bus_ok start 0 0) t) in
  fst (readTSL (bus_ok (start + 751) (snd sample) (fst sample)) t1).

Fixpoint cycles (start : Z) (samples : list (Z * Z)) (t : Sensor) : Sensor :=
  match samples with
  | [] => t
  | x :: rest => cycles (start + 1000) rest (cycle start x t)
  end.



(** An initialised sensor with empty sums. *)
Definition armed (offset : R) : Sensor :=
  mkSensor TSL_INITIALIZED 0 0 0 0 offset 0%R.

(** Five cycles accumulated, a visible sum of exactly 500, and the sample
    of the sixth integration ready to be read. *)
Definition at_threshold : Sensor :=
  mkSensor TSL_INITIALIZED 1000 5 600 100 0%R 0%R.

Definition sixth_sample : Bus := bus_ok 2000 10 20.

End TSL.

(** ** The power monitor: [readPower] *)

Module Power.

Inductive Channel : Type := Vin | Vreg | Itot.

Record Monitor : Type := mkMonitor {
  revision : Z;
  powerIndex : Z;
  POW_VIN : Q;
  POW_VREG : Q;
  POW_ITOT : Q;
  POW_PTOT : Q;
  POW_AH : Q;
  POW_WH : Q;
  energyAs : Q;
  energyWs : Q;
  PowerReadingsNP_s : IPState;
  sent : list (list Z)
}.

(** What one invocation gets from the bus: the handle of [lgI2cOpen], the
    return codes of [lgI2cWriteDevice] and [lgI2cReadDevice], and the two
    bytes read, as the [int] values the [char]s promote to. *)
Record Bus : Type := mkBus {
  i2cHandle : Z;
  written : Z;
  read : Z;
  readBuf0 : Z;
  readBuf1 : Z
}.

(** The channel of a cycle index: 0-1 Vin, 2-3 Vreg, 4-5 Itot. *)
Definition channel_of (index : Z) : Channel :=
  match index ÷ 2 with
  | 0 => Vin
  | 1 => Vreg
  | _ => Itot
  end.

(** The configuration byte that triggers a conversion of a channel.  The
    byte of the third channel carries the multiplexer code 011, which the
    comment in the source calls Ireal; its result is stored as POW_ITOT. *)
Definition mux (c : Channel) : Z :=
  match c with
  | Vin => 195    (* 0b11000011 *)
  | Vreg => 211   (* 0b11010011 *)
  | Itot => 179   (* 0b10110011 *)
  end.

(** The multiplier applied to [val / 32768.0] for a channel; [ACS_TYPE]
    is 0, which selects 20 for the current. *)
Definition gain (c : Channel) : Q :=
  match c with
  | Vin => (4096 # 1000) * (66 # 10)
  | Vreg => (4096 # 1000) * (66 # 10)
  | Itot => (4096 # 1000) * 1 * 20
  end.

(** The three bytes written at an even index. *)
Definition trigger_command (index : Z) : list Z :=
  [1;
   match index with
   | 0 => 195
   | 2 => 211
   | 4 => 179
   | _ => 195
   end;
   35].

Definition next_index (index : Z) : Z :=
  if 5 <? index + 1 then 0 else index + 1.

Definition readPower (b : Bus) (m : Monitor) : Monitor * bool :=
  if revision m <? 4 then (m, false)
  else if 0 <=? i2cHandle b then
    if Z.rem (powerIndex m) 2 =? 0
    then
      (mkMonitor (revision m) (next_index (powerIndex m))
         (POW_VIN m) (POW_VREG m) (POW_ITOT m) (POW_PTOT m) (POW_AH m) (POW_WH m)
         (energyAs m) (energyWs m)
         (if negb (written b =? 0) then IPS_ALERT else PowerReadingsNP_s m)
         (sent m ++ [trigger_command (powerIndex m)]), true)
    else if written b =? 0 then
      if 0 <? read b then
        let val := to_int16 (readBuf0 b * 255 + readBuf1 b) in
        let vin :=
          if powerIndex m =? 1
          then (inject_Z val / 32768 * (4096 # 1000) * (66 # 10))%Q
          else POW_VIN m in
        let vreg :=
          if powerIndex m =? 3
          then (inject_Z val / 32768 * (4096 # 1000) * (66 # 10))%Q
          else POW_VREG m in
        let itot :=
          if powerIndex m =? 5
          then (inject_Z val / 32768 * (4096 # 1000) * 1 * 20)%Q
          else POW_ITOT m in
        let As := (energyAs m + itot * (4 # 10))%Q in
        let Ws := (energyWs m + vin * itot * (4 # 10))%Q in
        (mkMonitor (revision m) (next_index (powerIndex m))
           vin vreg itot (vin * itot)%Q (As / 3600)%Q (Ws / 3600)%Q
           As Ws IPS_OK (sent m ++ [[0]]), true)
      else
        (mkMonitor (revision m) (next_index (powerIndex m))
           (POW_VIN m) (POW_VREG m) (POW_ITOT m) (POW_PTOT m) (POW_AH m) (POW_WH m)
           (energyAs m) (energyWs m) IPS_ALERT (sent m ++ [[0]]), true)
    else
      (mkMonitor (revision m) (next_index (powerIndex m))
         (POW_VIN m) (POW_VREG m) (POW_ITOT m) (POW_PTOT m) (POW_AH m) (POW_WH m)
         (energyAs m) (energyWs m) IPS_ALERT (sent m ++ [[0]]), true)
  else (m, false).

(** The stored reading of a channel. *)
Definition reading (c : Channel) (m : Monitor) : Q :=
  match c with
  | Vin => POW_VIN m
  | Vreg => POW_VREG m
  | Itot => POW_ITOT m
  end.

(** The word the source assembles from the two bytes read (line 1663). *)
Definition assembled_word (hi lo : Z) : Z := to_int16 (hi * 255 + lo).

(** Following the spec, "the conversion result as a signed 16-bit value":
    the two's complement word of the two bytes, the first one the high
    byte. *)
Definition conversion_result (hi lo : Z) : Z := to_int16 (hi * 256 + lo).

(** The multiplexer field of a configuration byte: bits 14:12 of the
    configuration word, bits 6:4 of its high byte. *)
Definition mux_field (config : Z) : Z := Z.land (Z.shiftr config 4) 7.

(** The multiplexer inputs as the comment above the commands lists them:
    100 Vin, 101 Vreg, 110 Itot (and 111 Iref, 011 Ireal). *)
Definition mux_input (c : Channel) : Z :=
  match c with
  | Vin => 4
  | Vreg => 5
  | Itot => 6
  end.

(** A successful read: the branch that stores a conversion result. *)
Definition reads_result (b : Bus) (m : Monitor) : bool :=
  negb (revision m <? 4) && (0 <=? i2cHandle b)
  && negb (Z.rem (powerIndex m) 2 =? 0) && (written b =? 0) && (0 <? read b).

(** A revision-4 board drawing 1 A at 12 V, about to read the Vin channel. *)
Definition reading_vin : Monitor :=
  mkMonitor 4 1 12 5 1 12 0 0 0 0 IPS_OK [].

(** A healthy bus returning the two bytes 95 and 70. *)
Definition bus_reads : Bus := mkBus 0 0 2 95 70.

End Power.

(** ** Further focuser operations *)

Module FocuserOps.

Import Focuser.

Inductive FocusDirection : Type := FOCUS_INWARD | FOCUS_OUTWARD.

(** [MoveRelFocuser]: the target is computed as a [double] and converted
    to the [uint32_t] parameter of [MoveAbsFocuser]; the conversion is a
    parameter, as for the other callers that pass a computed value. *)
Definition MoveRelFocuser (double_to_uint32 : Z -> Z) (dir : FocusDirection)
    (ticks : Z) (s : Driver) : Driver * IPState :=
  let targetTicks :=
    double_to_uint32
      (Position s
       + to_int ticks * (match dir with FOCUS_INWARD => -1 | FOCUS_OUTWARD => 1 end)) in
  MoveAbsFocuser targetTicks s.

(** The hold switches read by [getHoldPower]. *)
Record FocusHoldS : Type := mkHold {
  HOLD_20 : bool;
  HOLD_40 : bool;
  HOLD_60 : bool;
  HOLD_80 : bool;
  HOLD_100 : bool
}.

Definition getHoldPower (h : FocusHoldS) : Z :=
  if HOLD_20 h then 1
  else if HOLD_40 h then 2
  else if HOLD_60 h then 3
  else if HOLD_80 h then 4
  else if HOLD_100 h then 5
  else 0.

Definition to_uint8 (z : Z) : Z := z mod 2 ^ 8.

(** [setDac]: the two bytes handed to [lgSpiWrite]. *)
Definition setDac (chan value : Z) : Z * Z :=
  let chanBits := if chan =? 0 then 48 else 176 in
  let chanBits := to_uint8 (Z.lor chanBits (Z.land (Z.shiftr value 4) 15)) in
  let dataBits := to_uint8 (Z.land (Z.shiftl value 4) 240) in
  (chanBits, dataBits).

Definition set_FocusReverse (r : bool) (s : Driver) : Driver :=
  mkDriver (isConnected s) (revision s) (FocusAbsPosNP s) (FocusRelPosNP s)
    (FocusMaxPosNP s) (FocusBacklash s) r (holdPower s)
    (StepperCurrent s) (TemperatureCompensate s) (TemperatureCoef s)
    (FocusTemperature s) (FocuserTravel s) (SCOPE_DIAM s) (SCOPE_FL s)
    (FocuserInfoN s) (resolution s) (lastDirection s)
    (backlashTicksRemaining s) (lastTemperature s) (_abort s)
    (_motionThread s) (EN_PIN s) (DECAY_PIN s) (modePins s) (motorLevel s)
    (positionFile s).

(** The worker scheduled [k] times. *)
Fixpoint worker_ticks (k : nat) (s : Driver) : Driver :=
  match k with
  | O => s
  | S k' => worker_ticks k' (worker_tick s)
  end.

(** *** Vocabulary of the properties *)

Definition between (a b x : Z) : Prop := Z.min a b <= x <= Z.max a b.

(** The pulses of a worker that advanced its counter. *)
Definition counted_steps (w : Worker) : Z :=
  Z.of_nat (length (filter counted (pulses w))).

(** A worker on its way from [P] to [t]: its counter is the start plus or
    minus its counted pulses and has not left the interval, and neither
    has the published position. *)
Definition on_course (P t : Z) (s : Driver) : Prop :=
  exists w,
    _motionThread s = Some w
    /\ targetPos w = t
    /\ motorDirection w = (if P <? t then 1 else -1)
    /\ between P t (currentPos w)
    /\ currentPos w = P + motorDirection w * counted_steps w
    /\ between P t (Position s)
    /\ (exited w = true -> Position s = currentPos w).

(** A pulse with the level of the direction line inverted. *)
Definition flip_level (p : Pulse) : Pulse :=
  mkPulse (negb (dirLevel p)) (counted p).

(** The hardware settings a move does not touch. *)
Definition same_board (s s' : Driver) : Prop :=
  isConnected s' = isConnected s
  /\ revision s' = revision s
  /\ holdPower s' = holdPower s
  /\ StepperCurrent s' = StepperCurrent s.

(** A move outward to 2000 requested on the example board, six
    iterations later. *)
Definition under_way : Driver :=
  worker_ticks 6 (fst (MoveAbsFocuser 2000 at_rest)).

End FocuserOps.

(** ** Sky quality: [readSQM] and the older sensor *)

Module SkyQuality.

Import TSL.

(** What [readOLD] gets from the bus: the handle of [lgI2cOpen], the
    return code of [lgI2cReadDevice] and the last two of the seven bytes,
    as the [int] values the [char]s promote to. *)
Record OldBus : Type := mkOldBus {
  oldHandle : Z;
  oldRead : Z;
  i2cData5 : Z;
  i2cData6 : Z
}.

Definition set_SQM_READING (v : R) (t : Sensor) : Sensor :=
  mkSensor (TSLmode t) (adcStartTime t) (niter t) (fullCumulative t)
    (irCumulative t) (SQMOffset t) v.

Definition readOLD (o : OldBus) (t : Sensor) : Sensor * bool :=
  if 0 <=? oldHandle o then
    if 6 <? oldRead o
    then
      let sqm := i2cData5 o * 256 + i2cData6 o in
      (set_SQM_READING (0.01 * IZR sqm)%R t, true)
    else (t, false)
  else (t, false).

(** [readTSL() || (triggerOldSensor && readOLD())], evaluated left to
    right with the short circuit of the source. *)
Definition readSQM (triggerOldSensor : bool) (b : Bus) (o : OldBus)
    (t : Sensor) : Sensor * bool :=
  let r := readTSL b t in
  if snd r then (fst r, true)
  else if triggerOldSensor then readOLD o (fst r)
  else (fst r, false).

(** Successive invocations of [readTSL], one per element of [bs]. *)
Fixpoint readTSL_all (bs : list Bus) (t : Sensor) : Sensor :=
  match bs with
  | [] => t
  | b :: rest => readTSL_all rest (fst (readTSL b t))
  end.

(** The same sensor with the mode changed. *)
Definition set_TSLmode (m : Mode) (t : Sensor) : Sensor :=
  mkSensor m (adcStartTime t) (niter t) (fullCumulative t)
    (irCumulative t) (SQMOffset t) (SQM_READING t).

(** A bus on which every transfer fails with the code -1. *)
Definition bus_failing (now ir full : Z) : Bus :=
  mkBus 0 (fun _ => -1) now ir full.

(** A bus whose device cannot be opened. *)
Definition bus_down : Bus := mkBus (-1) (fun _ => 0) 0 0 0.

(** An initialised sensor in the middle of an integration started at
    time 1000, with three cycles accumulated. *)
Definition integrating : Sensor :=
  mkSensor TSL_INITIALIZED 1000 3 300 60 0%R 21%R.

End SkyQuality.

(** ** Successive invocations of [readPower] *)

Module PowerOps.

Import Power.

Fixpoint readPower_all (bs : list Bus) (m : Monitor) : Monitor :=
  match bs with
  | [] => m
  | b :: rest => readPower_all rest (fst (readPower b m))
  end.

(** The reading a pair of result bytes stands for on a channel. *)
Definition scaled (c : Channel) (b : Bus) : Q :=
  (inject_Z (to_int16 (readBuf0 b * 255 + readBuf1 b)) / 32768 * gain c)%Q.

(** A bus on which every transfer succeeds, returning two bytes. *)
Definition bus_good (b0 b1 : Z) : Bus := mkBus 0 0 2 b0 b1.

(** A revision-4 board at the start of a cycle, drawing 1 A at 12 V. *)
Definition cycle_start : Monitor :=
  mkMonitor 4 0 12 5 1 12 0 0 0 0 IPS_OK [].

End PowerOps.

(** ** Temperature and humidity: [readSHT], [readMLX], and the
       temperature block of [TimerHit] *)

Module Weather.

Record Station : Type := mkStation {
  WEATHER_TEMPERATURE : Q;
  WEATHER_HUMIDITY : Q;
  WEATHER_DEWPOINT : R;
  WEATHER_SKY_TEMP : Q;
  WEATHER_SKY_DIFF : Q;
  focuserTemperature : Q;
  SHTavailable : bool;
  MLXavailable : bool
}.

(** What [readSHT] gets from the bus: the handle, the return codes of the
    write and of the read, and the four bytes it uses, as the [int]
    values the [char]s promote to. *)
Record SHTBus : Type := mkSHTBus {
  shtHandle : Z;
  shtWritten : Z;
  shtRead : Z;
  i2cData0 : Z;
  i2cData1 : Z;
  i2cData3 : Z;
  i2cData4 : Z
}.

(** What [readMLX] gets from the bus: the handle and the two words of
    [lgI2cReadWordData], negative on a failed transfer. *)
Record MLXBus : Type := mkMLXBus {
  mlxHandle : Z;
  Tamb : Z;
  Tobj : Z
}.

(** The Magnus formula of [readSHT].  The real logarithm and division
    are total here; the source yields an infinity or a NaN where they are
    undefined. *)
Definition dewpoint (cTemp humidity : Q) : R :=
  let a := 17.271%R in
  let b := 237.7%R in
  let tempAux := (a * Q2R cTemp / (b + Q2R cTemp) + ln (Q2R humidity * 0.01))%R in
  (b * tempAux / (a - tempAux))%R.

Definition set_SHTavailable (a : bool) (w : Station) : Station :=
  mkStation (WEATHER_TEMPERATURE w) (WEATHER_HUMIDITY w) (WEATHER_DEWPOINT w)
    (WEATHER_SKY_TEMP w) (WEATHER_SKY_DIFF w) (focuserTemperature w)
    a (MLXavailable w).

Definition set_MLXavailable (a : bool) (w : Station) : Station :=
  mkStation (WEATHER_TEMPERATURE w) (WEATHER_HUMIDITY w) (WEATHER_DEWPOINT w)
    (WEATHER_SKY_TEMP w) (WEATHER_SKY_DIFF w) (focuserTemperature w)
    (SHTavailable w) a.

Definition sht_temperature (b : SHTBus) : Q :=
  let temp := i2cData0 b * 256 + i2cData1 b in
  (-45 + 175 * inject_Z temp / 65535)%Q.

Definition sht_humidity (b : SHTBus) : Q :=
  (100 * (inject_Z (i2cData3 b) * 256 + inject_Z (i2cData4 b)) / 65535)%Q.

Definition readSHT (b : SHTBus) (w : Station) : Station * bool :=
  let w1 :=
    if 0 <=? shtHandle b then
      if shtWritten b =? 0 then
        if 4 <? shtRead b then
          let cTemp := sht_temperature b in
          let humidity := sht_humidity b in
          mkStation cTemp humidity (dewpoint cTemp humidity)
            (WEATHER_SKY_TEMP w) (WEATHER_SKY_DIFF w) cTemp true
            (MLXavailable w)
        else w
      else set_SHTavailable false w
    else set_SHTavailable false w in
  let w2 :=
    if negb (SHTavailable w1)
    then mkStation 0 0 0%R (WEATHER_SKY_TEMP w1) (WEATHER_SKY_DIFF w1)
           (focuserTemperature w1) (SHTavailable w1) (MLXavailable w1)
    else w1 in
  (w2, SHTavailable w2).

Definition mlx_celsius (word : Z) : Q :=
  ((2 # 100) * inject_Z word - (27315 # 100))%Q.

Definition readMLX (b : MLXBus) (w : Station) : Station * bool :=
  let w1 :=
    if 0 <=? mlxHandle b then
      if (0 <=? Tamb b) && (0 <=? Tobj b) then
        mkStation (WEATHER_TEMPERATURE w) (WEATHER_HUMIDITY w)
          (WEATHER_DEWPOINT w)
          (mlx_celsius (Tobj b))
          ((2 # 100) * inject_Z (Tobj b - Tamb b))%Q
          (if negb (SHTavailable w) then mlx_celsius (Tamb b)
           else focuserTemperature w)
          (SHTavailable w) true
      else set_MLXavailable false w
    else set_MLXavailable false w in
  let w2 :=
    if negb (MLXavailable w1)
    then mkStation (WEATHER_TEMPERATURE w1) (WEATHER_HUMIDITY w1)
           (WEATHER_DEWPOINT w1) 0 0 (focuserTemperature w1)
           (SHTavailable w1) (MLXavailable w1)
    else w1 in
  (w2, MLXavailable w2).

Definition set_FocusTemperature (t : Q) (s : Focuser.Driver) : Focuser.Driver :=
  Focuser.mkDriver (Focuser.isConnected s) (Focuser.revision s)
    (Focuser.FocusAbsPosNP s) (Focuser.FocusRelPosNP s)
    (Focuser.FocusMaxPosNP s) (Focuser.FocusBacklash s)
    (Focuser.FocusReverse s) (Focuser.holdPower s)
    (Focuser.StepperCurrent s) (Focuser.TemperatureCompensate s)
    (Focuser.TemperatureCoef s) t (Focuser.FocuserTravel s)
    (Focuser.SCOPE_DIAM s) (Focuser.SCOPE_FL s) (Focuser.FocuserInfoN s)
    (Focuser.resolution s) (Focuser.lastDirection s)
    (Focuser.backlashTicksRemaining s) (Focuser.lastTemperature s)
    (Focuser._abort s) (Focuser._motionThread s) (Focuser.EN_PIN s)
    (Focuser.DECAY_PIN s) (Focuser.modePins s) (Focuser.motorLevel s)
    (Focuser.positionFile s).

(** [TimerHit], the block run when the temperature read is due: both
    sensors are read, the SHT first, and the focuser temperature is
    published; the third component is the state of
    [FocusTemperatureNP]. *)
Definition TimerHit_temperature (sb : SHTBus) (mb : MLXBus) (w : Station)
    (s : Focuser.Driver) : Station * Focuser.Driver * IPState :=
  let w1 := set_SHTavailable (snd (readSHT sb w)) (fst (readSHT sb w)) in
  let w2 := set_MLXavailable (snd (readMLX mb w1)) (fst (readMLX mb w1)) in
  if SHTavailable w2 || MLXavailable w2
  then (w2, set_FocusTemperature (focuserTemperature w2) s, IPS_OK)
  else (w2, set_FocusTemperature 0 s, IPS_ALERT).

(** An SHT on which the measurement succeeds, and one that is absent. *)
Definition sht_good (d0 d1 d3 d4 : Z) : SHTBus := mkSHTBus 0 0 6 d0 d1 d3 d4.

Definition sht_absent : SHTBus := mkSHTBus (-1) 0 0 0 0 0 0.

(** An SHT that answers the command with too few bytes. *)
Definition sht_short : SHTBus := mkSHTBus 0 0 2 0 0 0 0.

Definition mlx_good (amb obj : Z) : MLXBus := mkMLXBus 0 amb obj.

Definition mlx_absent : MLXBus := mkMLXBus (-1) 0 0.

(** A station that has published nothing yet. *)
Definition station0 : Station := mkStation 0 0 0%R 0 0 0 false false.

End Weather.

(** ** The fan: [fanUpdate] *)

Module Fan.

Record FanState : Type := mkFan {
  FanPowerNP_s : IPState;
  FanPower : Z;
  pwm : option Z
}.

(** [fanPinAvailable] is the return code of [lgGpioClaimOutput], [temp]
    the CPU temperature parsed from the system information; [pwm] is the
    duty cycle last handed to [lgTxPwm]. *)
Definition fanUpdate (fanPinAvailable temp : Z) (f : FanState) : FanState :=
  if fanPinAvailable =? 0 then
    let cycle := if 70 <? temp then 100 else if 65 <? temp then 50 else 0 in
    let fanPwr := if 70 <? temp then 100 else if 65 <? temp then 66 else 33 in
    mkFan IPS_OK fanPwr (Some cycle)
  else mkFan IPS_ALERT (FanPower f) (pwm f).

Definition duty (f : FanState) : Z :=
  match pwm f with Some c => c | None => 0 end.

Definition fan0 : FanState := mkFan IPS_IDLE 0 None.

End Fan.

(** * Properties *)

Module FocuserProofs.

Import Focuser.

(** ** The stepping loop *)

Lemma steps_left_zero (w : Worker) :
  worker_ok w -> (steps_left w = 0 <-> currentPos w = targetPos w).
Proof.
  unfold worker_ok, steps_left. change (2 ^ 32) with 4294967296.
  intros (_ & Hd & Hc & Ht).
  destruct Hd as [-> | ->]; split; intros H;
    try (subst; rewrite ?Z.mul_1_r; replace (targetPos w - targetPos w) with 0 by lia;
         reflexivity);
    revert H; Z.div_mod_to_equations; lia.
Qed.

Lemma steps_left_advance (w : Worker) :
  worker_ok w -> currentPos w <> targetPos w ->
  ((targetPos w - to_uint32 (currentPos w + motorDirection w)) * motorDirection w)
    mod 2 ^ 32 = steps_left w - 1.
Proof.
  intros Hok Hne.
  assert (Hnz : steps_left w <> 0) by (rewrite (steps_left_zero w Hok); exact Hne).
  revert Hnz. destruct Hok as (_ & Hd & Hc & Ht).
  unfold steps_left, to_uint32. change (2 ^ 32) with 4294967296.
  destruct Hd as [-> | ->]; intros Hnz; revert Hnz;
    Z.div_mod_to_equations; lia.
Qed.

Lemma to_uint32_range (z : Z) : 0 <= to_uint32 z < 2 ^ 32.
Proof. unfold to_uint32. apply Z.mod_pos_bound. reflexivity. Qed.

(** A product that fits an [int] is not changed by the wrap. *)
Lemma int_mul_small (a b : Z) :
  - 2 ^ 31 <= a * b < 2 ^ 31 -> int_mul a b = a * b.
Proof.
  unfold int_mul, to_int. change (2 ^ 31) with 2147483648.
  change (2 ^ 32) with 4294967296. intros H.
  rewrite Z.mod_small; lia.
Qed.

Lemma run_worker_step (n : nat) (s : Driver) (w : Worker) :
  _motionThread s = Some w -> exited w = false ->
  run_worker (S n) s = run_worker n (worker_tick s).
Proof. intros Ht He. simpl. rewrite Ht, He. reflexivity. Qed.

Lemma run_worker_exited (n : nat) (s : Driver) (w : Worker) :
  _motionThread s = Some w -> exited w = true -> run_worker n s = Some s.
Proof. intros Ht He. destruct n; simpl; rewrite Ht, He; reflexivity. Qed.

(** More fuel does not change the outcome of a run. *)
Lemma run_worker_deterministic (f1 : nat) :
  forall f2 x y z,
    run_worker f1 x = Some y -> run_worker f2 x = Some z -> y = z.
Proof.
  induction f1 as [|f1 IH]; intros f2 x y z Hy Hz.
  - simpl in Hy. destruct (_motionThread x) as [w|] eqn:Hth;
      [destruct (exited w) eqn:Hex; [|discriminate]|].
    + inversion Hy; subst.
      rewrite (run_worker_exited f2 y w Hth Hex) in Hz.
      inversion Hz; reflexivity.
    + inversion Hy; subst.
      destruct f2; simpl in Hz; rewrite Hth in Hz; inversion Hz; reflexivity.
  - destruct (_motionThread x) as [w|] eqn:Hth.
    + destruct (exited w) eqn:Hex.
      * rewrite (run_worker_exited (S f1) x w Hth Hex) in Hy.
        rewrite (run_worker_exited f2 x w Hth Hex) in Hz. congruence.
      * rewrite (run_worker_step f1 x w Hth Hex) in Hy.
        destruct f2 as [|f2].
        { simpl in Hz. rewrite Hth, Hex in Hz. discriminate. }
        rewrite (run_worker_step f2 x w Hth Hex) in Hz.
        exact (IH f2 _ _ _ Hy Hz).
    + simpl in Hy. rewrite Hth in Hy.
      destruct f2; simpl in Hz; rewrite Hth in Hz; congruence.
Qed.

Ltac crush_exit :=
  unfold worker_exit, setCurrent, savePosition, Position; simpl;
  repeat match goal with
         | |- context [if ?c then _ else _] => destruct c; simpl
         end;
  try reflexivity.

Lemma worker_exit_Position (s : Driver) (w : Worker) :
  Position (worker_exit s w) = currentPos w.
Proof. crush_exit. Qed.

Lemma worker_exit_thread (s : Driver) (w : Worker) :
  _motionThread (worker_exit s w) =
  Some (mkWorker (targetPos w) (motorDirection w) (backlashLeft w)
          (currentPos w) (pulses w) true).
Proof. reflexivity. Qed.

Lemma worker_exit_lastTemperature (s : Driver) (w : Worker) :
  lastTemperature (worker_exit s w) = FocusTemperature s.
Proof. crush_exit. Qed.

Lemma worker_exit_positionFile (s : Driver) (w : Worker) :
  positionFile (worker_exit s w) =
  positionFile (savePosition
                  (int_mul (to_int (currentPos w)) MAX_RESOLUTION ÷ resolution s) s).
Proof. crush_exit. Qed.

(** A running worker that is not aborted reaches its target: it first
    emits its uncounted pulses, then its counted steps, then runs the
    exit code. *)
Lemma worker_completes (m : nat) :
  forall (s : Driver) (w : Worker),
    _motionThread s = Some w -> _abort s = false -> worker_ok w ->
    Z.of_nat m = backlash_left w + steps_left w ->
    exists s' w',
      run_worker (S m) s = Some s'
      /\ _motionThread s' = Some w' /\ exited w' = true
      /\ Position s' = targetPos w /\ currentPos w' = targetPos w
      /\ pulses w' =
           pulses w
           ++ repeat (mkPulse (dir_level s w) false) (Z.to_nat (backlash_left w))
           ++ repeat (mkPulse (dir_level s w) true) (Z.to_nat (steps_left w))
      /\ lastTemperature s' = FocusTemperature s
      /\ positionFile s' =
           positionFile (savePosition
                           (int_mul (to_int (targetPos w)) MAX_RESOLUTION ÷ resolution s) s).
Proof.
  induction m as [|m IH]; intros s w Ht Ha Hok Hm.
  - (* nothing left: the loop condition fails at once *)
    assert (Hs : steps_left w = 0).
    { assert (0 <= backlash_left w)
        by (unfold backlash_left; destruct (_ =? _); lia).
      assert (0 <= steps_left w)
        by (unfold steps_left; apply Z.mod_pos_bound; reflexivity).
      lia. }
    assert (Hb : backlash_left w = 0) by lia.
    pose proof (proj1 (steps_left_zero w Hok) Hs) as Heq.
    destruct Hok as (He & _).
    rewrite (run_worker_step _ s w Ht He).
    unfold worker_tick. rewrite Ht, He. unfold worker_continues.
    rewrite Heq, Z.eqb_refl. simpl negb. simpl andb.
    exists (worker_exit s w). eexists. split.
    { apply (run_worker_exited _ _ _ (worker_exit_thread s w)). reflexivity. }
    rewrite Hs, Hb. simpl repeat. rewrite !app_nil_r.
    split; [apply worker_exit_thread|].
    split; [reflexivity|].
    split; [rewrite worker_exit_Position; exact Heq|].
    split; [exact Heq|].
    split; [reflexivity|].
    split; [apply worker_exit_lastTemperature|].
    rewrite worker_exit_positionFile, Heq. reflexivity.
  - (* one more iteration *)
    assert (Hne : currentPos w <> targetPos w).
    { intros Heq. pose proof (proj2 (steps_left_zero w Hok) Heq) as Hs.
      unfold backlash_left in Hm. rewrite Heq, Z.eqb_refl in Hm. lia. }
    pose proof Hok as (He & Hd & Hc & Htg).
    rewrite (run_worker_step _ s w Ht He).
    unfold worker_tick. rewrite Ht, He. unfold worker_continues.
    rewrite (proj2 (Z.eqb_neq _ _) Hne), Ha. simpl negb. simpl andb.
    unfold backlash_left in Hm. rewrite (proj2 (Z.eqb_neq _ _) Hne) in Hm.
    unfold worker_iteration.
    remember (if currentPos w mod 100 =? 0
              then with_abs (fun p => setState IPS_BUSY (setValue (currentPos w) p)) s
              else s) as s1 eqn:Hs1.
    assert (Hfr : FocusReverse s1 = FocusReverse s /\ _abort s1 = _abort s
                  /\ FocusTemperature s1 = FocusTemperature s
                  /\ resolution s1 = resolution s
                  /\ positionFile s1 = positionFile s).
    { subst s1. destruct (_ =? 0); repeat split; reflexivity. }
    destruct Hfr as (Hr1 & Ha1 & Hf1 & Hres1 & Hpf1).
    fold (dir_level s w).
    destruct (backlashLeft w <=? 0) eqn:Hbl.
    + (* a counted step *)
      apply Z.leb_le in Hbl.
      set (w1 := mkWorker (targetPos w) (motorDirection w) (backlashLeft w)
                   (to_uint32 (currentPos w + motorDirection w))
                   (pulses w ++ [mkPulse (dir_level s w) true]) false).
      assert (Hok1 : worker_ok w1).
      { unfold worker_ok, w1; simpl.
        split; [reflexivity | split; [assumption | split; [|assumption]]].
        apply to_uint32_range. }
      assert (Hst1 : steps_left w1 = steps_left w - 1).
      { unfold steps_left at 1, w1; simpl. apply steps_left_advance; assumption. }
      assert (Hb1 : backlash_left w1 = 0).
      { unfold backlash_left, w1; cbn [backlashLeft currentPos targetPos].
        destruct (to_uint32 _ =? targetPos w); lia. }
      destruct (IH (set_motionThread (Some w1) s1) w1) as (s' & w' & Hrun & R).
      { reflexivity. }
      { simpl. rewrite Ha1. exact Ha. }
      { exact Hok1. }
      { rewrite Hb1, Hst1. lia. }
      exists s', w'. split; [exact Hrun|].
      destruct R as (R1 & R2 & R3 & R4 & R5 & R6 & R7).
      repeat split; try assumption.
      * assert (Hdl : dir_level (set_motionThread (Some w1) s1) w1 = dir_level s w).
        { unfold dir_level; simpl. rewrite Hr1. reflexivity. }
        rewrite R5, Hdl, Hb1, Hst1. unfold backlash_left.
        rewrite (proj2 (Z.eqb_neq _ _) Hne).
        replace (Z.max 0 (backlashLeft w)) with 0 by lia.
        change (pulses w1) with (pulses w ++ [mkPulse (dir_level s w) true]).
        rewrite <- app_assoc. f_equal.
        replace (Z.to_nat (steps_left w)) with (S (Z.to_nat (steps_left w - 1))) by lia.
        reflexivity.
      * rewrite R6. simpl. exact Hf1.
      * rewrite R7. unfold savePosition. simpl. rewrite Hres1.
        destruct (_ =? -1); simpl; [exact Hpf1 | reflexivity].
    + (* a backlash pulse *)
      apply Z.leb_gt in Hbl.
      set (w1 := mkWorker (targetPos w) (motorDirection w) (backlashLeft w - 1)
                   (currentPos w)
                   (pulses w ++ [mkPulse (dir_level s w) false]) false).
      assert (Hok1 : worker_ok w1).
      { unfold worker_ok, w1; simpl.
        split; [reflexivity | split; [assumption | split; assumption]]. }
      assert (Hst1 : steps_left w1 = steps_left w) by reflexivity.
      assert (Hb1 : backlash_left w1 = Z.max 0 (backlashLeft w) - 1).
      { unfold backlash_left, w1; cbn [backlashLeft currentPos targetPos].
        rewrite (proj2 (Z.eqb_neq _ _) Hne). lia. }
      destruct (IH (set_motionThread (Some w1) s1) w1) as (s' & w' & Hrun & R).
      { reflexivity. }
      { simpl. rewrite Ha1. exact Ha. }
      { exact Hok1. }
      { rewrite Hb1, Hst1. lia. }
      exists s', w'. split; [exact Hrun|].
      destruct R as (R1 & R2 & R3 & R4 & R5 & R6 & R7).
      repeat split; try assumption.
      * assert (Hdl : dir_level (set_motionThread (Some w1) s1) w1 = dir_level s w).
        { unfold dir_level; simpl. rewrite Hr1. reflexivity. }
        rewrite R5, Hdl, Hb1, Hst1. unfold backlash_left.
        rewrite (proj2 (Z.eqb_neq _ _) Hne).
        change (pulses w1) with (pulses w ++ [mkPulse (dir_level s w) false]).
        rewrite <- app_assoc. f_equal.
        replace (Z.to_nat (Z.max 0 (backlashLeft w)))
          with (S (Z.to_nat (Z.max 0 (backlashLeft w) - 1))) by lia.
        reflexivity.
      * rewrite R6. simpl. exact Hf1.
      * rewrite R7. unfold savePosition. simpl. rewrite Hres1.
        destruct (_ =? -1); simpl; [exact Hpf1 | reflexivity].
Qed.

(** ** Starting a move *)

Lemma range_test (s : Driver) (t : Z) :
  in_range s t ->
  (t <? getMin (FocusAbsPosNP s)) || (getMax (FocusAbsPosNP s) <? t) = false.
Proof.
  unfold in_range. intros [H1 H2].
  apply orb_false_iff. split; apply Z.ltb_ge; assumption.
Qed.

Lemma range_test_out (s : Driver) (t : Z) :
  ~ in_range s t ->
  (t <? getMin (FocusAbsPosNP s)) || (getMax (FocusAbsPosNP s) <? t) = true.
Proof.
  unfold in_range. intros H.
  apply orb_true_iff.
  destruct (Z.ltb_spec t (getMin (FocusAbsPosNP s))); [left; reflexivity|].
  destruct (Z.ltb_spec (getMax (FocusAbsPosNP s)) t); [right; reflexivity|].
  exfalso. apply H. split; assumption.
Qed.

Lemma setCurrent_frame (b : bool) (s : Driver) :
  exists en dc ml, setCurrent b s = set_motor en dc ml s.
Proof.
  unfold setCurrent. destruct (isConnected s); simpl.
  - destruct b; eexists; eexists; eexists; reflexivity.
  - exists (EN_PIN s), (DECAY_PIN s), (motorLevel s). destruct s; reflexivity.
Qed.

Lemma savePosition_frame (p : Z) (s : Driver) :
  exists f, savePosition p s = set_positionFile f s.
Proof.
  unfold savePosition. destruct (p =? -1).
  - exists (positionFile s). destruct s; reflexivity.
  - eexists; reflexivity.
Qed.

(** The fields the exit code of a worker leaves alone. *)
Lemma worker_exit_frame (s : Driver) (w : Worker) :
  lastDirection (worker_exit s w) = lastDirection s
  /\ backlashTicksRemaining (worker_exit s w) = backlashTicksRemaining s
  /\ FocusReverse (worker_exit s w) = FocusReverse s
  /\ FocusTemperature (worker_exit s w) = FocusTemperature s
  /\ resolution (worker_exit s w) = resolution s
  /\ _abort (worker_exit s w) = _abort s.
Proof.
  unfold worker_exit.
  destruct (savePosition_frame
              (int_mul
                 (to_int (Position (with_rel (setState IPS_OK)
                    (with_abs (fun p => setState IPS_OK (setValue (currentPos w) p)) s))))
                 MAX_RESOLUTION
               ÷ resolution (with_rel (setState IPS_OK)
                 (with_abs (fun p => setState IPS_OK (setValue (currentPos w) p)) s)))
              (with_rel (setState IPS_OK)
                 (with_abs (fun p => setState IPS_OK (setValue (currentPos w) p)) s)))
    as (f & ->).
  match goal with
  | |- context [setCurrent true ?x] =>
      destruct (setCurrent_frame true x) as (en & dc & ml & ->)
  end.
  repeat split; reflexivity.
Qed.

(** Replacing the thread or the flag touches no other field. *)
Lemma lastDirection_set_motionThread (t : option Worker) (s : Driver) :
  lastDirection (set_motionThread t s) = lastDirection s.
Proof. reflexivity. Qed.

Lemma lastDirection_set_abort (a : bool) (s : Driver) :
  lastDirection (set_abort a s) = lastDirection s.
Proof. reflexivity. Qed.

Lemma backlashTicksRemaining_set_motionThread (t : option Worker) (s : Driver) :
  backlashTicksRemaining (set_motionThread t s) = backlashTicksRemaining s.
Proof. reflexivity. Qed.

Lemma backlashTicksRemaining_set_abort (a : bool) (s : Driver) :
  backlashTicksRemaining (set_abort a s) = backlashTicksRemaining s.
Proof. reflexivity. Qed.

Lemma FocusReverse_set_motionThread (t : option Worker) (s : Driver) :
  FocusReverse (set_motionThread t s) = FocusReverse s.
Proof. reflexivity. Qed.

Lemma FocusReverse_set_abort (a : bool) (s : Driver) :
  FocusReverse (set_abort a s) = FocusReverse s.
Proof. reflexivity. Qed.

Lemma FocusTemperature_set_motionThread (t : option Worker) (s : Driver) :
  FocusTemperature (set_motionThread t s) = FocusTemperature s.
Proof. reflexivity. Qed.

Lemma FocusTemperature_set_abort (a : bool) (s : Driver) :
  FocusTemperature (set_abort a s) = FocusTemperature s.
Proof. reflexivity. Qed.

Lemma resolution_set_motionThread (t : option Worker) (s : Driver) :
  resolution (set_motionThread t s) = resolution s.
Proof. reflexivity. Qed.

Lemma resolution_set_abort (a : bool) (s : Driver) :
  resolution (set_abort a s) = resolution s.
Proof. reflexivity. Qed.

Lemma FocusBacklash_set_motionThread (t : option Worker) (s : Driver) :
  FocusBacklash (set_motionThread t s) = FocusBacklash s.
Proof. reflexivity. Qed.

Lemma FocusBacklash_set_abort (a : bool) (s : Driver) :
  FocusBacklash (set_abort a s) = FocusBacklash s.
Proof. reflexivity. Qed.

Lemma FocusAbsPosNP_set_motionThread (t : option Worker) (s : Driver) :
  FocusAbsPosNP (set_motionThread t s) = FocusAbsPosNP s.
Proof. reflexivity. Qed.

Lemma FocusAbsPosNP_set_abort (a : bool) (s : Driver) :
  FocusAbsPosNP (set_abort a s) = FocusAbsPosNP s.
Proof. reflexivity. Qed.

Create Rewrite HintDb frame.

#[local] Hint Rewrite
  lastDirection_set_motionThread
  lastDirection_set_abort
  backlashTicksRemaining_set_motionThread
  backlashTicksRemaining_set_abort
  FocusReverse_set_motionThread
  FocusReverse_set_abort
  FocusTemperature_set_motionThread
  FocusTemperature_set_abort
  resolution_set_motionThread
  resolution_set_abort
  FocusBacklash_set_motionThread
  FocusBacklash_set_abort
  FocusAbsPosNP_set_motionThread
  FocusAbsPosNP_set_abort
  : frame.

Lemma abort_and_join_frame (s : Driver) :
  lastDirection (abort_and_join s) = lastDirection s
  /\ backlashTicksRemaining (abort_and_join s) = backlashTicksRemaining s
  /\ FocusReverse (abort_and_join s) = FocusReverse s
  /\ FocusTemperature (abort_and_join s) = FocusTemperature s
  /\ resolution (abort_and_join s) = resolution s.
Proof.
  unfold abort_and_join. destruct (_motionThread s) as [w|].
  - destruct (exited w).
    + repeat split; reflexivity.
    + destruct (worker_exit_frame (set_abort true s) w) as (A & B & C & D & E & _).
      autorewrite with frame. rewrite A, B, C, D, E.
      autorewrite with frame. repeat split; reflexivity.
  - repeat split; reflexivity.
Qed.

Lemma abort_and_join_settled (s : Driver) :
  settled s ->
  Position (abort_and_join s) = Position s
  /\ lastTemperature (abort_and_join s) = lastTemperature s
  /\ positionFile (abort_and_join s) = positionFile s.
Proof.
  unfold settled, abort_and_join. destruct (_motionThread s) as [w|].
  - intros ->. repeat split; reflexivity.
  - intros _. repeat split; reflexivity.
Qed.

Lemma join_of_settled (x : Driver) :
  settled x ->
  set_abort false (abort_and_join x)
  = set_abort false (set_motionThread None (set_abort true x)).
Proof.
  unfold settled, abort_and_join.
  destruct (_motionThread x) as [w|] eqn:E.
  - intros ->. reflexivity.
  - intros _. destruct x; simpl in E; subst; reflexivity.
Qed.

Lemma MoveAbsFocuser_accepts (s : Driver) (t : Z) :
  in_range s t -> t <> Position s ->
  MoveAbsFocuser t s = (start_move t s, IPS_BUSY).
Proof.
  intros Hr Hne.
  unfold MoveAbsFocuser. rewrite (range_test s t Hr).
  rewrite (proj2 (Z.eqb_neq _ _) Hne).
  unfold start_move, backlash_budget.
  destruct (setCurrent_frame false (with_abs (setState IPS_BUSY) s))
    as (en & dc & ml & ->).
  assert (Hnd : newDirection (set_motor en dc ml (with_abs (setState IPS_BUSY) s)) t
                = newDirection s t) by reflexivity.
  rewrite Hnd.
  cbn [lastDirection FocusBacklash set_motor with_abs].
  set (s2 := set_motor en dc ml (with_abs (setState IPS_BUSY) s)).
  destruct (negb (lastDirection s =? 0)
            && negb (newDirection s t =? lastDirection s)
            && negb (FocusBacklash s =? 0));
    match goal with
    | |- context [abort_and_join ?x] =>
        destruct (abort_and_join_frame x) as (A & B & _)
    end;
    unfold getMotorThread;
    cbn [lastDirection backlashTicksRemaining set_abort];
    rewrite A, B; reflexivity.
Qed.

(** What a move that is accepted leaves behind, whatever was running. *)
Lemma MoveAbsFocuser_starts (s : Driver) (t : Z) :
  in_range s t -> t <> Position s ->
  exists c,
    snd (MoveAbsFocuser t s) = IPS_BUSY
    /\ _motionThread (fst (MoveAbsFocuser t s)) =
       Some (mkWorker t (newDirection s t) (backlash_budget s t) c [] false)
    /\ backlashTicksRemaining (fst (MoveAbsFocuser t s)) = backlash_budget s t
    /\ lastDirection (fst (MoveAbsFocuser t s)) = newDirection s t
    /\ _abort (fst (MoveAbsFocuser t s)) = false
    /\ FocusReverse (fst (MoveAbsFocuser t s)) = FocusReverse s
    /\ FocusTemperature (fst (MoveAbsFocuser t s)) = FocusTemperature s
    /\ resolution (fst (MoveAbsFocuser t s)) = resolution s
    /\ (settled s ->
        c = to_uint32 (Position s)
        /\ Position (fst (MoveAbsFocuser t s)) = Position s
        /\ lastTemperature (fst (MoveAbsFocuser t s)) = lastTemperature s
        /\ positionFile (fst (MoveAbsFocuser t s)) = positionFile s).
Proof.
  intros Hr Hne.
  rewrite (MoveAbsFocuser_accepts s t Hr Hne). cbn [fst snd].
  unfold start_move.
  destruct (setCurrent_frame false (with_abs (setState IPS_BUSY) s))
    as (en & dc & ml & ->).
  set (s4 := set_lastDirection _ _).
  destruct (abort_and_join_frame s4) as (A & B & C & D & E).
  eexists.
  split; [reflexivity|].
  split; [reflexivity|].
  split; [cbn [backlashTicksRemaining set_motionThread set_abort]; rewrite B; reflexivity|].
  split; [cbn [lastDirection set_motionThread set_abort]; rewrite A; reflexivity|].
  split; [reflexivity|].
  split; [cbn [FocusReverse set_motionThread set_abort]; rewrite C; reflexivity|].
  split; [cbn [FocusTemperature set_motionThread set_abort]; rewrite D; reflexivity|].
  split; [cbn [resolution set_motionThread set_abort]; rewrite E; reflexivity|].
  intros Hs.
  assert (Hs4 : settled s4) by exact Hs.
  destruct (abort_and_join_settled s4 Hs4) as (P1 & P2 & P3).
  assert (HP : Position (set_abort false (abort_and_join s4)) = Position s).
  { change (Position (set_abort false (abort_and_join s4)))
      with (Position (abort_and_join s4)). rewrite P1. reflexivity. }
  split; [rewrite HP; reflexivity|].
  split; [exact HP|].
  split.
  - change (lastTemperature (abort_and_join s4) = lastTemperature s).
    rewrite P2. reflexivity.
  - change (positionFile (abort_and_join s4) = positionFile s).
    rewrite P3. reflexivity.
Qed.

(** A move accepted at rest, run to the end: the worker returns, the
    position is the target, and the pulses are the backlash budget followed
    by one counted step per unit of distance. *)
Lemma move_runs (s : Driver) (t : Z) :
  settled s -> 0 <= Position s < 2 ^ 32 -> 0 <= t < 2 ^ 32 ->
  in_range s t -> t <> Position s ->
  exists fuel s' w',
    run_worker fuel (fst (MoveAbsFocuser t s)) = Some s'
    /\ _motionThread s' = Some w' /\ exited w' = true
    /\ Position s' = t
    /\ pulses w' =
         repeat (mkPulse (move_level s t) false) (Z.to_nat (backlash_budget s t))
         ++ repeat (mkPulse (move_level s t) true) (Z.to_nat (Z.abs (t - Position s)))
    /\ lastTemperature s' = FocusTemperature s
    /\ positionFile s' =
         positionFile (savePosition (int_mul (to_int t) MAX_RESOLUTION ÷ resolution s) s).
Proof.
  intros Hs Hp Ht Hr Hne.
  destruct (MoveAbsFocuser_starts s t Hr Hne)
    as (c & _ & Hth & _ & _ & Hab & Hrev & Htemp & Hres & Hset).
  destruct (Hset Hs) as (Hc & HP & HlT & Hpf). subst c.
  set (s0 := fst (MoveAbsFocuser t s)) in *.
  set (w := mkWorker t (newDirection s t) (backlash_budget s t)
              (to_uint32 (Position s)) [] false) in *.
  assert (Hcur : currentPos w = Position s).
  { unfold w; simpl. unfold to_uint32. apply Z.mod_small. exact Hp. }
  assert (Hok : worker_ok w).
  { unfold worker_ok. rewrite Hcur. unfold w; simpl.
    split; [reflexivity|]. split; [|split; assumption].
    unfold newDirection. destruct (_ <? _); auto. }
  assert (Hsteps : steps_left w = Z.abs (t - Position s)).
  { unfold steps_left. rewrite Hcur. unfold w; simpl.
    unfold newDirection. change (2 ^ 32) with 4294967296 in *.
    destruct (Z.ltb_spec (Position s) t).
    - replace ((t - Position s) * 1) with (Z.abs (t - Position s)) by lia.
      apply Z.mod_small; lia.
    - replace ((t - Position s) * -1) with (Z.abs (t - Position s)) by lia.
      apply Z.mod_small; lia. }
  assert (Hback : Z.to_nat (backlash_left w) = Z.to_nat (backlash_budget s t)).
  { unfold backlash_left. rewrite Hcur. unfold w; simpl.
    rewrite (proj2 (Z.eqb_neq (Position s) t)) by congruence. lia. }
  assert (Hm : exists m, Z.of_nat m = backlash_left w + steps_left w).
  { exists (Z.to_nat (backlash_left w + steps_left w)).
    rewrite Z2Nat.id; [reflexivity|].
    rewrite Hsteps. unfold backlash_left. destruct (_ =? _); lia. }
  destruct Hm as (m & Hm).
  destruct (worker_completes m s0 w Hth Hab Hok Hm)
    as (s' & w' & Hrun & R1 & R2 & R3 & R4 & R5 & R6 & R7).
  exists (S m), s', w'.
  split; [exact Hrun|]. split; [exact R1|]. split; [exact R2|].
  split; [exact R3|].
  split.
  { rewrite R5, Hback, Hsteps. unfold w at 1; simpl.
    replace (dir_level s0 w) with (move_level s t); [reflexivity|].
    unfold dir_level, move_level. rewrite Hrev. reflexivity. }
  split; [rewrite R6; exact Htemp|].
  rewrite R7. unfold savePosition. rewrite Hres.
  change (targetPos w) with t.
  destruct (_ =? -1); [exact Hpf | reflexivity].
Qed.

(** A move that is accepted, run to the end, returns with the position
    at the target, whatever was running when it was requested: the new
    worker counts on from where the old one stopped. *)
Lemma move_terminates (s : Driver) (t : Z) :
  0 <= t < 2 ^ 32 -> in_range s t -> t <> Position s ->
  exists fuel s' w',
    run_worker fuel (fst (MoveAbsFocuser t s)) = Some s'
    /\ _motionThread s' = Some w' /\ exited w' = true
    /\ Position s' = t.
Proof.
  intros Ht Hr Hne.
  rewrite (MoveAbsFocuser_accepts s t Hr Hne). cbn [fst].
  unfold start_move.
  set (s6 := set_abort false _).
  set (w := mkWorker t (newDirection s t) (backlash_budget s t)
              (to_uint32 (Position s6)) [] false).
  assert (Hok : worker_ok w).
  { unfold worker_ok, w; simpl.
    split; [reflexivity|]. split; [|split; [apply to_uint32_range | exact Ht]].
    unfold newDirection. destruct (_ <? _); auto. }
  assert (Hm : Z.of_nat (Z.to_nat (backlash_left w + steps_left w))
               = backlash_left w + steps_left w).
  { apply Z2Nat.id.
    assert (0 <= backlash_left w)
      by (unfold backlash_left; destruct (_ =? _); lia).
    assert (0 <= steps_left w)
      by (unfold steps_left; apply Z.mod_pos_bound; reflexivity).
    lia. }
  destruct (worker_completes _ (set_motionThread (Some w) s6) w
              eq_refl eq_refl Hok Hm)
    as (s' & w' & Hrun & R1 & R2 & R3 & _).
  exists (S (Z.to_nat (backlash_left w + steps_left w))), s', w'.
  split; [exact Hrun|]. split; [exact R1|]. split; [exact R2 | exact R3].
Qed.

Lemma filter_counted_repeat (l : bool) (a b : nat) :
  filter counted (repeat (mkPulse l false) a ++ repeat (mkPulse l true) b)
  = repeat (mkPulse l true) b.
Proof.
  induction a as [|a IH]; simpl.
  - induction b as [|b IHb]; simpl; [reflexivity | rewrite IHb; reflexivity].
  - exact IH.
Qed.

(** ** Claims about moves *)

(** C1. For every position and every target within the limits that
    differs from it, [MoveAbsFocuser] followed by the worker running with
    the abort flag never set ends with the position equal to the target.
    When the move is requested at rest the counted pulses are as many as
    the distance, and an iteration that spends a backlash pulse leaves
    the position counter as it was. *)
Theorem move_reaches_target (s : Driver) (target : Z) :
  0 <= Position s < 2 ^ 32 -> target < 2 ^ 32 ->
  getMin (FocusAbsPosNP s) = 0 ->
  0 <= target <= getMax (FocusAbsPosNP s) ->
  target <> Position s ->
  (exists fuel s' w',
      run_worker fuel (fst (MoveAbsFocuser target s)) = Some s'
      /\ _motionThread s' = Some w' /\ exited w' = true
      /\ Position s' = target
      /\ (settled s ->
          Z.of_nat (length (filter counted (pulses w')))
          = Z.abs (target - Position s)))
  /\ (forall s1 w1, 0 < backlashLeft w1 ->
        exists w2,
          _motionThread (worker_iteration s1 w1) = Some w2
          /\ currentPos w2 = currentPos w1
          /\ backlashLeft w2 = backlashLeft w1 - 1
          /\ exists l, pulses w2 = pulses w1 ++ [mkPulse l false]).
Proof.
  intros Hp Ht Hmin Hr Hne. split.
  - assert (Hin : in_range s target) by (unfold in_range; rewrite Hmin; exact Hr).
    assert (Ht' : 0 <= target < 2 ^ 32) by (split; [apply Hr | exact Ht]).
    destruct (move_terminates s target Ht' Hin Hne)
      as (fuel & s' & w' & Hrun & R1 & R2 & R3).
    exists fuel, s', w'.
    repeat (split; [assumption|]).
    intros Hs.
    destruct (move_runs s target Hs Hp Ht' Hin Hne)
      as (fuel2 & s2 & w2 & Hrun2 & Q1 & _ & _ & Q4 & _).
    rewrite (run_worker_deterministic _ _ _ _ _ Hrun Hrun2) in R1.
    assert (Hw : w' = w2) by congruence. subst w'.
    rewrite Q4, filter_counted_repeat, repeat_length. lia.
  - intros s1 w1 Hb. unfold worker_iteration.
    rewrite (proj2 (Z.leb_gt _ _) Hb).
    eexists. split; [reflexivity|]. simpl.
    split; [reflexivity|]. split; [reflexivity|].
    eexists. reflexivity.
Qed.

(** A move of 1000 steps outward from rest. *)
Lemma move_reaches_target_witness :
  exists fuel s' w',
    run_worker fuel (fst (MoveAbsFocuser 2000 at_rest)) = Some s'
    /\ _motionThread s' = Some w' /\ exited w' = true
    /\ Position s' = 2000
    /\ Z.of_nat (length (filter counted (pulses w'))) = 1000.
Proof.
  assert (H0 : 0 <= Position at_rest < 2 ^ 32) by (unfold Position; simpl; lia).
  assert (H1 : 2000 < 2 ^ 32) by lia.
  assert (H2 : 0 <= 2000 <= getMax (FocusAbsPosNP at_rest)) by (simpl; lia).
  assert (H3 : 2000 <> Position at_rest) by discriminate.
  destruct (move_reaches_target at_rest 2000 H0 H1 eq_refl H2 H3)
    as ((fuel & s' & w' & A & B & C & D & E) & _).
  exists fuel, s', w'.
  split; [exact A|]. split; [exact B|]. split; [exact C|]. split; [exact D|].
  exact (E I).
Defined.

(** C2. With the lower limit at 0, [MoveAbsFocuser] returns the alert
    status exactly when the target lies outside [0, MaxPosition], and then
    the driver state is the one it was called in: no direction or backlash
    update, no worker, the same position.  A target within the limits that
    equals the position returns success and also leaves the state as it
    was. *)
Theorem MoveAbsFocuser_rejects_out_of_range (s : Driver) (target : Z) :
  getMin (FocusAbsPosNP s) = 0 ->
  (snd (MoveAbsFocuser target s) = IPS_ALERT
   <-> ~ (0 <= target <= getMax (FocusAbsPosNP s)))
  /\ (~ (0 <= target <= getMax (FocusAbsPosNP s)) ->
      fst (MoveAbsFocuser target s) = s)
  /\ (0 <= target <= getMax (FocusAbsPosNP s) -> target = Position s ->
      MoveAbsFocuser target s = (s, IPS_OK)).
Proof.
  intros Hmin.
  assert (Hin : in_range s target <-> 0 <= target <= getMax (FocusAbsPosNP s))
    by (unfold in_range; rewrite Hmin; reflexivity).
  split; [split|split].
  - intros Halert Hr. apply Hin in Hr.
    destruct (Z.eq_dec target (Position s)) as [Heq|Hne].
    + unfold MoveAbsFocuser in Halert.
      rewrite (range_test s target Hr), (proj2 (Z.eqb_eq _ _) Heq) in Halert.
      discriminate.
    + rewrite (MoveAbsFocuser_accepts s target Hr Hne) in Halert. discriminate.
  - intros Hout. unfold MoveAbsFocuser.
    rewrite (range_test_out s target); [reflexivity|].
    intros Hr. apply Hout, Hin, Hr.
  - intros Hout. unfold MoveAbsFocuser.
    rewrite (range_test_out s target); [reflexivity|].
    intros Hr. apply Hout, Hin, Hr.
  - intros Hr Heq. apply Hin in Hr. unfold MoveAbsFocuser.
    rewrite (range_test s target Hr), (proj2 (Z.eqb_eq _ _) Heq). reflexivity.
Qed.

(** A target past the upper limit, and the current position as target. *)
Lemma MoveAbsFocuser_rejects_out_of_range_witness :
  MoveAbsFocuser 320001 at_rest = (at_rest, IPS_ALERT)
  /\ MoveAbsFocuser 1000 at_rest = (at_rest, IPS_OK).
Proof.
  destruct (MoveAbsFocuser_rejects_out_of_range at_rest 320001 eq_refl)
    as (Hiff & Hfst & _).
  destruct (MoveAbsFocuser_rejects_out_of_range at_rest 1000 eq_refl)
    as (_ & _ & Hok).
  assert (Hout : ~ (0 <= 320001 <= getMax (FocusAbsPosNP at_rest)))
    by (simpl; lia).
  split.
  - rewrite (surjective_pairing (MoveAbsFocuser 320001 at_rest)).
    rewrite (Hfst Hout), (proj2 Hiff Hout). reflexivity.
  - apply Hok; [simpl; lia | reflexivity].
Defined.

(** The budget of a move that follows a remembered direction, and the
    pulses of its worker. *)
Lemma reversal_budget (s : Driver) (target : Z) :
  settled s ->
  0 <= Position s < 2 ^ 32 -> 0 <= target < 2 ^ 32 ->
  getMin (FocusAbsPosNP s) <= target <= getMax (FocusAbsPosNP s) ->
  target <> Position s ->
  lastDirection s = 1 \/ lastDirection s = -1 ->
  0 <= FocusBacklash s ->
  let budget :=
    if (0 <? FocusBacklash s) && negb (newDirection s target =? lastDirection s)
    then FocusBacklash s else 0 in
  backlashTicksRemaining (fst (MoveAbsFocuser target s)) = budget
  /\ (exists w, _motionThread (fst (MoveAbsFocuser target s)) = Some w
                /\ backlashLeft w = budget /\ pulses w = [])
  /\ exists fuel s' w' n,
       run_worker fuel (fst (MoveAbsFocuser target s)) = Some s'
       /\ _motionThread s' = Some w' /\ exited w' = true
       /\ (0 < n)%nat
       /\ pulses w' =
            repeat (mkPulse (move_level s target) false) (Z.to_nat budget)
            ++ repeat (mkPulse (move_level s target) true) n.
Proof.
  intros Hs Hp Ht Hr Hne Hld Hbl budget.
  assert (Hb : backlash_budget s target = budget).
  { subst budget. unfold backlash_budget. clear - Hld Hbl.
    destruct Hld as [-> | ->];
      destruct (Z.ltb_spec 0 (FocusBacklash s));
      destruct (Z.eqb_spec (FocusBacklash s) 0);
      destruct (newDirection s target =? _); simpl; lia. }
  destruct (MoveAbsFocuser_starts s target Hr Hne)
    as (c & _ & Hth & Hbtr & _).
  split; [rewrite Hbtr; exact Hb|].
  split.
  { eexists. split; [exact Hth|]. split; [exact Hb | reflexivity]. }
  destruct (move_runs s target Hs Hp Ht Hr Hne)
    as (fuel & s' & w' & Hrun & R1 & R2 & _ & R4 & _).
  exists fuel, s', w', (Z.to_nat (Z.abs (target - Position s))).
  split; [exact Hrun|]. split; [exact R1|]. split; [exact R2|].
  split; [lia|].
  rewrite R4, Hb. reflexivity.
Qed.

(** The configuration is the same after a worker's iteration, after
    its exit code, and so after any run. *)
Lemma worker_iteration_config (s : Driver) (w : Worker) :
  same_config s (worker_iteration s w).
Proof.
  unfold same_config, worker_iteration. autorewrite with frame.
  destruct (currentPos w mod 100 =? 0); repeat split; reflexivity.
Qed.

Lemma worker_exit_config (s : Driver) (w : Worker) :
  same_config s (worker_exit s w).
Proof.
  unfold same_config, worker_exit.
  destruct (savePosition_frame
              (int_mul
                 (to_int (Position (with_rel (setState IPS_OK)
                    (with_abs (fun p => setState IPS_OK (setValue (currentPos w) p)) s))))
                 MAX_RESOLUTION
               ÷ resolution (with_rel (setState IPS_OK)
                 (with_abs (fun p => setState IPS_OK (setValue (currentPos w) p)) s)))
              (with_rel (setState IPS_OK)
                 (with_abs (fun p => setState IPS_OK (setValue (currentPos w) p)) s)))
    as (f & ->).
  match goal with
  | |- context [setCurrent true ?x] =>
      destruct (setCurrent_frame true x) as (en & dc & ml & ->)
  end.
  repeat split; reflexivity.
Qed.

Lemma same_config_trans (a b c : Driver) :
  same_config a b -> same_config b c -> same_config a c.
Proof.
  unfold same_config.
  intros (A1 & A2 & A3 & A4 & A5 & A6) (B1 & B2 & B3 & B4 & B5 & B6).
  repeat split; congruence.
Qed.

Lemma run_worker_config (fuel : nat) :
  forall s s', run_worker fuel s = Some s' -> same_config s s'.
Proof.
  induction fuel as [|fuel IH]; intros s s' Hrun; simpl in Hrun;
    destruct (_motionThread s) as [w|] eqn:Hth;
    try (destruct (exited w) eqn:Hex);
    try (inversion Hrun; subst; repeat split; reflexivity).
  apply (same_config_trans s (worker_tick s) s'); [|apply IH; exact Hrun].
  unfold worker_tick. rewrite Hth, Hex.
  destruct (worker_continues s w);
    [apply worker_iteration_config | apply worker_exit_config].
Qed.

Lemma MoveAbsFocuser_config (s : Driver) (t : Z) :
  settled s -> in_range s t -> t <> Position s ->
  FocusBacklash (fst (MoveAbsFocuser t s)) = FocusBacklash s
  /\ FocusReverse (fst (MoveAbsFocuser t s)) = FocusReverse s
  /\ getMin (FocusAbsPosNP (fst (MoveAbsFocuser t s))) = getMin (FocusAbsPosNP s)
  /\ getMax (FocusAbsPosNP (fst (MoveAbsFocuser t s))) = getMax (FocusAbsPosNP s)
  /\ lastDirection (fst (MoveAbsFocuser t s)) = newDirection s t.
Proof.
  intros Hs Hr Hne.
  rewrite (MoveAbsFocuser_accepts s t Hr Hne). cbn [fst].
  unfold start_move.
  destruct (setCurrent_frame false (with_abs (setState IPS_BUSY) s))
    as (en & dc & ml & ->).
  rewrite join_of_settled by exact Hs.
  repeat split; reflexivity.
Qed.

(** C3. Of two consecutive moves at rest, the first run to its end, the
    second gets as backlash budget the configured backlash value when
    that value is positive and its direction differs from the direction
    of the first, and 0 in every other case; its worker, run to the end,
    emits exactly that many uncounted pulses and only then its counted
    steps, of which there is at least one. *)
Theorem backlash_on_reversal (s : Driver) (t1 t2 : Z) :
  settled s ->
  0 <= Position s < 2 ^ 32 -> 0 <= t1 < 2 ^ 32 -> 0 <= t2 < 2 ^ 32 ->
  in_range s t1 -> in_range s t2 ->
  t1 <> Position s -> t2 <> t1 ->
  0 <= FocusBacklash s ->
  exists fuel1 s1,
    run_worker fuel1 (fst (MoveAbsFocuser t1 s)) = Some s1
    /\ Position s1 = t1
    /\ let budget :=
         if (0 <? FocusBacklash s)
            && negb (newDirection s1 t2 =? newDirection s t1)
         then FocusBacklash s else 0 in
       backlashTicksRemaining (fst (MoveAbsFocuser t2 s1)) = budget
       /\ (exists w, _motionThread (fst (MoveAbsFocuser t2 s1)) = Some w
                     /\ backlashLeft w = budget /\ pulses w = [])
       /\ exists fuel2 s2 w2 n,
            run_worker fuel2 (fst (MoveAbsFocuser t2 s1)) = Some s2
            /\ _motionThread s2 = Some w2 /\ exited w2 = true
            /\ Position s2 = t2
            /\ (0 < n)%nat
            /\ pulses w2 =
                 repeat (mkPulse (move_level s1 t2) false) (Z.to_nat budget)
                 ++ repeat (mkPulse (move_level s1 t2) true) n.
Proof.
  intros Hs Hp Ht1 Ht2 Hr1 Hr2 Hne1 Hne2 Hbl.
  destruct (move_runs s t1 Hs Hp Ht1 Hr1 Hne1)
    as (fuel1 & s1 & w1 & Hrun1 & Hth1 & Hex1 & HP1 & _).
  exists fuel1, s1. split; [exact Hrun1|]. split; [exact HP1|].
  destruct (MoveAbsFocuser_config s t1 Hs Hr1 Hne1) as (M1 & M2 & M3 & M4 & M5).
  destruct (run_worker_config fuel1 _ _ Hrun1) as (C1 & C2 & C3 & C4 & C5 & C6).
  assert (Hs1 : settled s1) by (unfold settled; rewrite Hth1; exact Hex1).
  assert (Hp1 : 0 <= Position s1 < 2 ^ 32) by (rewrite HP1; exact Ht1).
  assert (Hr21 : getMin (FocusAbsPosNP s1) <= t2 <= getMax (FocusAbsPosNP s1))
    by (rewrite C4, C5, M3, M4; exact Hr2).
  assert (Hne21 : t2 <> Position s1) by (rewrite HP1; exact Hne2).
  assert (Hld : lastDirection s1 = newDirection s t1) by (rewrite C1; exact M5).
  assert (Hld1 : lastDirection s1 = 1 \/ lastDirection s1 = -1).
  { rewrite Hld. unfold newDirection. destruct (_ <? _); auto. }
  assert (Hb1 : FocusBacklash s1 = FocusBacklash s) by (rewrite C2; exact M1).
  assert (Hbl1 : 0 <= FocusBacklash s1) by (rewrite Hb1; exact Hbl).
  pose proof (reversal_budget s1 t2 Hs1 Hp1 Ht2 Hr21 Hne21 Hld1 Hbl1) as H.
  cbv zeta in H. rewrite Hb1, Hld in H.
  destruct H as (A & B & (fuel2 & s2 & w2 & n & D1 & D2 & D3 & D4 & D5)).
  cbv zeta. split; [exact A|]. split; [exact B|].
  exists fuel2, s2, w2, n.
  split; [exact D1|]. split; [exact D2|]. split; [exact D3|].
  split; [|split; [exact D4 | exact D5]].
  destruct (move_runs s1 t2 Hs1 Hp1 Ht2 Hr21 Hne21)
    as (fuel3 & s3 & w3 & Hrun3 & _ & _ & HP3 & _).
  rewrite (run_worker_deterministic _ _ _ _ _ D1 Hrun3). exact HP3.
Qed.

(** Outward to 2000, then back inward to 1500, with a backlash of 20. *)
Lemma backlash_on_reversal_witness :
  exists fuel1 s1,
    run_worker fuel1 (fst (MoveAbsFocuser 2000 fresh)) = Some s1
    /\ Position s1 = 2000
    /\ backlashTicksRemaining (fst (MoveAbsFocuser 1500 s1)) = 20.
Proof.
  assert (H0 : 0 <= Position fresh < 2 ^ 32) by (unfold Position; simpl; lia).
  assert (H1 : 0 <= 2000 < 2 ^ 32) by lia.
  assert (H2 : 0 <= 1500 < 2 ^ 32) by lia.
  assert (H3 : in_range fresh 2000) by (unfold in_range; simpl; lia).
  assert (H4 : in_range fresh 1500) by (unfold in_range; simpl; lia).
  assert (H5 : 2000 <> Position fresh) by discriminate.
  assert (H6 : 1500 <> 2000) by discriminate.
  assert (H7 : 0 <= FocusBacklash fresh) by (simpl; lia).
  destruct (backlash_on_reversal fresh 2000 1500 I H0 H1 H2 H3 H4 H5 H6 H7)
    as (fuel1 & s1 & A & B & C).
  exists fuel1, s1. split; [exact A|]. split; [exact B|].
  cbv zeta in C. destruct C as (C & _).
  rewrite C. unfold newDirection. rewrite B. reflexivity.
Defined.

(** C10. While no direction is remembered ([lastDirection] is 0, the
    value before any move), a move that is accepted starts its worker with
    a backlash budget of 0, whatever the configured backlash value. *)
Theorem first_move_has_no_backlash (s : Driver) (target : Z) :
  lastDirection s = 0 ->
  getMin (FocusAbsPosNP s) <= target <= getMax (FocusAbsPosNP s) ->
  target <> Position s ->
  snd (MoveAbsFocuser target s) = IPS_BUSY
  /\ backlashTicksRemaining (fst (MoveAbsFocuser target s)) = 0
  /\ exists w, _motionThread (fst (MoveAbsFocuser target s)) = Some w
               /\ exited w = false /\ backlashLeft w = 0.
Proof.
  intros Hld Hr Hne.
  destruct (MoveAbsFocuser_starts s target Hr Hne)
    as (c & Hbusy & Hth & Hbtr & _).
  assert (Hb : backlash_budget s target = 0).
  { unfold backlash_budget. rewrite Hld. reflexivity. }
  split; [exact Hbusy|]. split; [rewrite Hbtr; exact Hb|].
  eexists. split; [exact Hth|]. split; [reflexivity | exact Hb].
Qed.

(** The first move of a board whose backlash is configured to 20. *)
Lemma first_move_has_no_backlash_witness :
  FocusBacklash fresh = 20
  /\ backlashTicksRemaining (fst (MoveAbsFocuser 900 fresh)) = 0
  /\ exists w, _motionThread (fst (MoveAbsFocuser 900 fresh)) = Some w
               /\ exited w = false /\ backlashLeft w = 0.
Proof.
  split; [reflexivity|].
  apply (first_move_has_no_backlash fresh 900).
  - reflexivity.
  - simpl; lia.
  - discriminate.
Defined.

(** ** Persisting the position *)

(** After a completed move the file holds the position in units of 1/32
    step, as the comment on the worker's call says. *)
Lemma worker_saves_normalized (s : Driver) (t : Z) :
  settled s -> 0 <= Position s < 2 ^ 32 -> 0 <= t < 2 ^ 26 ->
  in_range s t -> t <> Position s ->
  (exists r, resolution s = resolution_of r) ->
  exists fuel s',
    run_worker fuel (fst (MoveAbsFocuser t s)) = Some s'
    /\ Position s' = t
    /\ positionFile s' = Some (Position s' * (MAX_RESOLUTION / resolution s')).
Proof.
  intros Hs Hp Ht Hr Hne (r & Hres).
  assert (Ht' : 0 <= t < 2 ^ 32) by lia.
  destruct (move_runs s t Hs Hp Ht' Hr Hne)
    as (fuel & s' & w' & Hrun & _ & _ & HP & _ & _ & Hpf).
  exists fuel, s'. split; [exact Hrun|]. split; [exact HP|].
  rewrite Hpf, HP.
  assert (Hres' : resolution s' = resolution s).
  { destruct (MoveAbsFocuser_starts s t Hr Hne)
      as (c & _ & _ & _ & _ & _ & _ & _ & Hres0 & _).
    destruct (run_worker_config fuel _ _ Hrun) as (_ & _ & _ & _ & _ & C).
    rewrite C. exact Hres0. }
  rewrite Hres', Hres.
  assert (Hti : to_int t = t).
  { unfold to_int. change (2 ^ 31) with 2147483648.
    change (2 ^ 32) with 4294967296. change (2 ^ 26) with 67108864 in Ht.
    rewrite Z.mod_small; lia. }
  rewrite Hti. unfold savePosition, MAX_RESOLUTION.
  change (2 ^ 26) with 67108864 in Ht.
  rewrite int_mul_small by (change (2 ^ 31) with 2147483648; lia).
  assert (Hq : t * 32 ÷ resolution_of r = t * (32 / resolution_of r)).
  { rewrite Z.quot_div_nonneg by (destruct r; simpl; lia).
    clear - Ht. destruct r; simpl resolution_of;
      [change (32 / 1) with 32 | change (32 / 2) with 16
      | change (32 / 4) with 8 | change (32 / 8) with 4
      | change (32 / 16) with 2 | change (32 / 32) with 1];
      Z.div_mod_to_equations; lia. }
  rewrite Hq.
  destruct (Z.eqb_spec (t * (32 / resolution_of r)) (-1)) as [E|_].
  - exfalso. assert (0 <= t * (32 / resolution_of r)); [|lia].
    apply Z.mul_nonneg_nonneg; [lia|].
    apply Z.div_pos; [lia | destruct r; simpl; lia].
  - reflexivity.
Qed.

(** C4 (failing input). [SyncFocuser] hands the ticks to [savePosition]
    as they are.  At full-step resolution, synchronising to 100 writes 100
    to the file where the normalized value is 3200, and the position read
    back by [Connect] from that file is 3. *)
Theorem SyncFocuser_saves_raw_ticks :
  resolution full_step = 1
  /\ Position (fst (SyncFocuser 100 full_step)) = 100
  /\ positionFile (fst (SyncFocuser 100 full_step)) = Some 100
  /\ 100 * (MAX_RESOLUTION / resolution full_step) = 3200
  /\ Position (restorePosition (fst (SyncFocuser 100 full_step))) = 3.
Proof. repeat split; reflexivity. Qed.

(** ** Thermal compensation *)

Lemma MoveAbsFocuser_cases (s : Driver) (t : Z) :
  MoveAbsFocuser t s = (s, IPS_ALERT)
  \/ MoveAbsFocuser t s = (s, IPS_OK)
  \/ (in_range s t /\ t <> Position s
      /\ MoveAbsFocuser t s = (start_move t s, IPS_BUSY)).
Proof.
  destruct ((t <? getMin (FocusAbsPosNP s)) || (getMax (FocusAbsPosNP s) <? t))
    eqn:Hout.
  - left. unfold MoveAbsFocuser. rewrite Hout. reflexivity.
  - right. destruct (Z.eqb_spec t (Position s)) as [Heq|Hne].
    + left. unfold MoveAbsFocuser. rewrite Hout.
      rewrite (proj2 (Z.eqb_eq _ _) Heq). reflexivity.
    + right. apply orb_false_iff in Hout. destruct Hout as [H1 H2].
      apply Z.ltb_ge in H1. apply Z.ltb_ge in H2.
      assert (Hr : in_range s t) by (split; assumption).
      split; [exact Hr|]. split; [exact Hne|].
      apply MoveAbsFocuser_accepts; assumption.
Qed.

Lemma MoveAbsFocuser_keeps_temperature (s : Driver) (t : Z) :
  FocusTemperature (fst (MoveAbsFocuser t s)) = FocusTemperature s.
Proof.
  destruct (MoveAbsFocuser_cases s t) as [E | [E | (Hr & Hne & _)]];
    try (rewrite E; reflexivity).
  destruct (MoveAbsFocuser_starts s t Hr Hne)
    as (c & _ & _ & _ & _ & _ & _ & H & _).
  exact H.
Qed.

Lemma Qlt_bool_iff (x y : Q) : Qlt_bool x y = true <-> (x < y)%Q.
Proof.
  unfold Qlt_bool. rewrite negb_true_iff. split.
  - intros H. apply Qnot_le_lt. intros Hle.
    apply Qle_bool_iff in Hle. congruence.
  - intros H. destruct (Qle_bool y x) eqn:E; [|reflexivity].
    apply Qle_bool_iff in E. exfalso. exact (Qlt_not_le _ _ H E).
Qed.

(** C8. The compensator changes the driver state, and so issues a move,
    only when compensation is enabled and |coefficient x (temperature -
    lastTemperature)| exceeds half the steps-per-CFZ value; when the
    compensation is at or below that threshold, or compensation is
    disabled, or the temperature equals lastTemperature, the call returns
    the state it was given: position, lastTemperature and motion thread are
    as before. *)
Theorem compensation_threshold (cvt : Z -> Z) (s : Driver) :
  (temperatureCompensation cvt s <> s ->
   TemperatureCompensate s = true
   /\ (FOC_STEPS_CFZ (FocuserInfoN s) / 2 < Qabs (deltaPos s))%Q)
  /\ ((Qabs (deltaPos s) <= FOC_STEPS_CFZ (FocuserInfoN s) / 2)%Q
      \/ TemperatureCompensate s = false
      \/ (FocusTemperature s == lastTemperature s)%Q ->
      temperatureCompensation cvt s = s
      /\ Position (temperatureCompensation cvt s) = Position s
      /\ lastTemperature (temperatureCompensation cvt s) = lastTemperature s
      /\ _motionThread (temperatureCompensation cvt s) = _motionThread s).
Proof.
  assert (Hstay :
    (Qabs (deltaPos s) <= FOC_STEPS_CFZ (FocuserInfoN s) / 2)%Q
    \/ TemperatureCompensate s = false
    \/ (FocusTemperature s == lastTemperature s)%Q ->
    temperatureCompensation cvt s = s).
  { intros H. unfold temperatureCompensation.
    destruct (isConnected s); [simpl negb; cbv iota | reflexivity].
    destruct (TemperatureCompensate s) eqn:Hc; [|reflexivity].
    destruct (Qeq_bool (FocusTemperature s) (lastTemperature s)) eqn:Heq;
      [reflexivity|]. simpl andb. cbv iota.
    fold (deltaPos s).
    destruct (Qlt_bool (FOC_STEPS_CFZ (FocuserInfoN s) / 2) (Qabs (deltaPos s)))
      eqn:Hlt; [|reflexivity].
    exfalso. apply Qlt_bool_iff in Hlt.
    destruct H as [H | [H | H]].
    - exact (Qlt_not_le _ _ Hlt H).
    - discriminate.
    - apply Qeq_bool_iff in H. congruence. }
  split.
  - intros Hch.
    destruct (TemperatureCompensate s) eqn:Hc.
    + split; [reflexivity|].
      apply Qnot_le_lt. intros Hle. apply Hch, Hstay. left. exact Hle.
    + exfalso. apply Hch, Hstay. right. left. reflexivity.
  - intros H. rewrite (Hstay H). repeat split; reflexivity.
Qed.

(** A compensation of exactly half a critical focus zone moves nothing. *)
Lemma compensation_threshold_witness :
  (Qabs (deltaPos steady) <= FOC_STEPS_CFZ (FocuserInfoN steady) / 2)%Q
  /\ temperatureCompensation to_uint32 steady = steady.
Proof.
  assert (H : (Qabs (deltaPos steady) <= FOC_STEPS_CFZ (FocuserInfoN steady) / 2)%Q)
    by (vm_compute; discriminate).
  split; [exact H|].
  apply (proj2 (compensation_threshold to_uint32 steady)).
  left. exact H.
Defined.

(** C9 (as stated, refuted).  With a compensation of 50 steps due, the
    compensator has started a worker towards 1050 that has not returned,
    and lastTemperature already holds the new temperature. *)
Lemma compensator_writes_lastTemperature :
  (exists w,
      _motionThread (temperatureCompensation to_uint32 at_rest) = Some w
      /\ exited w = false /\ targetPos w = 1050)
  /\ lastTemperature (temperatureCompensation to_uint32 at_rest) = 10%Q
  /\ ~ (lastTemperature (temperatureCompensation to_uint32 at_rest)
        == lastTemperature at_rest)%Q.
Proof.
  split; [|split; [reflexivity | vm_compute; discriminate]].
  eexists. split; [reflexivity|]. split; reflexivity.
Qed.

(** C9 (amended).  When the compensator's threshold test passes it sets
    lastTemperature to the current temperature itself, right after the
    call of [MoveAbsFocuser] and whatever that call did; the exit code of a
    worker records the temperature as well. *)
Theorem compensation_records_temperature (cvt : Z -> Z) (s : Driver) :
  isConnected s = true ->
  TemperatureCompensate s = true ->
  ~ (FocusTemperature s == lastTemperature s)%Q ->
  (FOC_STEPS_CFZ (FocuserInfoN s) / 2 < Qabs (deltaPos s))%Q ->
  temperatureCompensation cvt s =
    set_lastTemperature (FocusTemperature s)
      (fst (MoveAbsFocuser (cvt (Position s + c_round (deltaPos s))) s))
  /\ lastTemperature (temperatureCompensation cvt s) = FocusTemperature s
  /\ forall s1 w, lastTemperature (worker_exit s1 w) = FocusTemperature s1.
Proof.
  intros Hconn Hc Hne Hlt.
  assert (E : temperatureCompensation cvt s =
              set_lastTemperature (FocusTemperature s)
                (fst (MoveAbsFocuser (cvt (Position s + c_round (deltaPos s))) s))).
  { unfold temperatureCompensation. rewrite Hconn, Hc. simpl negb. cbv iota.
    destruct (Qeq_bool (FocusTemperature s) (lastTemperature s)) eqn:Heq.
    { exfalso. apply Hne. apply Qeq_bool_iff. exact Heq. }
    simpl andb. cbv iota. fold (deltaPos s).
    rewrite (proj2 (Qlt_bool_iff _ _) Hlt).
    rewrite MoveAbsFocuser_keeps_temperature. reflexivity. }
  split; [exact E|]. split.
  - rewrite E. reflexivity.
  - intros s1 w. apply worker_exit_lastTemperature.
Qed.

Lemma compensation_records_temperature_witness :
  lastTemperature (temperatureCompensation to_uint32 at_rest)
  = FocusTemperature at_rest.
Proof.
  apply (compensation_records_temperature to_uint32 at_rest).
  - reflexivity.
  - reflexivity.
  - vm_compute. discriminate.
  - vm_compute. reflexivity.
Defined.

(** ** Changing the resolution *)

Lemma Qtrunc_inject_Z (z : Z) : Qtrunc (inject_Z z) = z.
Proof.
  unfold Qtrunc. destruct (Qle_bool 0 (inject_Z z));
    [apply Qfloor_Z | apply Qceiling_Z].
Qed.

Lemma Qtrunc_comp (x y : Q) : (x == y)%Q -> Qtrunc x = Qtrunc y.
Proof.
  intros H. unfold Qtrunc.
  assert (Hb : Qle_bool 0 x = Qle_bool 0 y).
  { destruct (Qle_bool 0 x) eqn:Ex; destruct (Qle_bool 0 y) eqn:Ey;
      try reflexivity.
    - apply Qle_bool_iff in Ex. rewrite H in Ex.
      apply Qle_bool_iff in Ex. congruence.
    - apply Qle_bool_iff in Ey. rewrite <- H in Ey.
      apply Qle_bool_iff in Ey. congruence. }
  rewrite Hb. destruct (Qle_bool 0 y);
    [apply Qfloor_comp | apply Qceiling_comp]; exact H.
Qed.

Lemma to_int_small (z : Z) : 0 <= z < 2 ^ 31 -> to_int z = z.
Proof.
  unfold to_int. change (2 ^ 31) with 2147483648.
  change (2 ^ 32) with 4294967296. intros H.
  rewrite Z.mod_small; lia.
Qed.

(** The adjustment the handler computes is the remainder of the position
    modulo the old resolution. *)
Lemma position_adjustment_mod (last pos : Z) :
  0 < last -> 0 <= pos < 2 ^ 31 ->
  position_adjustment last pos = pos mod last.
Proof.
  intros Hl Hp. unfold position_adjustment.
  rewrite (to_int_small pos Hp).
  rewrite Z.quot_div_nonneg by lia.
  rewrite <- (Qtrunc_inject_Z (pos mod last)).
  apply Qtrunc_comp.
  rewrite Z.mod_eq by lia.
  unfold Z.sub. rewrite inject_Z_plus, inject_Z_opp, inject_Z_mult.
  field. intros H.
  assert (E : inject_Z last == inject_Z 0) by exact H.
  apply (proj1 (inject_Z_injective _ _)) in E. lia.
Qed.

(** The test [(float)position_adjustment / last_resolution < 0.5]. *)
Lemma half_test (last adj : Z) :
  0 < last ->
  Qlt_bool (inject_Z adj / inject_Z last) (1 # 2) = (2 * adj <? last).
Proof.
  intros Hl. destruct last as [|p|p]; try lia.
  destruct (Z.ltb_spec (2 * adj) (Z.pos p)) as [H|H].
  - apply Qlt_bool_iff. apply Qlt_shift_div_r.
    + change 0%Q with (inject_Z 0). rewrite <- Zlt_Qlt. exact Hl.
    + unfold Qlt, Qmult, inject_Z. simpl. lia.
  - destruct (Qlt_bool (inject_Z adj / inject_Z (Z.pos p)) (1 # 2)) eqn:E;
      [|reflexivity].
    exfalso. apply Qlt_bool_iff in E.
    assert (Hpos : (0 < inject_Z (Z.pos p))%Q)
      by (change 0%Q with (inject_Z 0); rewrite <- Zlt_Qlt; exact Hl).
    assert (E' : (inject_Z adj < (1 # 2) * inject_Z (Z.pos p))%Q).
    { apply (Qmult_lt_r _ _ (/ inject_Z (Z.pos p))).
      - apply Qinv_lt_0_compat. exact Hpos.
      - setoid_replace ((1 # 2) * inject_Z (Z.pos p) * / inject_Z (Z.pos p))%Q
          with (1 # 2)%Q; [exact E|].
        field. intros H0. discriminate H0. }
    revert E'. unfold Qlt, Qmult, inject_Z. simpl. lia.
Qed.

Lemma realignment_spec (last res pos : Z) :
  0 < last -> 0 <= pos < 2 ^ 31 ->
  realignment last res pos =
  if (res <? last) && (0 <? pos mod last)
  then Some (if 2 * (pos mod last) <? last
             then - (pos mod last) else last - pos mod last)
  else None.
Proof.
  intros Hl Hp. unfold realignment.
  rewrite (position_adjustment_mod last pos Hl Hp).
  destruct ((res <? last) && (0 <? pos mod last)); [|reflexivity].
  rewrite (half_test last (pos mod last) Hl).
  destruct (2 * (pos mod last) <? last); f_equal; lia.
Qed.

Lemma handler_halves (cvt : Z -> Z) (sel : FocusResolution) (s : Driver) :
  ISNewSwitch_FocusResolution cvt sel s = rescale_all (resolution s) (realign cvt sel s).
Proof. reflexivity. Qed.

Lemma rescale_all_fields (last : Z) (s2 : Driver) :
  resolution (rescale_all last s2) = resolution s2
  /\ _motionThread (rescale_all last s2) = _motionThread s2
  /\ Position (rescale_all last s2) = rescale (resolution s2) last (Position s2)
  /\ getMax (FocusAbsPosNP (rescale_all last s2))
     = rescale (resolution s2) last (getMax (FocusAbsPosNP s2))
  /\ getMin (FocusRelPosNP (rescale_all last s2))
     = rescale (resolution s2) last (getMin (FocusRelPosNP s2))
  /\ getMax (FocusRelPosNP (rescale_all last s2))
     = rescale (resolution s2) last (getMax (FocusRelPosNP s2))
  /\ getMin (FocusMaxPosNP (rescale_all last s2))
     = rescale (resolution s2) last (getMin (FocusMaxPosNP s2))
  /\ getMax (FocusMaxPosNP (rescale_all last s2))
     = rescale (resolution s2) last (getMax (FocusMaxPosNP s2))
  /\ getValue (FocusMaxPosNP (rescale_all last s2))
     = rescale (resolution s2) last (getValue (FocusMaxPosNP s2)).
Proof. repeat split; reflexivity. Qed.

(** At rest, [MoveAbsFocuser] leaves the limits, the position, the other
    two position properties and the resolution as they are. *)
Lemma MoveAbsFocuser_at_rest (s : Driver) (t : Z) :
  settled s ->
  Position (fst (MoveAbsFocuser t s)) = Position s
  /\ getMax (FocusAbsPosNP (fst (MoveAbsFocuser t s))) = getMax (FocusAbsPosNP s)
  /\ FocusRelPosNP (fst (MoveAbsFocuser t s)) = FocusRelPosNP s
  /\ FocusMaxPosNP (fst (MoveAbsFocuser t s)) = FocusMaxPosNP s
  /\ resolution (fst (MoveAbsFocuser t s)) = resolution s.
Proof.
  intros Hs.
  destruct (MoveAbsFocuser_cases s t) as [E | [E | (Hr & Hne & E)]];
    rewrite E; cbn [fst]; try (repeat split; reflexivity).
  unfold start_move.
  destruct (setCurrent_frame false (with_abs (setState IPS_BUSY) s))
    as (en & dc & ml & ->).
  rewrite join_of_settled by exact Hs.
  repeat split; reflexivity.
Qed.

Lemma realign_fields (cvt : Z -> Z) (sel : FocusResolution) (s : Driver) :
  settled s ->
  Position (realign cvt sel s) = Position s
  /\ getMax (FocusAbsPosNP (realign cvt sel s)) = getMax (FocusAbsPosNP s)
  /\ FocusRelPosNP (realign cvt sel s) = FocusRelPosNP s
  /\ FocusMaxPosNP (realign cvt sel s) = FocusMaxPosNP s
  /\ resolution (realign cvt sel s) = resolution_of sel.
Proof.
  intros Hs. unfold realign.
  destruct (realignment _ _ _) as [adj|]; [|repeat split; reflexivity].
  assert (Hs1 : settled (set_resolution (resolution_of sel) s)) by exact Hs.
  destruct (MoveAbsFocuser_at_rest _
              (cvt (Position (set_resolution (resolution_of sel) s) + adj)) Hs1)
    as (A & B & C & D & E).
  rewrite A, B, C, D, E. repeat split; reflexivity.
Qed.

(** The state at the return of the handler, before the realignment
    thread has written anything.  The position and the bounds of the
    three position properties are rescaled; a realignment, when one is
    requested, has the displacement -remainder if remainder/oldRes < 0.5
    and oldRes - remainder otherwise, remainder being the position modulo
    the old resolution, and its target is a multiple of the old
    resolution, in units of the old resolution. *)
Lemma resolution_change_at_return
    (cvt : Z -> Z) (sel r0 : FocusResolution) (s : Driver) :
  settled s ->
  resolution s = resolution_of r0 ->
  0 <= Position s < 2 ^ 26 ->
  let old := resolution s in
  let new := resolution_of sel in
  let s' := ISNewSwitch_FocusResolution cvt sel s in
  let remainder := Position s mod old in
  resolution s' = new
  /\ Position s' = Position s * new ÷ old
  /\ Position s' * old <= Position s * new < (Position s' + 1) * old
  /\ getMax (FocusAbsPosNP s') = rescale new old (getMax (FocusAbsPosNP s))
  /\ getMin (FocusRelPosNP s') = rescale new old (getMin (FocusRelPosNP s))
  /\ getMax (FocusRelPosNP s') = rescale new old (getMax (FocusRelPosNP s))
  /\ getMin (FocusMaxPosNP s') = rescale new old (getMin (FocusMaxPosNP s))
  /\ getMax (FocusMaxPosNP s') = rescale new old (getMax (FocusMaxPosNP s))
  /\ getValue (FocusMaxPosNP s') = rescale new old (getValue (FocusMaxPosNP s))
  /\ (new < old -> Position s mod (old / new) <> 0 ->
      exists adj,
        realignment old new (Position s) = Some adj
        /\ adj = (if 2 * remainder <? old then - remainder else old - remainder)
        /\ 2 * Z.abs adj <= old
        /\ (Position s + adj) mod old = 0
        /\ _motionThread s' =
             _motionThread
               (fst (MoveAbsFocuser (cvt (Position s + adj))
                       (set_resolution new s)))).
Proof.
  intros Hs Hres Hp old new s' remainder.
  subst s'. rewrite handler_halves.
  destruct (rescale_all_fields (resolution s) (realign cvt sel s))
    as (F1 & F2 & F3 & F4 & F5 & F6 & F7 & F8 & F9).
  destruct (realign_fields cvt sel s Hs) as (G1 & G2 & G3 & G4 & G5).
  rewrite F1, F2, F3, F4, F5, F6, F7, F8, F9, G1, G2, G3, G4, G5.
  fold old. fold new.
  assert (Hold : 0 < old) by (unfold old; rewrite Hres; destruct r0; simpl; lia).
  assert (Hnew : 0 < new <= 32) by (unfold new; destruct sel; simpl; lia).
  assert (Hp31 : 0 <= Position s < 2 ^ 31)
    by (change (2 ^ 26) with 67108864 in Hp; change (2 ^ 31) with 2147483648; lia).
  assert (Hq : rescale new old (Position s) = Position s * new ÷ old).
  { unfold rescale. rewrite (to_int_small _ Hp31).
    rewrite int_mul_small; [reflexivity|].
    change (2 ^ 26) with 67108864 in Hp. change (2 ^ 31) with 2147483648.
    nia. }
  split; [reflexivity|].
  split; [exact Hq|].
  split.
  { rewrite Hq. rewrite Z.quot_div_nonneg by nia.
    pose proof (Z.div_mod (Position s * new) old ltac:(lia)) as Hdm.
    pose proof (Z.mod_pos_bound (Position s * new) old Hold) as Hmb.
    nia. }
  do 6 (split; [reflexivity|]).
  intros Hlt Hoff.
  rewrite (realignment_spec old new (Position s) Hold Hp31).
  rewrite (proj2 (Z.ltb_lt _ _) Hlt).
  fold remainder.
  assert (Hrem : 0 < remainder < old).
  { pose proof (Z.mod_pos_bound (Position s) old Hold) as Hb.
    fold remainder in Hb.
    assert (remainder <> 0); [|lia].
    intros H0. apply Hoff. clear - H0 Hres Hlt.
    unfold remainder, old, new in *. rewrite Hres in *.
    destruct r0; destruct sel; simpl resolution_of in *; try lia;
      match goal with
      | |- _ mod (?a / ?b) = 0 =>
          let k := eval compute in (a / b) in change (a / b) with k
      end;
      revert H0; Z.div_mod_to_equations; lia. }
  rewrite (proj2 (Z.ltb_lt 0 remainder)) by lia. simpl andb. cbv iota.
  eexists. split; [reflexivity|]. split; [reflexivity|].
  split.
  { destruct (Z.ltb_spec (2 * remainder) old); lia. }
  split.
  { pose proof (Z.div_mod (Position s) old ltac:(lia)) as Hdm.
    fold remainder in Hdm.
    destruct (2 * remainder <? old).
    - replace (Position s + - remainder) with (Position s / old * old) by lia.
      apply Z.mod_mul. lia.
    - replace (Position s + (old - remainder)) with ((Position s / old + 1) * old)
        by lia.
      apply Z.mod_mul. lia. }
  unfold realign.
  change (resolution (set_resolution (resolution_of sel) s)) with new.
  change (Position (set_resolution (resolution_of sel) s)) with (Position s).
  fold old.
  rewrite (realignment_spec old new (Position s) Hold Hp31).
  rewrite (proj2 (Z.ltb_lt _ _) Hlt).
  fold remainder.
  rewrite (proj2 (Z.ltb_lt 0 remainder)) by lia. simpl andb. cbv iota.
  reflexivity.
Qed.

(** A worker that is running and not aborted returns, with the position
    at its target, whatever the distance its counter has to cover. *)
Lemma running_worker_reaches_target (s : Driver) (w : Worker) :
  _motionThread s = Some w -> _abort s = false -> worker_ok w ->
  exists fuel s',
    run_worker fuel s = Some s'
    /\ Position s' = targetPos w
    /\ resolution s' = resolution s.
Proof.
  intros Hth Hab Hok.
  assert (Hm : Z.of_nat (Z.to_nat (backlash_left w + steps_left w))
               = backlash_left w + steps_left w).
  { apply Z2Nat.id.
    assert (0 <= backlash_left w)
      by (unfold backlash_left; destruct (_ =? _); lia).
    assert (0 <= steps_left w)
      by (unfold steps_left; apply Z.mod_pos_bound; reflexivity).
    lia. }
  destruct (worker_completes _ s w Hth Hab Hok Hm)
    as (s' & w' & Hrun & _ & _ & HP & _).
  eexists. exists s'. split; [exact Hrun|]. split; [exact HP|].
  destruct (run_worker_config _ _ _ Hrun) as (_ & _ & _ & _ & _ & C).
  exact C.
Qed.

(** C5 (failing input).  At 1/32 step and position 1001 = 31 x 32 + 9 the
    switch to 1/16 step requests a realignment by -9, within half the old
    resolution, to the target 992, a position in units of the old
    resolution; the handler then rescales the position to 500.  The
    thread counts towards 992 at the new resolution.  If it read the
    position before the rescaling its counter starts at 1001: stopped
    after 25 pulses it leaves 996, run to the end 992.  If it read the
    position after the rescaling its counter starts at 500, below a
    target it approaches downwards: stopped after 25 pulses it leaves 495,
    and it returns only after the counter has wrapped, again at 992.
    Either way the position at 1/16 step stands for 62 full steps where
    the focuser was at 31.28. *)
Theorem realignment_lands_in_old_units :
  let s' := ISNewSwitch_FocusResolution to_uint32 RES_16 off_grid in
  (Position off_grid = 1001 /\ resolution off_grid = 32)
  /\ (realignment 32 16 1001 = Some (-9) /\ 2 * Z.abs (-9) <= 32)
  /\ (resolution s' = 16 /\ Position s' = 500)
  /\ option_map (fun w => (targetPos w, motorDirection w, currentPos w))
       (_motionThread s') = Some (992, -1, 1001)
  /\ option_map (fun w => (targetPos w, motorDirection w, currentPos w))
       (_motionThread (thread_reads s')) = Some (992, -1, 500)
  /\ Position (fst (AbortFocuser (FocuserOps.worker_ticks 25 s'))) = 996
  /\ Position (fst (AbortFocuser (FocuserOps.worker_ticks 25 (thread_reads s'))))
     = 495
  /\ (exists fuel s1,
        run_worker fuel s' = Some s1
        /\ Position s1 = 992 /\ resolution s1 = 16
        /\ ~ (Qabs (full_steps s1 - full_steps off_grid) <= 1)%Q)
  /\ (exists fuel s2,
        run_worker fuel (thread_reads s') = Some s2
        /\ Position s2 = 992 /\ resolution s2 = 16
        /\ ~ (Qabs (full_steps s2 - full_steps off_grid) <= 1)%Q).
Proof.
  intros s'.
  assert (Hfar : forall s1, Position s1 = 992 -> resolution s1 = 16 ->
                   ~ (Qabs (full_steps s1 - full_steps off_grid) <= 1)%Q).
  { intros s1 HP HR. unfold full_steps. rewrite HP, HR.
    vm_compute. intros H. apply H. reflexivity. }
  assert (Hres : resolution s' = 16) by (vm_compute; reflexivity).
  assert (Hres' : resolution (thread_reads s') = 16) by (vm_compute; reflexivity).
  split; [split; reflexivity|].
  split; [split; [vm_compute; reflexivity | simpl; lia]|].
  split; [split; [exact Hres | vm_compute; reflexivity]|].
  split; [vm_compute; reflexivity|].
  split; [vm_compute; reflexivity|].
  split; [vm_compute; reflexivity|].
  split; [vm_compute; reflexivity|].
  split.
  - assert (Hth : _motionThread s' = Some (mkWorker 992 (-1) 20 1001 [] false))
      by (vm_compute; reflexivity).
    assert (Hab : _abort s' = false) by (vm_compute; reflexivity).
    assert (Hok : worker_ok (mkWorker 992 (-1) 20 1001 [] false)).
    { unfold worker_ok; simpl. repeat split; lia. }
    destruct (running_worker_reaches_target s' _ Hth Hab Hok)
      as (fuel & s1 & Hrun & HP & HR).
    exists fuel, s1. cbn [targetPos] in HP. rewrite Hres in HR.
    split; [exact Hrun|]. split; [exact HP|]. split; [exact HR|].
    exact (Hfar s1 HP HR).
  - assert (Hth : _motionThread (thread_reads s')
                  = Some (mkWorker 992 (-1) 20 500 [] false))
      by (vm_compute; reflexivity).
    assert (Hab : _abort (thread_reads s') = false) by (vm_compute; reflexivity).
    assert (Hok : worker_ok (mkWorker 992 (-1) 20 500 [] false)).
    { unfold worker_ok; simpl. repeat split; lia. }
    destruct (running_worker_reaches_target (thread_reads s') _ Hth Hab Hok)
      as (fuel & s2 & Hrun & HP & HR).
    exists fuel, s2. cbn [targetPos] in HP. rewrite Hres' in HR.
    split; [exact Hrun|]. split; [exact HP|]. split; [exact HR|].
    exact (Hfar s2 HP HR).
Qed.

End FocuserProofs.

Module TSLProofs.

Import TSL.

(** What the finalizing branch does to the sensor. *)
Lemma readTSL_finalizing (b : Bus) (t : Sensor) :
  finalizes b t = true ->
  readTSL b t =
  (mkSensor (mode_after (writeByte b 0%nat + writeByte b 1%nat)) 0 0 0 0
     (SQMOffset t)
     (mpsas (fullCumulative t - irCumulative t) (niter t) (SQMOffset t)),
   writeByte b 0%nat + writeByte b 1%nat =? 0).
Proof.
  unfold finalizes, readTSL. intros H.
  repeat (apply andb_true_iff in H; destruct H as [H ?]).
  destruct (i2cHandle b <? 0); [discriminate|].
  destruct (TSLmode t); try discriminate.
  destruct (adcStartTime t =? 0); [discriminate|].
  destruct (adcStartTime t + TSL2591_ADC_TIME <? millis b); [|discriminate].
  destruct (full b <? ir b); [discriminate|].
  destruct ((niter t <? 5)
            || ((fullCumulative t - irCumulative t <? 500) && (niter t <? 150)));
    [discriminate | reflexivity].
Qed.








End TSLProofs.

Module PowerProofs.

Import Power.

Local Open Scope Q_scope.

Lemma index_cases (i : Z) :
  (0 <= i <= 5)%Z ->
  i = 0%Z \/ i = 1%Z \/ i = 2%Z \/ i = 3%Z \/ i = 4%Z \/ i = 5%Z.
Proof. lia. Qed.

(** Evaluates the tests on a known cycle index. *)
Ltac eval_index :=
  repeat match goal with
         | |- context [(Z.rem ?a ?b =? ?c)%Z] =>
             let v := eval vm_compute in (Z.rem a b =? c)%Z in
             change (Z.rem a b =? c)%Z with v
         | |- context [(Z.pos ?a =? Z.pos ?b)%Z] =>
             let v := eval vm_compute in (Z.pos a =? Z.pos b)%Z in
             change (Z.pos a =? Z.pos b)%Z with v
         | |- context [channel_of ?a] =>
             let v := eval vm_compute in (channel_of a) in
             change (channel_of a) with v
         end;
  cbv iota.

(** The accumulators are not reserved to the read of the third channel:
    on the read of the Vin channel (index 1) both are integrated, the
    amp-seconds by 1 A x 0.4 s and the watt-seconds by the new
    Vin x 1 A x 0.4 s. *)
Lemma energy_integrated_on_Vin_read :
  powerIndex reading_vin = 1%Z
  /\ channel_of (powerIndex reading_vin) = Vin
  /\ reads_result bus_reads reading_vin = true
  /\ energyAs reading_vin == 0
  /\ energyAs (fst (readPower bus_reads reading_vin)) == 4 # 10
  /\ ~ energyAs (fst (readPower bus_reads reading_vin)) == energyAs reading_vin
  /\ ~ energyWs (fst (readPower bus_reads reading_vin)) == energyWs reading_vin.
Proof.
  repeat split; try reflexivity; vm_compute; discriminate.
Qed.

(** One invocation, in the terms of the code.  On a board of revision 4
    or later, every invocation with the sensor reachable advances the
    cycle index by one, wrapping from 5 to 0.  At an even index it writes
    the command bytes of that index and leaves readings and accumulators
    alone.  At an odd index whose bus transfers succeed it stores the
    word assembled as first byte x 255 + second byte, truncated to 16
    bits and scaled by the factor of the channel, and integrates both
    accumulators, by Itot x 0.4 s and Vin x Itot x 0.4 s, on the read of
    every channel; the amp-hours and watt-hours are the accumulators
    divided by 3600. *)
Lemma power_cycle (b : Bus) (m : Monitor) :
  (4 <= revision m)%Z -> (0 <= i2cHandle b)%Z -> (0 <= powerIndex m <= 5)%Z ->
  let m' := fst (readPower b m) in
  let c := channel_of (powerIndex m) in
  snd (readPower b m) = true
  /\ powerIndex m' = ((powerIndex m + 1) mod 6)%Z
  /\ (Z.even (powerIndex m) = true ->
      sent m' = (sent m ++ [[1; mux c; 35]])%Z
      /\ POW_VIN m' = POW_VIN m /\ POW_VREG m' = POW_VREG m
      /\ POW_ITOT m' = POW_ITOT m
      /\ energyAs m' = energyAs m /\ energyWs m' = energyWs m)
  /\ (Z.odd (powerIndex m) = true -> written b = 0%Z -> (0 < read b)%Z ->
      reading c m' ==
        inject_Z (to_int16 (readBuf0 b * 255 + readBuf1 b)) / 32768 * gain c
      /\ (forall c', c' <> c -> reading c' m' = reading c' m)
      /\ energyAs m' = energyAs m + POW_ITOT m' * (4 # 10)
      /\ energyWs m' = energyWs m + POW_VIN m' * POW_ITOT m' * (4 # 10)
      /\ POW_AH m' = energyAs m' / 3600
      /\ POW_WH m' = energyWs m' / 3600).
Proof.
  intros Hrev Hh Hi m' c. subst m' c.
  unfold readPower.
  rewrite (proj2 (Z.ltb_ge (revision m) 4) Hrev).
  rewrite (proj2 (Z.leb_le 0 (i2cHandle b)) Hh).
  destruct (index_cases _ Hi) as [E | [E | [E | [E | [E | E]]]]];
    rewrite E; eval_index;
    (split;
     [destruct (written b =? 0)%Z; [destruct (0 <? read b)%Z|]; reflexivity|];
     split;
     [destruct (written b =? 0)%Z; [destruct (0 <? read b)%Z|]; reflexivity|];
     split;
     [intros He; try discriminate He | intros Ho; try discriminate Ho]).
  all: try (repeat split; reflexivity).
  all: intros Hw Hr; rewrite Hw, (proj2 (Z.ltb_lt _ _) Hr);
    change (0 =? 0)%Z with true; cbv iota;
    cbn [fst reading gain POW_VIN POW_VREG POW_ITOT POW_AH POW_WH
         energyAs energyWs].
  all: split; [ring|]; split;
    [intros c' Hc'; destruct c'; try reflexivity; contradiction
    | repeat split; reflexivity].
Qed.

(** The read of the Vin channel on the example board. *)
Lemma power_cycle_witness :
  powerIndex (fst (readPower bus_reads reading_vin)) = 2%Z
  /\ energyAs (fst (readPower bus_reads reading_vin))
     = energyAs reading_vin
       + POW_ITOT (fst (readPower bus_reads reading_vin)) * (4 # 10).
Proof.
  assert (H1 : (4 <= revision reading_vin)%Z) by (simpl; lia).
  assert (H2 : (0 <= i2cHandle bus_reads)%Z) by (simpl; lia).
  assert (H3 : (0 <= powerIndex reading_vin <= 5)%Z) by (simpl; lia).
  destruct (power_cycle bus_reads reading_vin H1 H2 H3) as (_ & A & _ & B).
  split; [exact A|].
  destruct (B eq_refl eq_refl) as (_ & _ & C & _).
  - simpl; lia.
  - exact C.
Defined.

(** C7 (failing input).  The word read back is assembled as
    first byte x 255 + second byte, not as the 16-bit word of the two
    bytes.  For the bytes 128 and 0, the sensor's most negative result
    -32768, the Vin read stores +32640/32768 of the channel factor, a
    positive voltage, where the signed 16-bit result gives minus the
    channel factor.  Every successful read stores the word assembled that
    way, and it differs from the signed 16-bit result for every pair of
    bytes whose first byte is not 0.  Of the three trigger commands the
    first two carry the multiplexer codes of Vin and Vreg; the third
    carries 011, not the code 110 of Itot. *)
Theorem readPower_misassembles_result :
  (reads_result (mkBus 0 0 2 128 0) reading_vin = true
   /\ channel_of (powerIndex reading_vin) = Vin
   /\ conversion_result 128 0 = (-32768)%Z
   /\ assembled_word 128 0 = 32640%Z
   /\ POW_VIN (fst (readPower (mkBus 0 0 2 128 0) reading_vin))
      == inject_Z 32640 / 32768 * gain Vin
   /\ ~ POW_VIN (fst (readPower (mkBus 0 0 2 128 0) reading_vin))
        == inject_Z (conversion_result 128 0) / 32768 * gain Vin)
  /\ (forall (b : Bus) (m : Monitor),
        reads_result b m = true -> (0 <= powerIndex m <= 5)%Z ->
        reading (channel_of (powerIndex m)) (fst (readPower b m))
        == inject_Z (assembled_word (readBuf0 b) (readBuf1 b)) / 32768
           * gain (channel_of (powerIndex m)))
  /\ (forall hi lo : Z,
        (0 < hi <= 255)%Z -> (0 <= lo <= 255)%Z ->
        assembled_word hi lo <> conversion_result hi lo)
  /\ (mux_field (nth 1 (trigger_command 0) 0%Z) = mux_input Vin
      /\ mux_field (nth 1 (trigger_command 2) 0%Z) = mux_input Vreg
      /\ mux_field (nth 1 (trigger_command 4) 0%Z) = 3%Z
      /\ mux_input Itot = 6%Z).
Proof.
  split; [|split; [|split]].
  - repeat split; try reflexivity; vm_compute; discriminate.
  - intros b m Hr Hi. unfold reads_result in Hr.
    repeat (apply andb_true_iff in Hr; destruct Hr as [Hr ?]).
    apply negb_true_iff, Z.ltb_ge in Hr.
    match goal with H : (0 <=? _)%Z = true |- _ => apply Z.leb_le in H end.
    match goal with H : (written b =? 0)%Z = true |- _ => apply Z.eqb_eq in H end.
    match goal with H : (0 <? read b)%Z = true |- _ => apply Z.ltb_lt in H end.
    match goal with
    | H : negb (Z.rem _ 2 =? 0)%Z = true |- _ =>
        apply negb_true_iff, Z.eqb_neq in H; rename H into Hodd
    end.
    assert (Ho : Z.odd (powerIndex m) = true).
    { destruct (index_cases _ Hi) as [E | [E | [E | [E | [E | E]]]]];
        rewrite E in *; try reflexivity; exfalso; apply Hodd; reflexivity. }
    destruct (power_cycle b m Hr ltac:(assumption) Hi) as (_ & _ & _ & B).
    destruct (B Ho ltac:(assumption) ltac:(assumption)) as (C & _).
    exact C.
  - intros hi lo Hhi Hlo. unfold assembled_word, conversion_result, to_int16.
    change (2 ^ 15)%Z with 32768%Z. change (2 ^ 16)%Z with 65536%Z.
    Z.div_mod_to_equations. lia.
  - repeat split; reflexivity.
Qed.

End PowerProofs.

Module FocuserOpsProofs.

Import Focuser FocuserProofs FocuserOps.

(** ** A worker under way *)

Lemma counted_steps_snoc (w : Worker) (p : Pulse) (t d b c : Z) (e : bool) :
  counted_steps (mkWorker t d b c (pulses w ++ [p]) e)
  = counted_steps w + (if counted p then 1 else 0).
Proof.
  unfold counted_steps. cbn [pulses]. rewrite filter_app, length_app.
  cbn [filter]. destruct (counted p); cbn [length]; lia.
Qed.

Lemma worker_tick_on_course (P t : Z) (s : Driver) :
  0 <= P < 2 ^ 32 -> 0 <= t < 2 ^ 32 ->
  on_course P t s -> on_course P t (worker_tick s).
Proof.
  intros HP Ht (w & Hth & Htg & Hd & Hb & Hc & Hpos & Hex).
  unfold worker_tick. rewrite Hth.
  destruct (exited w) eqn:He.
  { exists w. repeat (split; [assumption|]). intros _. apply Hex. reflexivity. }
  destruct (worker_continues s w) eqn:Hcont.
  - (* an iteration *)
    unfold worker_continues in Hcont.
    apply andb_true_iff in Hcont. destruct Hcont as [Hne _].
    apply negb_true_iff, Z.eqb_neq in Hne.
    unfold worker_iteration.
    assert (Hpos1 : between P t
              (Position (if currentPos w mod 100 =? 0
                         then with_abs (fun p => setState IPS_BUSY
                                                   (setValue (currentPos w) p)) s
                         else s))).
    { destruct (_ =? 0); [exact Hb | exact Hpos]. }
    set (s1 := if currentPos w mod 100 =? 0 then _ else s) in *. clearbody s1.
    unfold between in *. change (2 ^ 32) with 4294967296 in *.
    destruct (backlashLeft w <=? 0).
    + eexists. split; [reflexivity|].
      cbn [targetPos motorDirection currentPos exited].
      rewrite counted_steps_snoc. cbn [counted].
      assert (Hstep : to_uint32 (currentPos w + motorDirection w)
                      = currentPos w + motorDirection w).
      { unfold to_uint32. change (2 ^ 32) with 4294967296.
        apply Z.mod_small. rewrite Hd. clear - HP Ht Htg Hb Hne.
        destruct (Z.ltb_spec P t); lia. }
      rewrite Hstep.
      split; [exact Htg|]. split; [exact Hd|].
      split; [unfold between; rewrite Hd; clear - HP Ht Htg Hb Hne;
              destruct (Z.ltb_spec P t); lia|].
      split; [rewrite Hc at 1; ring|].
      split; [exact Hpos1 | discriminate].
    + eexists. split; [reflexivity|].
      cbn [targetPos motorDirection currentPos exited].
      rewrite counted_steps_snoc. cbn [counted].
      split; [exact Htg|]. split; [exact Hd|]. split; [exact Hb|].
      split; [rewrite Hc at 1; ring|].
      split; [exact Hpos1 | discriminate].
  - (* the exit code *)
    eexists. split; [apply worker_exit_thread|].
    cbn [targetPos motorDirection currentPos exited].
    rewrite worker_exit_Position.
    split; [exact Htg|]. split; [exact Hd|]. split; [exact Hb|].
    split; [exact Hc|]. split; [exact Hb | reflexivity].
Qed.

Lemma worker_ticks_on_course (k : nat) :
  forall (P t : Z) (s : Driver),
    0 <= P < 2 ^ 32 -> 0 <= t < 2 ^ 32 ->
    on_course P t s -> on_course P t (worker_ticks k s).
Proof.
  induction k as [|k IH]; intros P t s HP Ht H; [exact H|].
  cbn [worker_ticks]. apply IH; try assumption.
  apply worker_tick_on_course; assumption.
Qed.

(** A move accepted at rest starts on course. *)
Lemma move_starts_on_course (s : Driver) (t : Z) :
  settled s -> 0 <= Position s < 2 ^ 32 ->
  in_range s t -> t <> Position s ->
  on_course (Position s) t (fst (MoveAbsFocuser t s)).
Proof.
  intros Hs Hp Hr Hne.
  destruct (MoveAbsFocuser_starts s t Hr Hne)
    as (c & _ & Hth & _ & _ & _ & _ & _ & _ & Hset).
  destruct (Hset Hs) as (Hc & HP & _). subst c.
  assert (Hu : to_uint32 (Position s) = Position s)
    by (unfold to_uint32; apply Z.mod_small; exact Hp).
  rewrite Hu in Hth.
  eexists. split; [exact Hth|].
  cbn [targetPos motorDirection currentPos exited].
  unfold counted_steps, between. cbn [pulses filter length].
  rewrite HP.
  split; [reflexivity|]. split; [reflexivity|].
  split; [lia|]. split; [lia|]. split; [lia | discriminate].
Qed.

Lemma Position_after_thread (t : option Worker) (s : Driver) :
  Position (set_motionThread t s) = Position s.
Proof. reflexivity. Qed.

Lemma Position_after_abort (a : bool) (s : Driver) :
  Position (set_abort a s) = Position s.
Proof. reflexivity. Qed.

Lemma worker_tick_config (s : Driver) : same_config s (worker_tick s).
Proof.
  unfold worker_tick. destruct (_motionThread s) as [w|];
    [|repeat split; reflexivity].
  destruct (exited w); [repeat split; reflexivity|].
  destruct (worker_continues s w);
    [apply worker_iteration_config | apply worker_exit_config].
Qed.

Lemma worker_ticks_config (k : nat) :
  forall s, same_config s (worker_ticks k s).
Proof.
  induction k as [|k IH]; intros s; [repeat split; reflexivity|].
  cbn [worker_ticks].
  apply (same_config_trans s (worker_tick s)); [apply worker_tick_config | apply IH].
Qed.

(** X1.  Cancellation.  However far the worker of a move requested at rest has
    got, [AbortFocuser] returns true and leaves no worker; the position is
    the start plus or minus the pulses the worker counted, and it lies
    between the start and the target. *)
Theorem abort_keeps_reached_position (s : Driver) (t : Z) (k : nat) :
  settled s -> 0 <= Position s < 2 ^ 32 -> 0 <= t < 2 ^ 32 ->
  in_range s t -> t <> Position s ->
  let moving := worker_ticks k (fst (MoveAbsFocuser t s)) in
  snd (AbortFocuser moving) = true
  /\ _motionThread (fst (AbortFocuser moving)) = None
  /\ between (Position s) t (Position (fst (AbortFocuser moving)))
  /\ exists w,
       _motionThread moving = Some w
       /\ Position (fst (AbortFocuser moving))
          = Position s + newDirection s t * counted_steps w.
Proof.
  intros Hs Hp Ht Hr Hne moving.
  pose proof (worker_ticks_on_course k _ t _ Hp Ht
                (move_starts_on_course s t Hs Hp Hr Hne)) as H.
  fold moving in H.
  destruct H as (w & Hth & Htg & Hd & Hb & Hc & Hpos & Hex).
  split; [reflexivity|].
  unfold AbortFocuser. cbn [fst]. unfold abort_and_join. rewrite Hth.
  split; [reflexivity|].
  assert (HP : Position (set_motionThread None
                 (if exited w then set_abort true moving
                  else worker_exit (set_abort true moving) w)) = currentPos w).
  { rewrite Position_after_thread. destruct (exited w) eqn:He.
    - rewrite Position_after_abort. apply Hex. reflexivity.
    - apply worker_exit_Position. }
  rewrite HP. split; [exact Hb|].
  exists w. split; [reflexivity|].
  rewrite Hc, Hd. reflexivity.
Qed.

Lemma abort_keeps_reached_position_witness :
  Position (fst (AbortFocuser under_way)) = 1006
  /\ _motionThread (fst (AbortFocuser under_way)) = None.
Proof.
  assert (H0 : 0 <= Position at_rest < 2 ^ 32) by (unfold Position; simpl; lia).
  assert (H1 : 0 <= 2000 < 2 ^ 32) by lia.
  assert (H2 : in_range at_rest 2000) by (unfold in_range; simpl; lia).
  assert (H3 : 2000 <> Position at_rest) by discriminate.
  destruct (abort_keeps_reached_position at_rest 2000 6 I H0 H1 H2 H3)
    as (_ & A & _ & _).
  split; [reflexivity | exact A].
Defined.

(** X2.  The position published while a move requested at rest is under way
    never leaves the limits. *)
Theorem position_stays_within_limits (s : Driver) (t : Z) (k : nat) :
  settled s -> getMin (FocusAbsPosNP s) = 0 ->
  0 <= Position s <= getMax (FocusAbsPosNP s) ->
  0 <= t <= getMax (FocusAbsPosNP s) -> getMax (FocusAbsPosNP s) < 2 ^ 32 ->
  t <> Position s ->
  let moving := worker_ticks k (fst (MoveAbsFocuser t s)) in
  0 <= Position moving <= getMax (FocusAbsPosNP moving).
Proof.
  intros Hs Hmin Hp Ht Hmax Hne moving.
  assert (Hr : in_range s t) by (unfold in_range; rewrite Hmin; exact Ht).
  assert (Hp' : 0 <= Position s < 2 ^ 32) by lia.
  assert (Ht' : 0 <= t < 2 ^ 32) by lia.
  pose proof (worker_ticks_on_course k _ t _ Hp' Ht'
                (move_starts_on_course s t Hs Hp' Hr Hne)) as H.
  fold moving in H.
  destruct H as (w & _ & _ & _ & _ & _ & Hpos & _).
  destruct (worker_ticks_config k (fst (MoveAbsFocuser t s)))
    as (_ & _ & _ & _ & C & _).
  destruct (MoveAbsFocuser_config s t Hs Hr Hne) as (_ & _ & _ & M & _).
  fold moving in C. rewrite C, M.
  unfold between in Hpos. lia.
Qed.

Lemma position_stays_within_limits_witness :
  0 <= Position under_way <= getMax (FocusAbsPosNP under_way).
Proof.
  apply (position_stays_within_limits at_rest 2000 6).
  - exact I.
  - reflexivity.
  - unfold Position; simpl; lia.
  - simpl; lia.
  - simpl; lia.
  - discriminate.
Defined.

(** ** Synchronising while a move is under way *)

(** X3.  [SyncFocuser] sets the published position and does not touch the
    worker: a worker that has not returned goes on from its own counter,
    and when it returns the position is its target again, not the
    synchronised value. *)
Theorem sync_during_move_is_overwritten (s : Driver) (w : Worker) (x : Z) :
  _motionThread s = Some w -> worker_ok w -> _abort s = false ->
  Position (fst (SyncFocuser x s)) = x
  /\ _motionThread (fst (SyncFocuser x s)) = Some w
  /\ exists fuel s',
       run_worker fuel (fst (SyncFocuser x s)) = Some s'
       /\ Position s' = targetPos w.
Proof.
  intros Hth Hok Ha. unfold SyncFocuser. cbn [fst].
  destruct (savePosition_frame (to_int x) (with_abs (setValue x) s)) as (f & ->).
  split; [reflexivity|]. split; [exact Hth|].
  assert (Hm : Z.of_nat (Z.to_nat (backlash_left w + steps_left w))
               = backlash_left w + steps_left w).
  { apply Z2Nat.id.
    assert (0 <= backlash_left w)
      by (unfold backlash_left; destruct (_ =? _); lia).
    assert (0 <= steps_left w)
      by (unfold steps_left; apply Z.mod_pos_bound; reflexivity).
    lia. }
  destruct (worker_completes _
              (set_positionFile f (with_abs (setValue x) s)) w Hth Ha Hok Hm)
    as (s' & w' & Hrun & _ & _ & HP & _).
  eexists. exists s'. split; [exact Hrun | exact HP].
Qed.

Lemma sync_during_move_is_overwritten_witness :
  Position (fst (SyncFocuser 5000 under_way)) = 5000
  /\ exists fuel s',
       run_worker fuel (fst (SyncFocuser 5000 under_way)) = Some s'
       /\ Position s' = 2000.
Proof.
  assert (Hok : worker_ok (mkWorker 2000 1 0 1006
                             (repeat (mkPulse true true) 6) false)).
  { unfold worker_ok; simpl. repeat split; try lia; auto. }
  assert (Hth : _motionThread under_way
                = Some (mkWorker 2000 1 0 1006 (repeat (mkPulse true true) 6) false))
    by (vm_compute; reflexivity).
  assert (Ha : _abort under_way = false) by (vm_compute; reflexivity).
  destruct (sync_during_move_is_overwritten under_way _ 5000 Hth Hok Ha)
    as (A & _ & B).
  split; [exact A | exact B].
Defined.

(** ** Saving and restoring the position *)

(** What a move requested at rest leaves when its worker has returned. *)
Lemma move_completes_at_rest (s : Driver) (t : Z) :
  settled s -> 0 <= Position s < 2 ^ 32 -> 0 <= t < 2 ^ 32 ->
  in_range s t -> t <> Position s ->
  exists fuel s',
    run_worker fuel (fst (MoveAbsFocuser t s)) = Some s'
    /\ settled s' /\ Position s' = t
    /\ getMin (FocusAbsPosNP s') = getMin (FocusAbsPosNP s)
    /\ getMax (FocusAbsPosNP s') = getMax (FocusAbsPosNP s)
    /\ FocusBacklash s' = FocusBacklash s
    /\ resolution s' = resolution s
    /\ lastDirection s' = newDirection s t
    /\ lastTemperature s' = FocusTemperature s
    /\ positionFile s' =
         positionFile (savePosition (int_mul (to_int t) MAX_RESOLUTION ÷ resolution s) s).
Proof.
  intros Hs Hp Ht Hr Hne.
  destruct (move_runs s t Hs Hp Ht Hr Hne)
    as (fuel & s' & w' & Hrun & Hth & Hex & HP & _ & HT & Hpf).
  destruct (MoveAbsFocuser_config s t Hs Hr Hne) as (M1 & _ & M3 & M4 & M5).
  destruct (run_worker_config fuel _ _ Hrun) as (C1 & C2 & _ & C4 & C5 & C6).
  destruct (MoveAbsFocuser_starts s t Hr Hne)
    as (c & _ & _ & _ & _ & _ & _ & _ & Hres & _).
  exists fuel, s'. split; [exact Hrun|].
  split; [unfold settled; rewrite Hth; exact Hex|].
  split; [exact HP|].
  split; [rewrite C4; exact M3|]. split; [rewrite C5; exact M4|].
  split; [rewrite C2; exact M1|]. split; [rewrite C6; exact Hres|].
  split; [rewrite C1; exact M5|]. split; [exact HT | exact Hpf].
Qed.

(** X4.  The position file is independent of the resolution.  After a move
    completed at resolution r1, [Connect]'s conversion of the file at
    resolution r2 gives the target scaled by r2/r1, hence the target
    itself at the same resolution, as long as the file value times r2
    fits an [int]; with no file it gives 0. *)
Theorem saved_position_restores (s : Driver) (t : Z) (r1 r2 : FocusResolution) :
  settled s -> 0 <= Position s < 2 ^ 32 -> 0 <= t < 2 ^ 26 ->
  in_range s t -> t <> Position s ->
  resolution s = resolution_of r1 ->
  t * (MAX_RESOLUTION / resolution_of r1) * resolution_of r2 < 2 ^ 31 ->
  (exists fuel s',
     run_worker fuel (fst (MoveAbsFocuser t s)) = Some s'
     /\ forall s2,
          positionFile s2 = positionFile s' ->
          resolution s2 = resolution_of r2 ->
          Position (restorePosition s2) = t * resolution_of r2 ÷ resolution_of r1
          /\ (r2 = r1 -> Position (restorePosition s2) = t))
  /\ (forall s2, positionFile s2 = None -> Position (restorePosition s2) = 0).
Proof.
  intros Hs Hp Ht Hr Hne Hres Hov.
  split; [|intros s2 Hnone; unfold restorePosition, readPosition;
           rewrite Hnone; reflexivity].
  destruct (worker_saves_normalized s t Hs Hp Ht Hr Hne (ex_intro _ r1 Hres))
    as (fuel & s' & Hrun & HP & Hpf).
  exists fuel, s'. split; [exact Hrun|].
  intros s2 Hfile Hres2.
  assert (Hres' : resolution s' = resolution_of r1).
  { destruct (MoveAbsFocuser_starts s t Hr Hne)
      as (c & _ & _ & _ & _ & _ & _ & _ & Hres0 & _).
    destruct (run_worker_config fuel _ _ Hrun) as (_ & _ & _ & _ & _ & C).
    rewrite C, Hres0. exact Hres. }
  rewrite HP, Hres' in Hpf.
  assert (Hval : Position (restorePosition s2)
                 = t * resolution_of r2 ÷ resolution_of r1).
  { unfold restorePosition, readPosition, Position. cbn [getValue FocusAbsPosNP
      with_abs setValue]. rewrite Hfile, Hpf, Hres2.
    change (2 ^ 26) with 67108864 in Ht. unfold MAX_RESOLUTION in *.
    clear - Ht Hov.
    assert (Hk : 0 < 32 / resolution_of r1 <= 32)
      by (destruct r1; cbn [resolution_of]; vm_compute; split; congruence).
    assert (Hrange : 0 <= t * (32 / resolution_of r1) < 2 ^ 31)
      by (change (2 ^ 31) with 2147483648; nia).
    rewrite (to_int_small _ Hrange).
    destruct (Z.eqb_spec (t * (32 / resolution_of r1)) (-1)) as [E|_]; [lia|].
    cbn [negb].
    rewrite int_mul_small
      by (split; [|exact Hov];
          assert (0 <= t * (32 / resolution_of r1) * resolution_of r2)
            by (destruct r2; cbn [resolution_of]; nia);
          change (2 ^ 31) with 2147483648; lia).
    clear Hov.
    rewrite !Z.quot_div_nonneg
      by (try (destruct r1; cbn [resolution_of]; lia);
          try (destruct r2; cbn [resolution_of]; nia); lia).
    destruct r1; destruct r2; cbn [resolution_of];
      repeat match goal with
             | |- context [32 / ?d] =>
                 let k := eval vm_compute in (32 / d) in change (32 / d) with k
             end;
      Z.div_mod_to_equations; lia. }
  split; [exact Hval|].
  intros ->. rewrite Hval.
  rewrite Z.quot_div_nonneg
    by (try (destruct r1; cbn [resolution_of]; lia);
        change (2 ^ 26) with 67108864 in Ht; destruct r1; cbn [resolution_of]; lia).
  apply Z.div_mul. destruct r1; cbn [resolution_of]; lia.
Qed.

Lemma saved_position_restores_witness :
  exists fuel s',
    run_worker fuel (fst (MoveAbsFocuser 2000 at_rest)) = Some s'
    /\ Position (restorePosition (set_resolution 16 s')) = 1000.
Proof.
  assert (H0 : 0 <= Position at_rest < 2 ^ 32) by (unfold Position; simpl; lia).
  assert (H1 : 0 <= 2000 < 2 ^ 26) by lia.
  assert (H2 : in_range at_rest 2000) by (unfold in_range; simpl; lia).
  assert (H3 : 2000 <> Position at_rest) by discriminate.
  assert (H4 : 2000 * (MAX_RESOLUTION / resolution_of RES_32)
               * resolution_of RES_16 < 2 ^ 31) by (vm_compute; reflexivity).
  destruct (saved_position_restores at_rest 2000 RES_32 RES_16
              I H0 H1 H2 H3 eq_refl H4) as ((fuel & s' & A & B) & _).
  exists fuel, s'. split; [exact A|].
  destruct (B (set_resolution 16 s') eq_refl eq_refl) as (C & _).
  rewrite C. reflexivity.
Defined.

(** Beyond that bound the product wraps: a file holding 96000000, the
    position 3000000 saved at full-step resolution, is restored at 1/32
    step as a negative position. *)
Lemma restorePosition_wraps :
  Position (restorePosition
              (set_resolution 32 (set_positionFile (Some 96000000) at_rest)))
  = -38217728.
Proof. vm_compute. reflexivity. Qed.

(** ** Reversed direction *)

(** X5.  Reversing the focuser inverts the level driven on DIR_PIN for every
    pulse of a move and changes nothing else: the same pulses are counted
    and the move ends at the same position.  Without reversal the line
    is high for an outward move and low for an inward one. *)
Theorem reverse_flips_direction_line (s : Driver) (t : Z) :
  settled s -> 0 <= Position s < 2 ^ 32 -> 0 <= t < 2 ^ 32 ->
  in_range s t -> t <> Position s ->
  exists fuel1 s1 w1 fuel2 s2 w2,
    run_worker fuel1 (fst (MoveAbsFocuser t s)) = Some s1
    /\ _motionThread s1 = Some w1
    /\ run_worker fuel2
         (fst (MoveAbsFocuser t (set_FocusReverse (negb (FocusReverse s)) s)))
       = Some s2
    /\ _motionThread s2 = Some w2
    /\ Position s1 = t /\ Position s2 = t
    /\ pulses w2 = map flip_level (pulses w1)
    /\ Forall (fun p => dirLevel p
                        = negb (xorb (FocusReverse s) (t <? Position s)))
         (pulses w1).
Proof.
  intros Hs Hp Ht Hr Hne.
  set (s_rev := set_FocusReverse (negb (FocusReverse s)) s).
  destruct (move_runs s t Hs Hp Ht Hr Hne)
    as (fuel1 & s1 & w1 & Hrun1 & Hth1 & _ & HP1 & Hpul1 & _).
  assert (Hs' : settled s_rev) by exact Hs.
  assert (Hp' : 0 <= Position s_rev < 2 ^ 32) by exact Hp.
  assert (Hr' : in_range s_rev t) by exact Hr.
  assert (Hne' : t <> Position s_rev) by exact Hne.
  destruct (move_runs s_rev t Hs' Hp' Ht Hr' Hne')
    as (fuel2 & s2 & w2 & Hrun2 & Hth2 & _ & HP2 & Hpul2 & _).
  exists fuel1, s1, w1, fuel2, s2, w2.
  split; [exact Hrun1|]. split; [exact Hth1|]. split; [exact Hrun2|].
  split; [exact Hth2|]. split; [exact HP1|]. split; [exact HP2|].
  assert (Hb : backlash_budget s_rev t = backlash_budget s t) by reflexivity.
  assert (Hd : Position s_rev = Position s) by reflexivity.
  assert (Hl : move_level s_rev t = negb (move_level s t)).
  { unfold move_level, s_rev, set_FocusReverse, newDirection, Position.
    cbn [FocusReverse FocusAbsPosNP].
    destruct (FocusReverse s); cbn [negb];
      destruct ((if getValue (FocusAbsPosNP s) <? t then 1 else -1) <? 0);
      reflexivity. }
  split.
  - rewrite Hpul2, Hpul1, Hb, Hd, Hl, map_app, !map_repeat. reflexivity.
  - rewrite Hpul1. apply Forall_app.
    assert (Hlev : move_level s t
                   = negb (xorb (FocusReverse s) (t <? Position s))).
    { unfold move_level, newDirection.
      destruct (Z.ltb_spec (Position s) t); destruct (Z.ltb_spec t (Position s));
        try lia; destruct (FocusReverse s); reflexivity. }
    split; apply Forall_forall; intros p Hin;
      apply repeat_spec in Hin; subst p; exact Hlev.
Qed.

Lemma reverse_flips_direction_line_witness :
  exists fuel1 s1 w1 fuel2 s2 w2,
    run_worker fuel1 (fst (MoveAbsFocuser 2000 at_rest)) = Some s1
    /\ _motionThread s1 = Some w1
    /\ run_worker fuel2
         (fst (MoveAbsFocuser 2000 (set_FocusReverse true at_rest))) = Some s2
    /\ _motionThread s2 = Some w2
    /\ pulses w2 = map flip_level (pulses w1).
Proof.
  assert (H0 : 0 <= Position at_rest < 2 ^ 32) by (unfold Position; simpl; lia).
  assert (H1 : 0 <= 2000 < 2 ^ 32) by lia.
  assert (H2 : in_range at_rest 2000) by (unfold in_range; simpl; lia).
  assert (H3 : 2000 <> Position at_rest) by discriminate.
  destruct (reverse_flips_direction_line at_rest 2000 I H0 H1 H2 H3)
    as (f1 & s1 & w1 & f2 & s2 & w2 & A & B & C & D & _ & _ & E & _).
  exists f1, s1, w1, f2, s2, w2.
  split; [exact A|]. split; [exact B|]. split; [exact C|].
  split; [exact D | exact E].
Defined.

(** ** Driving and holding current *)

Lemma getHoldPower_range (h : FocusHoldS) : 0 <= getHoldPower h <= 5.
Proof.
  unfold getHoldPower.
  destruct (HOLD_20 h), (HOLD_40 h), (HOLD_60 h), (HOLD_80 h), (HOLD_100 h); lia.
Qed.

Lemma Qtrunc_frac (a : Z) (d : positive) :
  0 <= a -> Qtrunc (a # d) = a / Z.pos d.
Proof.
  intros Ha. unfold Qtrunc.
  assert (H : Qle_bool 0 (a # d) = true).
  { apply Qle_bool_iff. unfold Qle. simpl. lia. }
  rewrite H. reflexivity.
Qed.

(** X6.  At rest the motor gets at most the driving current, whatever hold
    switch is on: the value handed to the DAC or the PWM generator by
    [setCurrent(true)] never exceeds the one of [setCurrent(false)].  The
    driver output is disabled at rest exactly when the hold power is 0,
    and the decay line is low at rest and high while driving. *)
Theorem holding_current_at_most_driving (s : Driver) (h : FocusHoldS) :
  isConnected s = true -> 0 <= StepperCurrent s ->
  holdPower s = getHoldPower h ->
  motorLevel (setCurrent true s) <= motorLevel (setCurrent false s)
  /\ (EN_PIN (setCurrent true s) = true <-> getHoldPower h = 0)
  /\ EN_PIN (setCurrent false s) = false
  /\ DECAY_PIN (setCurrent true s) = false
  /\ DECAY_PIN (setCurrent false s) = true.
Proof.
  intros Hc HI Hh. pose proof (getHoldPower_range h) as Hr.
  unfold setCurrent. rewrite Hc. cbn [negb].
  cbn [motorLevel EN_PIN DECAY_PIN set_motor]. rewrite Hh.
  split; [|split; [|repeat split; reflexivity]].
  - set (hp := getHoldPower h) in *. set (I := StepperCurrent s) in *.
    assert (Hhold : (inject_Z (hp * I) / 5 == (hp * I) # 5)%Q).
    { unfold Qeq, Qdiv, Qmult, Qinv, inject_Z. simpl. lia. }
    destruct (revision s <? 4).
    + assert (E1 : (255 * (inject_Z (hp * I) / 5) / 4096
                    == (255 * (hp * I)) # 20480)%Q).
      { rewrite Hhold. unfold Qeq, Qdiv, Qmult, Qinv. simpl. lia. }
      assert (E2 : (255 * inject_Z I / 4096 == (255 * I) # 4096)%Q).
      { unfold Qeq, Qdiv, Qmult, Qinv, inject_Z. simpl. lia. }
      rewrite (Qtrunc_comp _ _ E1), (Qtrunc_comp _ _ E2).
      rewrite !Qtrunc_frac by nia.
      apply Z.div_le_lower_bound; [lia|].
      pose proof (Z.mul_div_le (255 * (hp * I)) 20480 ltac:(lia)) as Hd.
      nia.
    + rewrite (Qtrunc_comp _ _ Hhold), Qtrunc_frac by nia.
      unfold getMotorPWM.
      rewrite !Z.quot_div_nonneg; try lia.
      * apply Z.div_le_mono; [lia|].
        apply Z.div_le_upper_bound; [lia | nia].
      * apply Z.div_pos; nia.
  - destruct (Z.ltb_spec 0 (getHoldPower h)); cbn [negb]; split; intros H0;
      try discriminate; try reflexivity; lia.
Qed.

Lemma holding_current_at_most_driving_witness :
  motorLevel (setCurrent true at_rest) <= motorLevel (setCurrent false at_rest).
Proof.
  apply (holding_current_at_most_driving at_rest
           (mkHold false true false false false)).
  - reflexivity.
  - simpl; lia.
  - reflexivity.
Defined.

(** ** From driving back to holding *)

Lemma worker_iteration_board (s : Driver) (w : Worker) :
  same_board s (worker_iteration s w).
Proof.
  unfold same_board, worker_iteration.
  destruct (currentPos w mod 100 =? 0); repeat split; reflexivity.
Qed.

Lemma same_board_trans (a b c : Driver) :
  same_board a b -> same_board b c -> same_board a c.
Proof.
  unfold same_board. intros (A1 & A2 & A3 & A4) (B1 & B2 & B3 & B4).
  repeat split; congruence.
Qed.

(** A run that starts with a running worker ends with the exit code. *)
Lemma run_ends_with_exit (fuel : nat) :
  forall s s' w,
    run_worker fuel s = Some s' ->
    _motionThread s = Some w -> exited w = false ->
    exists s0 w0, s' = worker_exit s0 w0 /\ same_board s s0.
Proof.
  induction fuel as [|fuel IH]; intros s s' w Hrun Hth Hex.
  - simpl in Hrun. rewrite Hth, Hex in Hrun. discriminate.
  - rewrite (run_worker_step fuel s w Hth Hex) in Hrun.
    unfold worker_tick in Hrun. rewrite Hth, Hex in Hrun.
    destruct (worker_continues s w).
    + unfold worker_iteration in Hrun.
      match type of Hrun with
      | run_worker _ (set_motionThread (Some ?w1) ?s1) = _ =>
          destruct (IH (set_motionThread (Some w1) s1) s' w1 Hrun eq_refl)
            as (s0 & w0 & E & B);
          [destruct (backlashLeft w <=? 0); reflexivity|]
      end.
      exists s0, w0. split; [exact E|].
      apply (same_board_trans s (worker_iteration s w)); [|exact B].
      apply worker_iteration_board.
    + rewrite (run_worker_exited fuel _ _ (worker_exit_thread s w) eq_refl) in Hrun.
      inversion Hrun. exists s, w. split; [reflexivity|].
      repeat split; reflexivity.
Qed.

Lemma worker_exit_lines (s : Driver) (w : Worker) :
  isConnected s = true ->
  EN_PIN (worker_exit s w) = negb (0 <? holdPower s)
  /\ DECAY_PIN (worker_exit s w) = false
  /\ getState (FocusAbsPosNP (worker_exit s w)) = IPS_OK
  /\ getState (FocusRelPosNP (worker_exit s w)) = IPS_OK.
Proof.
  intros Hc. unfold worker_exit.
  destruct (savePosition_frame
              (int_mul
                 (to_int (Position (with_rel (setState IPS_OK)
                    (with_abs (fun p => setState IPS_OK (setValue (currentPos w) p)) s))))
                 MAX_RESOLUTION
               ÷ resolution (with_rel (setState IPS_OK)
                 (with_abs (fun p => setState IPS_OK (setValue (currentPos w) p)) s)))
              (with_rel (setState IPS_OK)
                 (with_abs (fun p => setState IPS_OK (setValue (currentPos w) p)) s)))
    as (f & ->).
  unfold setCurrent.
  cbn [isConnected set_lastTemperature set_positionFile with_rel with_abs].
  rewrite Hc. cbn [negb].
  repeat split; reflexivity.
Qed.

(** X7.  A move requested at rest on a connected board switches the driver to
    driving (output enabled, fast decay, position property busy); when
    its worker has returned the driver is back to holding: slow decay,
    output enabled unless the hold power is 0, position properties
    settled. *)
Theorem completed_move_returns_to_holding (s : Driver) (t : Z) :
  isConnected s = true ->
  settled s -> 0 <= Position s < 2 ^ 32 -> 0 <= t < 2 ^ 32 ->
  in_range s t -> t <> Position s ->
  (EN_PIN (fst (MoveAbsFocuser t s)) = false
   /\ DECAY_PIN (fst (MoveAbsFocuser t s)) = true
   /\ getState (FocusAbsPosNP (fst (MoveAbsFocuser t s))) = IPS_BUSY)
  /\ exists fuel s',
       run_worker fuel (fst (MoveAbsFocuser t s)) = Some s'
       /\ Position s' = t
       /\ EN_PIN s' = negb (0 <? holdPower s)
       /\ DECAY_PIN s' = false
       /\ getState (FocusAbsPosNP s') = IPS_OK
       /\ getState (FocusRelPosNP s') = IPS_OK.
Proof.
  intros Hc Hs Hp Ht Hr Hne.
  assert (Hstart : fst (MoveAbsFocuser t s) = start_move t s)
    by (rewrite (MoveAbsFocuser_accepts s t Hr Hne); reflexivity).
  assert (Hfields :
    EN_PIN (start_move t s) = false /\ DECAY_PIN (start_move t s) = true
    /\ getState (FocusAbsPosNP (start_move t s)) = IPS_BUSY
    /\ same_board s (start_move t s)).
  { unfold start_move, setCurrent.
    cbn [isConnected with_abs]. rewrite Hc. cbn [negb].
    rewrite join_of_settled by exact Hs.
    repeat split; reflexivity. }
  destruct Hfields as (F1 & F2 & F3 & F4).
  rewrite Hstart.
  split; [repeat split; assumption|].
  destruct (move_runs s t Hs Hp Ht Hr Hne)
    as (fuel & s' & w' & Hrun & _ & _ & HP & _).
  rewrite Hstart in Hrun.
  destruct (run_ends_with_exit fuel _ _
              (mkWorker t (newDirection s t) (backlash_budget s t)
                 (to_uint32 (Position s)) [] false) Hrun)
    as (s0 & w0 & E & B).
  { unfold start_move.
    destruct (setCurrent_frame false (with_abs (setState IPS_BUSY) s))
      as (en & dc & ml & ->).
    rewrite join_of_settled by exact Hs.
    reflexivity. }
  { reflexivity. }
  exists fuel, s'. split; [exact Hrun|]. split; [exact HP|].
  destruct (same_board_trans _ _ _ F4 B) as (B1 & _ & B3 & _).
  destruct (worker_exit_lines s0 w0 (eq_trans B1 Hc)) as (L1 & L2 & L3 & L4).
  rewrite E, L1, L2, L3, L4, B3. repeat split; reflexivity.
Qed.

Lemma completed_move_returns_to_holding_witness :
  exists fuel s',
    run_worker fuel (fst (MoveAbsFocuser 2000 at_rest)) = Some s'
    /\ Position s' = 2000 /\ EN_PIN s' = false /\ DECAY_PIN s' = false.
Proof.
  assert (H0 : 0 <= Position at_rest < 2 ^ 32) by (unfold Position; simpl; lia).
  assert (H1 : 0 <= 2000 < 2 ^ 32) by lia.
  assert (H2 : in_range at_rest 2000) by (unfold in_range; simpl; lia).
  assert (H3 : 2000 <> Position at_rest) by discriminate.
  destruct (completed_move_returns_to_holding at_rest 2000 eq_refl I H0 H1 H2 H3)
    as (_ & fuel & s' & A & B & C & D & _).
  exists fuel, s'. split; [exact A|]. split; [exact B|].
  split; [exact C | exact D].
Defined.

(** ** Relative moves *)

(** X8.  Where the conversion of the computed target is exact, a relative move
    outward by n steps followed, once it has completed, by a relative
    move inward by n steps brings the focuser back to the position it
    started from. *)
Theorem relative_moves_round_trip (cvt : Z -> Z) (s : Driver) (n : Z) :
  (forall z, 0 <= z < 2 ^ 32 -> cvt z = z) ->
  settled s -> getMin (FocusAbsPosNP s) = 0 ->
  0 <= Position s -> 0 < n < 2 ^ 31 ->
  Position s + n <= getMax (FocusAbsPosNP s) ->
  getMax (FocusAbsPosNP s) < 2 ^ 32 ->
  exists fuel1 s1 fuel2 s2,
    run_worker fuel1 (fst (MoveRelFocuser cvt FOCUS_OUTWARD n s)) = Some s1
    /\ Position s1 = Position s + n
    /\ run_worker fuel2 (fst (MoveRelFocuser cvt FOCUS_INWARD n s1)) = Some s2
    /\ Position s2 = Position s.
Proof.
  intros Hcvt Hs Hmin Hp Hn Hle Hmax.
  assert (Hn' : to_int n = n).
  { apply to_int_small. change (2 ^ 31) with 2147483648 in *. lia. }
  unfold MoveRelFocuser. rewrite Hn'.
  assert (Ht1 : 0 <= Position s + n < 2 ^ 32) by lia.
  rewrite Z.mul_1_r, (Hcvt _ Ht1).
  assert (Hp' : 0 <= Position s < 2 ^ 32) by lia.
  assert (Hr1 : in_range s (Position s + n)) by (unfold in_range; lia).
  assert (Hne1 : Position s + n <> Position s) by lia.
  destruct (move_completes_at_rest s _ Hs Hp' Ht1 Hr1 Hne1)
    as (fuel1 & s1 & Hrun1 & Hs1 & HP1 & Hmin1 & Hmax1 & _).
  assert (Hback : cvt (Position s1 + n * -1) = Position s).
  { rewrite HP1. replace (Position s + n + n * -1) with (Position s) by lia.
    apply Hcvt. exact Hp'. }
  assert (Hp1 : 0 <= Position s1 < 2 ^ 32) by (rewrite HP1; exact Ht1).
  assert (Hr2 : in_range s1 (Position s))
    by (unfold in_range; rewrite Hmin1, Hmax1; lia).
  assert (Hne2 : Position s <> Position s1) by (rewrite HP1; lia).
  destruct (move_completes_at_rest s1 _ Hs1 Hp1 Hp' Hr2 Hne2)
    as (fuel2 & s2 & Hrun2 & _ & HP2 & _).
  exists fuel1, s1, fuel2, s2.
  split; [exact Hrun1|]. split; [exact HP1|].
  rewrite Hback. split; [exact Hrun2 | exact HP2].
Qed.

Lemma relative_moves_round_trip_witness :
  exists fuel1 s1 fuel2 s2,
    run_worker fuel1 (fst (MoveRelFocuser to_uint32 FOCUS_OUTWARD 500 at_rest))
    = Some s1
    /\ Position s1 = 1500
    /\ run_worker fuel2 (fst (MoveRelFocuser to_uint32 FOCUS_INWARD 500 s1))
       = Some s2
    /\ Position s2 = 1000.
Proof.
  apply (relative_moves_round_trip to_uint32 at_rest 500).
  - intros z Hz. unfold to_uint32. apply Z.mod_small. exact Hz.
  - exact I.
  - reflexivity.
  - unfold Position; simpl; lia.
  - lia.
  - unfold Position; simpl; lia.
  - simpl; lia.
Defined.

(** ** Thermal compensation, continued *)

Lemma worker_exit_connection (s : Driver) (w : Worker) :
  isConnected (worker_exit s w) = isConnected s.
Proof.
  unfold worker_exit.
  destruct (savePosition_frame
              (int_mul
                 (to_int (Position (with_rel (setState IPS_OK)
                    (with_abs (fun p => setState IPS_OK (setValue (currentPos w) p)) s))))
                 MAX_RESOLUTION
               ÷ resolution (with_rel (setState IPS_OK)
                 (with_abs (fun p => setState IPS_OK (setValue (currentPos w) p)) s)))
              (with_rel (setState IPS_OK)
                 (with_abs (fun p => setState IPS_OK (setValue (currentPos w) p)) s)))
    as (f & ->).
  match goal with
  | |- context [setCurrent true ?x] =>
      destruct (setCurrent_frame true x) as (en & dc & ml & ->)
  end.
  reflexivity.
Qed.

Lemma connection_after_thread (t : option Worker) (s : Driver) :
  isConnected (set_motionThread t s) = isConnected s.
Proof. reflexivity. Qed.

Lemma connection_after_abort (a : bool) (s : Driver) :
  isConnected (set_abort a s) = isConnected s.
Proof. reflexivity. Qed.

Lemma MoveAbsFocuser_keeps_connection (s : Driver) (t : Z) :
  isConnected (fst (MoveAbsFocuser t s)) = isConnected s.
Proof.
  destruct (MoveAbsFocuser_cases s t) as [E | [E | (_ & _ & E)]];
    rewrite E; cbn [fst]; try reflexivity.
  unfold start_move.
  destruct (setCurrent_frame false (with_abs (setState IPS_BUSY) s))
    as (en & dc & ml & ->).
  rewrite connection_after_thread, connection_after_abort.
  unfold abort_and_join.
  match goal with
  | |- context [_motionThread ?x] =>
      destruct (_motionThread x) as [w|]; [|reflexivity]
  end.
  rewrite connection_after_thread.
  destruct (exited w); [reflexivity|].
  rewrite worker_exit_connection. reflexivity.
Qed.

Lemma fields_after_lastTemperature (q : Q) (s : Driver) :
  isConnected (set_lastTemperature q s) = isConnected s
  /\ FocusTemperature (set_lastTemperature q s) = FocusTemperature s
  /\ lastTemperature (set_lastTemperature q s) = q
  /\ _motionThread (set_lastTemperature q s) = _motionThread s
  /\ _abort (set_lastTemperature q s) = _abort s
  /\ Position (set_lastTemperature q s) = Position s.
Proof. repeat split; reflexivity. Qed.

(** What the compensator does when its threshold test passes. *)
Lemma compensation_due (cvt : Z -> Z) (s : Driver) :
  isConnected s = true -> TemperatureCompensate s = true ->
  ~ (FocusTemperature s == lastTemperature s)%Q ->
  (FOC_STEPS_CFZ (FocuserInfoN s) / 2 < Qabs (deltaPos s))%Q ->
  temperatureCompensation cvt s =
  set_lastTemperature (FocusTemperature s)
    (fst (MoveAbsFocuser (cvt (Position s + c_round (deltaPos s))) s)).
Proof.
  intros Hconn Hc Hne Hlt.
  unfold temperatureCompensation. rewrite Hconn, Hc. simpl negb. cbv iota.
  destruct (Qeq_bool (FocusTemperature s) (lastTemperature s)) eqn:Heq.
  { exfalso. apply Hne. apply Qeq_bool_iff. exact Heq. }
  simpl andb. cbv iota. fold (deltaPos s).
  rewrite (proj2 (Qlt_bool_iff _ _) Hlt).
  rewrite MoveAbsFocuser_keeps_temperature. reflexivity.
Qed.

(** X9.  A compensation is applied once: running the compensator again on the
    state it returned, with the temperature unchanged, changes nothing. *)
Theorem compensation_is_applied_once (cvt : Z -> Z) (s : Driver) :
  temperatureCompensation cvt (temperatureCompensation cvt s)
  = temperatureCompensation cvt s.
Proof.
  unfold temperatureCompensation at 2.
  destruct (isConnected s) eqn:Hconn; cbn [negb];
    [|unfold temperatureCompensation; rewrite Hconn; reflexivity].
  destruct (TemperatureCompensate s && negb (Qeq_bool (FocusTemperature s)
                                               (lastTemperature s))) eqn:Hg.
  - destruct (Qlt_bool (FOC_STEPS_CFZ (FocuserInfoN s) / 2)
                (Qabs (TemperatureCoef s * (FocusTemperature s - lastTemperature s))))
      eqn:Hlt.
    + cbv zeta.
      set (s1 := fst (MoveAbsFocuser _ s)).
      unfold temperatureCompensation.
      destruct (fields_after_lastTemperature (FocusTemperature s1) s1)
        as (F1 & F2 & F3 & _).
      rewrite F1, F2, F3.
      unfold s1 at 1. rewrite MoveAbsFocuser_keeps_connection, Hconn.
      cbn [negb].
      rewrite (proj2 (Qeq_bool_iff _ _) (Qeq_refl (FocusTemperature s1))).
      cbn [negb]. rewrite andb_false_r, Hg, Hlt. reflexivity.
    + unfold temperatureCompensation. rewrite Hconn, Hg. cbn [negb].
      rewrite Hlt. reflexivity.
  - unfold temperatureCompensation. rewrite Hconn, Hg. reflexivity.
Qed.

(** X10.  A compensation whose target lies outside the limits is lost: no move
    is started and the position stays, yet lastTemperature takes the
    current temperature, so the change is not compensated later
    either. *)
Theorem compensation_out_of_range_is_lost (cvt : Z -> Z) (s : Driver) :
  isConnected s = true -> TemperatureCompensate s = true ->
  ~ (FocusTemperature s == lastTemperature s)%Q ->
  (FOC_STEPS_CFZ (FocuserInfoN s) / 2 < Qabs (deltaPos s))%Q ->
  ~ in_range s (cvt (Position s + c_round (deltaPos s))) ->
  temperatureCompensation cvt s = set_lastTemperature (FocusTemperature s) s
  /\ Position (temperatureCompensation cvt s) = Position s
  /\ _motionThread (temperatureCompensation cvt s) = _motionThread s
  /\ lastTemperature (temperatureCompensation cvt s) = FocusTemperature s.
Proof.
  intros Hconn Hc Hne Hlt Hout.
  rewrite (compensation_due cvt s Hconn Hc Hne Hlt).
  unfold MoveAbsFocuser. rewrite (range_test_out s _ Hout). cbn [fst].
  repeat split; reflexivity.
Qed.

Lemma compensation_out_of_range_is_lost_witness :
  temperatureCompensation to_uint32 (with_abs (setMax 1020) at_rest)
  = set_lastTemperature 10 (with_abs (setMax 1020) at_rest).
Proof.
  apply (compensation_out_of_range_is_lost to_uint32
           (with_abs (setMax 1020) at_rest)).
  - reflexivity.
  - reflexivity.
  - vm_compute. discriminate.
  - vm_compute. reflexivity.
  - unfold in_range. vm_compute. intros [_ H]. apply H. reflexivity.
Defined.

(** C's [round] is within half a unit of its argument. *)
Lemma c_round_nearest (q : Q) : (Qabs (inject_Z (c_round q) - q) <= 1 # 2)%Q.
Proof.
  apply Qabs_Qle_condition. unfold c_round.
  destruct (Qle_bool 0 q).
  - pose proof (Qfloor_le (q + (1 # 2))) as H1.
    pose proof (Qlt_floor (q + (1 # 2))) as H2.
    rewrite inject_Z_plus in H2. change (inject_Z 1) with 1%Q in H2.
    split; Lqa.lra.
  - pose proof (Qle_ceiling (q - (1 # 2))) as H1.
    pose proof (Qceiling_lt (q - (1 # 2))) as H2.
    unfold Z.sub in H2. rewrite inject_Z_plus, inject_Z_opp in H2.
    change (inject_Z 1) with 1%Q in H2.
    split; Lqa.lra.
Qed.

(** X11.  A compensation whose target lies within the limits, requested at
    rest and run to the end, leaves the focuser at the position plus the
    compensation rounded to the nearest step, within half a step of the
    ideal position, with lastTemperature at the current temperature. *)
Theorem compensation_moves_to_nearest_step (cvt : Z -> Z) (s : Driver) :
  (forall z, 0 <= z < 2 ^ 32 -> cvt z = z) ->
  isConnected s = true -> TemperatureCompensate s = true ->
  ~ (FocusTemperature s == lastTemperature s)%Q ->
  (FOC_STEPS_CFZ (FocuserInfoN s) / 2 < Qabs (deltaPos s))%Q ->
  settled s -> 0 <= Position s < 2 ^ 32 ->
  0 <= Position s + c_round (deltaPos s) < 2 ^ 32 ->
  in_range s (Position s + c_round (deltaPos s)) ->
  exists fuel s',
    run_worker fuel (temperatureCompensation cvt s) = Some s'
    /\ Position s' = Position s + c_round (deltaPos s)
    /\ (Qabs (inject_Z (Position s') - (inject_Z (Position s) + deltaPos s))
        <= 1 # 2)%Q
    /\ lastTemperature s' = FocusTemperature s.
Proof.
  intros Hcvt Hconn Hc Hne Hlt Hs Hp Ht Hr.
  rewrite (compensation_due cvt s Hconn Hc Hne Hlt), (Hcvt _ Ht).
  set (t := Position s + c_round (deltaPos s)) in *.
  assert (Hnear : forall P', P' = t ->
            (Qabs (inject_Z P' - (inject_Z (Position s) + deltaPos s)) <= 1 # 2)%Q).
  { intros P' ->. unfold t. rewrite inject_Z_plus.
    setoid_replace (inject_Z (Position s) + inject_Z (c_round (deltaPos s))
                    - (inject_Z (Position s) + deltaPos s))%Q
      with (inject_Z (c_round (deltaPos s)) - deltaPos s)%Q by ring.
    apply c_round_nearest. }
  destruct (Z.eq_dec t (Position s)) as [Heq | Hneq].
  - (* the compensation rounds to no step at all *)
    exists 0%nat. eexists. split.
    { unfold MoveAbsFocuser. rewrite (range_test s t Hr).
      rewrite (proj2 (Z.eqb_eq _ _) Heq). cbn [fst].
      unfold settled in Hs. simpl.
      destruct (_motionThread s) as [w|] eqn:Hth; [rewrite Hs|]; reflexivity. }
    split; [symmetry; exact Heq|].
    split; [apply Hnear; symmetry; exact Heq | reflexivity].
  - destruct (MoveAbsFocuser_starts s t Hr Hneq)
      as (c & _ & Hth & _ & _ & Hab & _ & Htemp & _ & Hset).
    destruct (Hset Hs) as (Hcur & _). subst c.
    set (s0 := fst (MoveAbsFocuser t s)) in *.
    set (w := mkWorker t (newDirection s t) (backlash_budget s t)
                (to_uint32 (Position s)) [] false) in *.
    destruct (fields_after_lastTemperature (FocusTemperature s) s0)
      as (_ & F2 & _ & F4 & F5 & _).
    assert (Hok : worker_ok w).
    { unfold worker_ok, w; simpl.
      split; [reflexivity|]. split; [|split; [apply to_uint32_range | exact Ht]].
      unfold newDirection. destruct (_ <? _); auto. }
    assert (Hm : Z.of_nat (Z.to_nat (backlash_left w + steps_left w))
                 = backlash_left w + steps_left w).
    { apply Z2Nat.id.
      assert (0 <= backlash_left w)
        by (unfold backlash_left; destruct (_ =? _); lia).
      assert (0 <= steps_left w)
        by (unfold steps_left; apply Z.mod_pos_bound; reflexivity).
      lia. }
    destruct (worker_completes _ (set_lastTemperature (FocusTemperature s) s0) w
                (eq_trans F4 Hth) (eq_trans F5 Hab) Hok Hm)
      as (s' & w' & Hrun & _ & _ & HP & _ & _ & HT & _).
    eexists. exists s'. split; [exact Hrun|].
    split; [exact HP|]. split; [apply Hnear; exact HP|].
    rewrite HT, F2. exact Htemp.
Qed.

Lemma compensation_moves_to_nearest_step_witness :
  exists fuel s',
    run_worker fuel (temperatureCompensation to_uint32 at_rest) = Some s'
    /\ Position s' = 1050.
Proof.
  assert (Hcvt : forall z, 0 <= z < 2 ^ 32 -> to_uint32 z = z)
    by (intros z Hz; unfold to_uint32; apply Z.mod_small; exact Hz).
  assert (H1 : ~ (FocusTemperature at_rest == lastTemperature at_rest)%Q)
    by (vm_compute; discriminate).
  assert (H2 : (FOC_STEPS_CFZ (FocuserInfoN at_rest) / 2
                < Qabs (deltaPos at_rest))%Q) by (vm_compute; reflexivity).
  assert (H3 : 0 <= Position at_rest < 2 ^ 32) by (unfold Position; simpl; lia).
  assert (H4 : 0 <= Position at_rest + c_round (deltaPos at_rest) < 2 ^ 32)
    by (vm_compute; split; congruence).
  assert (H5 : in_range at_rest (Position at_rest + c_round (deltaPos at_rest)))
    by (unfold in_range; vm_compute; split; congruence).
  destruct (compensation_moves_to_nearest_step to_uint32 at_rest
              Hcvt eq_refl eq_refl H1 H2 I H3 H4 H5)
    as (fuel & s' & A & B & _).
  exists fuel, s'. split; [exact A|]. rewrite B. reflexivity.
Defined.

(** ** Changing the resolution, continued *)

(** A change that requests no realignment: the handler rescales and
    leaves the thread alone. *)
Lemma motionless_change (cvt : Z -> Z) (sel : FocusResolution) (s : Driver) :
  realignment (resolution s) (resolution_of sel) (Position s) = None ->
  _motionThread (ISNewSwitch_FocusResolution cvt sel s) = _motionThread s
  /\ lastDirection (ISNewSwitch_FocusResolution cvt sel s) = lastDirection s
  /\ resolution (ISNewSwitch_FocusResolution cvt sel s) = resolution_of sel
  /\ Position (ISNewSwitch_FocusResolution cvt sel s)
     = rescale (resolution_of sel) (resolution s) (Position s).
Proof.
  intros Hnone. rewrite handler_halves.
  assert (E : realign cvt sel s = set_resolution (resolution_of sel) s).
  { unfold realign.
    change (resolution (set_resolution (resolution_of sel) s))
      with (resolution_of sel).
    change (Position (set_resolution (resolution_of sel) s)) with (Position s).
    rewrite Hnone. reflexivity. }
  rewrite E. repeat split; reflexivity.
Qed.

(** X12.  Refining the resolution, or changing it from a full-step position,
    never moves the motor and loses nothing: no realignment is requested,
    the thread and the remembered direction are as before, and the new
    position is the old one times newRes/oldRes exactly. *)
Theorem refining_resolution_is_exact
    (cvt : Z -> Z) (sel r0 : FocusResolution) (s : Driver) :
  resolution s = resolution_of r0 ->
  0 <= Position s < 2 ^ 26 ->
  resolution_of r0 <= resolution_of sel
  \/ Position s mod resolution_of r0 = 0 ->
  let s' := ISNewSwitch_FocusResolution cvt sel s in
  realignment (resolution s) (resolution_of sel) (Position s) = None
  /\ _motionThread s' = _motionThread s
  /\ lastDirection s' = lastDirection s
  /\ Position s' * resolution_of r0 = Position s * resolution_of sel.
Proof.
  intros Hres Hp Hcase s'. subst s'.
  assert (Hold : 0 < resolution_of r0) by (destruct r0; simpl; lia).
  assert (Hp31 : 0 <= Position s < 2 ^ 31)
    by (change (2 ^ 26) with 67108864 in Hp; change (2 ^ 31) with 2147483648; lia).
  assert (Hnone : realignment (resolution s) (resolution_of sel) (Position s) = None).
  { rewrite Hres, (realignment_spec _ _ _ Hold Hp31).
    destruct Hcase as [Hle | Hz].
    - rewrite (proj2 (Z.ltb_ge _ _) Hle). reflexivity.
    - rewrite Hz. rewrite andb_false_r. reflexivity. }
  split; [exact Hnone|].
  destruct (motionless_change cvt sel s Hnone) as (A & B & _ & D).
  split; [exact A|]. split; [exact B|].
  rewrite D, Hres. unfold rescale. rewrite (to_int_small _ Hp31).
  change (2 ^ 26) with 67108864 in Hp.
  rewrite int_mul_small
    by (change (2 ^ 31) with 2147483648; destruct sel; cbn [resolution_of]; lia).
  rewrite Z.quot_div_nonneg by (try lia; destruct sel; simpl; lia).
  clear - Hp Hcase.
  destruct Hcase as [Hle | Hz].
  - destruct r0; destruct sel; cbn [resolution_of] in *; try lia;
      Z.div_mod_to_equations; lia.
  - revert Hz. destruct r0; destruct sel; cbn [resolution_of];
      intros Hz; Z.div_mod_to_equations; lia.
Qed.

Lemma refining_resolution_is_exact_witness :
  Position (ISNewSwitch_FocusResolution to_uint32 RES_32 full_step) * 1
  = Position full_step * 32.
Proof.
  assert (Hp : 0 <= Position full_step < 2 ^ 26) by (unfold Position; simpl; lia).
  destruct (refining_resolution_is_exact to_uint32 RES_32 RES_1 full_step
              eq_refl Hp) as (_ & _ & _ & A).
  - left. simpl. lia.
  - exact A.
Defined.

(** X13.  From a full-step position, changing the resolution and changing it
    back restores the position, and neither change starts a move. *)
Theorem resolution_round_trip
    (cvt : Z -> Z) (sel r0 : FocusResolution) (s : Driver) :
  resolution s = resolution_of r0 ->
  0 <= Position s < 2 ^ 21 ->
  Position s mod resolution_of r0 = 0 ->
  let there := ISNewSwitch_FocusResolution cvt sel s in
  let back := ISNewSwitch_FocusResolution cvt r0 there in
  Position back = Position s
  /\ resolution back = resolution s
  /\ _motionThread back = _motionThread s
  /\ _motionThread there = _motionThread s.
Proof.
  intros Hres Hp Hz there back. subst back there.
  change (2 ^ 21) with 2097152 in Hp.
  assert (Hold : 0 < resolution_of r0) by (destruct r0; simpl; lia).
  assert (Hnew : 0 < resolution_of sel <= 32) by (destruct sel; simpl; lia).
  assert (Hp31 : 0 <= Position s < 2 ^ 31)
    by (change (2 ^ 31) with 2147483648; lia).
  assert (Hnone1 : realignment (resolution s) (resolution_of sel) (Position s)
                   = None).
  { rewrite Hres, (realignment_spec _ _ _ Hold Hp31), Hz, andb_false_r.
    reflexivity. }
  destruct (motionless_change cvt sel s Hnone1) as (A1 & _ & C1 & D1).
  set (s1 := ISNewSwitch_FocusResolution cvt sel s) in *.
  assert (HP1 : Position s1 = Position s / resolution_of r0 * resolution_of sel).
  { rewrite D1, Hres. unfold rescale. rewrite (to_int_small _ Hp31).
    rewrite int_mul_small by (change (2 ^ 31) with 2147483648; nia).
    rewrite Z.quot_div_nonneg by (try lia; nia).
    pose proof (Z.div_mod (Position s) (resolution_of r0) ltac:(lia)) as Hdm.
    rewrite Hz, Z.add_0_r in Hdm.
    rewrite Hdm at 1.
    rewrite <- Z.mul_assoc, Z.mul_comm, Z.div_mul by lia.
    lia. }
  assert (Hq : 0 <= Position s / resolution_of r0 <= Position s).
  { split; [apply Z.div_pos; lia|].
    apply Z.div_le_upper_bound; [lia | nia]. }
  assert (Hp1 : 0 <= Position s1 < 2 ^ 31)
    by (rewrite HP1; change (2 ^ 31) with 2147483648; nia).
  assert (Hz1 : Position s1 mod resolution_of sel = 0)
    by (rewrite HP1; apply Z.mod_mul; lia).
  assert (Hnone2 : realignment (resolution s1) (resolution_of r0) (Position s1)
                   = None).
  { rewrite C1, (realignment_spec _ _ _ (proj1 Hnew) Hp1), Hz1, andb_false_r.
    reflexivity. }
  destruct (motionless_change cvt r0 s1 Hnone2) as (A2 & _ & C2 & D2).
  split; [|split; [rewrite C2, Hres; reflexivity
                  | split; [rewrite A2; exact A1 | exact A1]]].
  rewrite D2, C1. unfold rescale. rewrite (to_int_small _ Hp1).
  assert (Hold32 : resolution_of r0 <= 32) by (destruct r0; simpl; lia).
  rewrite int_mul_small
    by (rewrite HP1; change (2 ^ 31) with 2147483648; nia).
  rewrite Z.quot_div_nonneg by (try lia; nia).
  rewrite HP1.
  rewrite <- Z.mul_assoc, (Z.mul_comm (resolution_of sel)), Z.mul_assoc.
  rewrite Z.div_mul by lia.
  pose proof (Z.div_mod (Position s) (resolution_of r0) ltac:(lia)) as Hdm.
  rewrite Hz, Z.add_0_r in Hdm. lia.
Qed.

Lemma resolution_round_trip_witness :
  Position (ISNewSwitch_FocusResolution to_uint32 RES_1
              (ISNewSwitch_FocusResolution to_uint32 RES_8 full_step))
  = Position full_step.
Proof.
  assert (Hp : 0 <= Position full_step < 2 ^ 21) by (unfold Position; simpl; lia).
  destruct (resolution_round_trip to_uint32 RES_8 RES_1 full_step
              eq_refl Hp eq_refl) as (A & _).
  exact A.
Defined.

(** ** Microstep lines and DAC bytes *)

(** X14.  The six supported resolutions drive six different patterns on
    M0, M1, M2, so the lines identify the resolution; any other value
    drives the pattern of full steps. *)
Theorem mode_lines_identify_resolution :
  (forall (r1 r2 : FocusResolution) (s1 s2 : Driver),
      modePins (SetResolution (resolution_of r1) s1)
      = modePins (SetResolution (resolution_of r2) s2) -> r1 = r2)
  /\ (forall (res : Z) (s : Driver),
        (forall r, res <> resolution_of r) ->
        modePins (SetResolution res s)
        = modePins (SetResolution 1 s)).
Proof.
  split.
  - intros r1 r2 s1 s2.
    destruct r1; destruct r2; cbn; intros H;
      try reflexivity; discriminate H.
  - intros res s Hno. unfold SetResolution. cbn [modePins set_modePins].
    repeat match goal with
           | |- context [res =? ?k] =>
               destruct (Z.eqb_spec res k) as [E|_];
               [exfalso;
                first [exact (Hno RES_1 E) | exact (Hno RES_2 E)
                      | exact (Hno RES_4 E) | exact (Hno RES_8 E)
                      | exact (Hno RES_16 E) | exact (Hno RES_32 E)]|]
           end.
    reflexivity.
Qed.

Lemma nibble_or (hi y : Z) :
  0 <= y < 16 -> Z.lor (hi * 16) y = hi * 16 + y.
Proof.
  intros Hy.
  assert (Hland : Z.land (hi * 16) y = 0); [|
    rewrite <- (Z.lxor_lor _ _ Hland); symmetry;
    apply Z.add_nocarry_lxor; exact Hland].
  apply Z.bits_inj'. intros n Hn.
  rewrite Z.land_spec, Z.bits_0.
  destruct (Z.lt_ge_cases n 4) as [Hlt | Hge].
  - change 16 with (2 ^ 4).
    rewrite Z.mul_pow2_bits_low by lia. reflexivity.
  - assert (Hb : Z.testbit y n = false).
    { destruct (Z.eq_dec y 0) as [-> | Hnz]; [apply Z.bits_0|].
      apply Z.bits_above_log2; [lia|].
      assert (Z.log2 y < 4); [|lia].
      apply Z.log2_lt_pow2; [lia | simpl; lia]. }
    rewrite Hb. apply andb_false_r.
Qed.

(** X15.  [setDac] sends two bytes: the high nibble of the first is the channel
    code, its low nibble and the high nibble of the second spell the low
    eight bits of the value, and the low nibble of the second is 0.  A
    value of more than eight bits loses its upper bits. *)
Theorem setDac_packs_eight_bits (chan value : Z) :
  0 <= value < 2 ^ 27 ->
  let b0 := fst (setDac chan value) in
  let b1 := snd (setDac chan value) in
  0 <= b0 < 256 /\ 0 <= b1 < 256
  /\ b0 / 16 = (if chan =? 0 then 3 else 11)
  /\ b1 mod 16 = 0
  /\ (b0 mod 16) * 16 + b1 / 16 = value mod 256.
Proof.
  intros _. unfold setDac, to_uint8. cbn [fst snd]. change (2 ^ 8) with 256.
  assert (Hlo : Z.land (Z.shiftr value 4) 15 = (value / 16) mod 16).
  { change 15 with (Z.ones 4). rewrite Z.land_ones by lia.
    rewrite Z.shiftr_div_pow2 by lia. reflexivity. }
  assert (Hhi : Z.land (Z.shiftl value 4) 240 = (value mod 16) * 16).
  { change 240 with (Z.shiftl 15 4). rewrite <- Z.shiftl_land.
    change 15 with (Z.ones 4). rewrite Z.land_ones by lia.
    rewrite Z.shiftl_mul_pow2 by lia. reflexivity. }
  rewrite Hlo, Hhi.
  assert (Hn : 0 <= (value / 16) mod 16 < 16) by (apply Z.mod_pos_bound; lia).
  assert (Hm : 0 <= value mod 16 < 16) by (apply Z.mod_pos_bound; lia).
  assert (Hor : Z.lor (if chan =? 0 then 48 else 176) ((value / 16) mod 16)
                = (if chan =? 0 then 3 else 11) * 16 + (value / 16) mod 16).
  { destruct (chan =? 0);
      [change 48 with (3 * 16) | change 176 with (11 * 16)];
      apply nibble_or; exact Hn. }
  rewrite Hor.
  set (n := (value / 16) mod 16) in *. set (m := value mod 16) in *.
  assert (Hc : 0 <= (if chan =? 0 then 3 else 11) <= 11)
    by (destruct (chan =? 0); lia).
  set (c := if chan =? 0 then 3 else 11) in *.
  rewrite (Z.mod_small (c * 16 + n)) by lia.
  rewrite (Z.mod_small (m * 16)) by lia.
  split; [lia|]. split; [lia|].
  split; [rewrite Z.div_add_l by lia; rewrite Z.div_small by lia; lia|].
  split; [apply Z.mod_mul; lia|].
  rewrite (Z.add_comm (c * 16) n), Z.mod_add by lia.
  rewrite (Z.mod_small n) by lia. rewrite Z.div_mul by lia.
  unfold n, m. clear. Z.div_mod_to_equations. lia.
Qed.

Lemma setDac_packs_eight_bits_witness :
  (fst (setDac 0 124) mod 16) * 16 + snd (setDac 0 124) / 16 = 124 mod 256.
Proof.
  assert (H : 0 <= 124 < 2 ^ 27) by (simpl; lia).
  exact (proj2 (proj2 (proj2 (proj2 (setDac_packs_eight_bits 0 124 H))))).
Defined.

End FocuserOpsProofs.

Module SkyQualityProofs.

Import TSL TSLProofs SkyQuality.

(** One invocation keeps the counter within 0..150 and the infrared sum
    below the full-spectrum sum. *)
Lemma readTSL_keeps_order (b : Bus) (t : Sensor) :
  0 <= niter t <= 150 -> irCumulative t <= fullCumulative t ->
  0 <= niter (fst (readTSL b t)) <= 150
  /\ irCumulative (fst (readTSL b t)) <= fullCumulative (fst (readTSL b t)).
Proof.
  intros Hn Ho. unfold readTSL.
  destruct (i2cHandle b <? 0); [simpl; lia|].
  destruct (TSLmode t).
  - destruct (writeByte b 0%nat =? 0); simpl; lia.
  - simpl; lia.
  - destruct (adcStartTime t =? 0); [simpl; lia|].
    destruct (adcStartTime t + TSL2591_ADC_TIME <? millis b); [|simpl; lia].
    destruct (Z.ltb_spec (full b) (ir b)); [simpl; lia|].
    destruct (Z.ltb_spec (niter t) 5); cbn [orb].
    + simpl; lia.
    + destruct (Z.ltb_spec (fullCumulative t - irCumulative t) 500);
        destruct (Z.ltb_spec (niter t) 150); simpl; lia.
Qed.

(** X16.  Whatever the bus delivers, over any number of invocations, the cycle
    counter stays within 0..150 and the infrared sum never exceeds the
    full-spectrum sum; so whenever an invocation finalizes, the divisor
    29628 n is positive and the visible sum is not negative. *)
Theorem sums_stay_ordered (bs : list Bus) (t : Sensor) :
  0 <= niter t <= 150 -> irCumulative t <= fullCumulative t ->
  let t' := readTSL_all bs t in
  0 <= niter t' <= 150
  /\ irCumulative t' <= fullCumulative t'
  /\ forall b, finalizes b t' = true ->
       5 <= niter t' /\ 0 <= fullCumulative t' - irCumulative t'.
Proof.
  revert t. induction bs as [|b rest IH]; intros t Hn Ho; cbn [readTSL_all].
  - split; [exact Hn|]. split; [exact Ho|].
    intros b H. unfold finalizes in H.
    repeat (apply andb_true_iff in H; destruct H as [H ?]).
    match goal with
    | Hc : negb (_ || _) = true |- _ =>
        apply negb_true_iff, orb_false_iff in Hc; destruct Hc as [Hc _];
        apply Z.ltb_ge in Hc
    end.
    lia.
  - destruct (readTSL_keeps_order b t Hn Ho) as [Hn' Ho'].
    exact (IH _ Hn' Ho').
Qed.

Lemma sums_stay_ordered_witness :
  0 <= niter (readTSL_all [bus_failing 2000 500 20; sixth_sample] at_threshold)
    <= 150.
Proof.
  assert (Hn : 0 <= niter at_threshold <= 150) by (simpl; lia).
  assert (Ho : irCumulative at_threshold <= fullCumulative at_threshold)
    by (simpl; lia).
  exact (proj1 (sums_stay_ordered [bus_failing 2000 500 20; sixth_sample]
                  at_threshold Hn Ho)).
Defined.

(** X17.  A sample whose full-spectrum word is below its infrared word is
    dropped: the sums, the counter and the published reading stay, the
    integration start time is cleared, and the invocation reports the
    sensor as available and leaves it INITIALIZED whatever the two
    power-off writes returned. *)
Theorem corrupt_sample_is_dropped (b : Bus) (t : Sensor) :
  0 <= i2cHandle b -> TSLmode t = TSL_INITIALIZED -> adcStartTime t <> 0 ->
  adcStartTime t + TSL2591_ADC_TIME < millis b -> full b < ir b ->
  readTSL b t =
  (mkSensor TSL_INITIALIZED 0 (niter t) (fullCumulative t) (irCumulative t)
     (SQMOffset t) (SQM_READING t), true).
Proof.
  intros Hh Hm Ha Ht Hc. unfold readTSL.
  rewrite (proj2 (Z.ltb_ge _ _) Hh), Hm.
  rewrite (proj2 (Z.eqb_neq _ _) Ha).
  rewrite (proj2 (Z.ltb_lt _ _) Ht).
  rewrite (proj2 (Z.ltb_lt _ _) Hc).
  reflexivity.
Qed.

Lemma corrupt_sample_is_dropped_witness :
  readTSL (bus_failing 2000 500 20) at_threshold =
  (mkSensor TSL_INITIALIZED 0 5 600 100 0%R 0%R, true).
Proof.
  apply (corrupt_sample_is_dropped (bus_failing 2000 500 20) at_threshold).
  - simpl; lia.
  - reflexivity.
  - simpl; lia.
  - unfold TSL2591_ADC_TIME; simpl; lia.
  - simpl; lia.
Defined.

(** X18.  A bus dropout only changes the mode: an invocation that cannot open
    the device, followed by the two invocations that re-initialise it,
    leaves the sums, the counter, the published reading and a pending
    integration start time exactly as they were. *)
Theorem dropout_keeps_partial_sums (down up1 up2 : Bus) (t : Sensor) :
  i2cHandle down < 0 -> 0 <= i2cHandle up1 -> 0 <= i2cHandle up2 ->
  writeByte up1 0%nat = 0 -> (forall k, writeByte up2 k = 0) ->
  readTSL down t = (set_TSLmode TSL_NOTAVAILABLE t, false)
  /\ readTSL up1 (set_TSLmode TSL_NOTAVAILABLE t)
     = (set_TSLmode TSL_AVAILABLE t, true)
  /\ readTSL up2 (set_TSLmode TSL_AVAILABLE t)
     = (set_TSLmode TSL_INITIALIZED t, true)
  /\ readTSL_all [down; up1; up2] t = set_TSLmode TSL_INITIALIZED t.
Proof.
  intros Hd H1 H2 Hw1 Hw2.
  assert (A : readTSL down t = (set_TSLmode TSL_NOTAVAILABLE t, false)).
  { unfold readTSL. rewrite (proj2 (Z.ltb_lt _ _) Hd). reflexivity. }
  assert (B : readTSL up1 (set_TSLmode TSL_NOTAVAILABLE t)
              = (set_TSLmode TSL_AVAILABLE t, true)).
  { unfold readTSL. rewrite (proj2 (Z.ltb_ge _ _) H1).
    cbn [set_TSLmode TSLmode]. rewrite Hw1. reflexivity. }
  assert (C : readTSL up2 (set_TSLmode TSL_AVAILABLE t)
              = (set_TSLmode TSL_INITIALIZED t, true)).
  { unfold readTSL. rewrite (proj2 (Z.ltb_ge _ _) H2).
    cbn [set_TSLmode TSLmode]. rewrite !Hw2. reflexivity. }
  split; [exact A|]. split; [exact B|]. split; [exact C|].
  cbn [readTSL_all]. rewrite A. cbn [fst]. rewrite B. cbn [fst].
  rewrite C. reflexivity.
Qed.

Lemma dropout_keeps_partial_sums_witness :
  readTSL_all [bus_down; bus_ok 1200 0 0; bus_ok 1400 0 0] integrating
  = integrating.
Proof.
  assert (Hd : i2cHandle bus_down < 0) by (simpl; lia).
  assert (H1 : 0 <= i2cHandle (bus_ok 1200 0 0)) by (simpl; lia).
  assert (H2 : 0 <= i2cHandle (bus_ok 1400 0 0)) by (simpl; lia).
  exact (proj2 (proj2 (proj2
           (dropout_keeps_partial_sums bus_down (bus_ok 1200 0 0)
              (bus_ok 1400 0 0) integrating Hd H1 H2 eq_refl
              (fun _ => eq_refl))))).
Defined.

(** X19.  With return codes that are 0 or negative, as the bus library gives
    them, the initialisation succeeds exactly when every one of its six
    writes succeeded; otherwise the sensor falls back to NOTAVAILABLE. *)
Theorem initialisation_needs_every_write (b : Bus) (t : Sensor) :
  0 <= i2cHandle b -> TSLmode t = TSL_AVAILABLE ->
  (forall k, writeByte b k <= 0) ->
  (snd (readTSL b t) = true <-> forall k, (k < 6)%nat -> writeByte b k = 0)
  /\ TSLmode (fst (readTSL b t))
     = (if snd (readTSL b t) then TSL_INITIALIZED else TSL_NOTAVAILABLE).
Proof.
  intros Hh Hm Hneg. unfold readTSL.
  rewrite (proj2 (Z.ltb_ge _ _) Hh), Hm. cbn [fst snd TSLmode mode_after].
  split; [|unfold mode_after; destruct (_ =? 0); reflexivity].
  pose proof (Hneg 0%nat). pose proof (Hneg 1%nat). pose proof (Hneg 2%nat).
  pose proof (Hneg 3%nat). pose proof (Hneg 4%nat). pose proof (Hneg 5%nat).
  rewrite Z.eqb_eq. split.
  - intros Hsum k Hk.
    destruct k as [|[|[|[|[|[|k]]]]]]; try lia.
  - intros Hall.
    rewrite (Hall 0%nat), (Hall 1%nat), (Hall 2%nat), (Hall 3%nat),
      (Hall 4%nat), (Hall 5%nat) by lia.
    reflexivity.
Qed.

Lemma initialisation_needs_every_write_witness :
  snd (readTSL (bus_ok 0 0 0) (set_TSLmode TSL_AVAILABLE (armed 0%R))) = true.
Proof.
  assert (Hh : 0 <= i2cHandle (bus_ok 0 0 0)) by (simpl; lia).
  assert (Hneg : forall k, writeByte (bus_ok 0 0 0) k <= 0)
    by (intros k; simpl; lia).
  apply (proj1 (initialisation_needs_every_write (bus_ok 0 0 0)
                  (set_TSLmode TSL_AVAILABLE (armed 0%R)) Hh eq_refl Hneg)).
  intros k _. reflexivity.
Defined.

(** One integration cycle while the visible sum is below 500 and fewer
    than 150 cycles are counted adds the sample. *)
Lemma cycle_accumulates_dim (start : Z) (sample : Z * Z) (t : Sensor) :
  TSLmode t = TSL_INITIALIZED -> adcStartTime t = 0 -> 0 < start ->
  snd sample <= fst sample ->
  fullCumulative t - irCumulative t < 500 -> niter t < 150 ->
  cycle start sample t =
  mkSensor TSL_INITIALIZED 0 (niter t + 1) (fullCumulative t + fst sample)
    (irCumulative t + snd sample) (SQMOffset t) (SQM_READING t).
Proof.
  intros Hm Ha Hs Hle Hv Hn. unfold cycle, readTSL, bus_ok.
  cbn [i2cHandle writeByte millis ir full].
  change (0 <? 0) with false. cbv iota.
  rewrite Hm, Ha. change (0 =? 0) with true. cbv iota.
  cbn [fst TSLmode adcStartTime niter fullCumulative irCumulative SQMOffset
       SQM_READING mode_after].
  change (0 + 0 =? 0) with true. cbv iota.
  cbn [fst TSLmode adcStartTime niter fullCumulative irCumulative SQMOffset
       SQM_READING].
  rewrite (proj2 (Z.eqb_neq start 0)) by lia.
  unfold TSL2591_ADC_TIME.
  rewrite (proj2 (Z.ltb_lt (start + 750) (start + 751))) by lia.
  rewrite (proj2 (Z.ltb_ge (fst sample) (snd sample))) by lia.
  rewrite (proj2 (Z.ltb_lt (fullCumulative t - irCumulative t) 500)) by lia.
  rewrite (proj2 (Z.ltb_lt (niter t) 150)) by lia.
  rewrite orb_true_r. reflexivity.
Qed.

Lemma cycles_in_the_dark (samples : list (Z * Z)) :
  forall (start : Z) (t : Sensor),
    TSLmode t = TSL_INITIALIZED -> adcStartTime t = 0 -> 0 < start ->
    Forall (fun x => fst x = snd x) samples ->
    fullCumulative t - irCumulative t < 500 ->
    0 <= niter t -> niter t + Z.of_nat (length samples) <= 150 ->
    let t' := cycles start samples t in
    TSLmode t' = TSL_INITIALIZED /\ adcStartTime t' = 0
    /\ niter t' = niter t + Z.of_nat (length samples)
    /\ fullCumulative t' - irCumulative t' = fullCumulative t - irCumulative t
    /\ SQMOffset t' = SQMOffset t.
Proof.
  induction samples as [|x rest IH]; intros start t Hm Ha Hs Hall Hv H0 Hn.
  - cbn. repeat split; try assumption; lia.
  - inversion Hall as [|y l Hx Hrest]; subst.
    cbn [cycles]. cbn [length] in Hn.
    rewrite (cycle_accumulates_dim start x t Hm Ha Hs) by lia.
    set (t1 := mkSensor _ _ _ _ _ _ _).
    destruct (IH (start + 1000) t1) as (A & B & C & D & E);
      try reflexivity; try assumption; try lia;
      try (unfold t1; cbn [niter fullCumulative irCumulative]; lia).
    cbv zeta. rewrite A, B, C, D, E.
    unfold t1; cbn [niter fullCumulative irCumulative SQMOffset length].
    repeat split; lia.
Qed.

(** X20.  In complete darkness, where every sample has a visible part of 0,
    the driver counts 150 cycles with a visible sum of 0, and the
    invocation that reads the next sample takes the finalizing branch on
    that sum: the logarithm is taken at 0.  The counter is cleared; what
    is published is not stated. *)
Theorem dark_sky_finalizes_on_zero
    (samples : list (Z * Z)) (next : Z * Z) (offset : R) (start : Z) :
  length samples = 150%nat ->
  Forall (fun x => fst x = snd x) samples ->
  snd next <= fst next -> 0 < start ->
  let t := cycles start samples (armed offset) in
  let t1 := fst (readTSL (bus_ok (start + 150000) 0 0) t) in
  let b := bus_ok (start + 150000 + 751) (snd next) (fst next) in
  niter t = 150
  /\ fullCumulative t - irCumulative t = 0
  /\ finalizes b t1 = true
  /\ fullCumulative t1 - irCumulative t1 = 0
  /\ niter (fst (readTSL b t1)) = 0
  /\ fullCumulative (fst (readTSL b t1)) = 0
  /\ irCumulative (fst (readTSL b t1)) = 0.
Proof.
  intros Hlen Hall Hnext Hs t t1 b.
  destruct (cycles_in_the_dark samples start (armed offset))
    as (A & B & C & D & E);
    try reflexivity; try assumption;
    try (rewrite ?Hlen; cbn [armed niter fullCumulative irCumulative]; lia).
  fold t in A, B, C, D, E.
  rewrite Hlen in C. cbn [armed niter fullCumulative irCumulative SQMOffset] in *.
  assert (Hc : niter t = 150) by (rewrite C; reflexivity).
  assert (Hd : fullCumulative t - irCumulative t = 0) by (rewrite D; reflexivity).
  clearbody t.
  assert (E1 : t1 = mkSensor TSL_INITIALIZED (start + 150000) (niter t)
                      (fullCumulative t) (irCumulative t) (SQMOffset t)
                      (SQM_READING t)).
  { unfold t1, readTSL, bus_ok. cbn [i2cHandle writeByte millis].
    change (0 <? 0) with false. cbv iota.
    rewrite A, B. change (0 =? 0) with true. cbv iota. reflexivity. }
  clearbody t1.
  assert (Hf : finalizes b t1 = true).
  { rewrite E1. unfold finalizes, b, bus_ok, TSL2591_ADC_TIME.
    cbn [i2cHandle millis ir full TSLmode adcStartTime niter fullCumulative
         irCumulative].
    rewrite Hc, Hd.
    rewrite (proj2 (Z.eqb_neq (start + 150000) 0)) by lia.
    rewrite (proj2 (Z.ltb_lt (start + 150000 + 750) (start + 150000 + 751)))
      by lia.
    rewrite (proj2 (Z.ltb_ge (fst next) (snd next))) by lia.
    reflexivity. }
  split; [exact Hc|]. split; [exact Hd|]. split; [exact Hf|].
  split; [rewrite E1; exact Hd|].
  rewrite (readTSL_finalizing b t1 Hf). repeat split; reflexivity.
Qed.

Lemma dark_sky_finalizes_on_zero_witness :
  niter (cycles 1 (repeat (7, 7) 150) (armed 0%R)) = 150
  /\ fullCumulative (cycles 1 (repeat (7, 7) 150) (armed 0%R))
     - irCumulative (cycles 1 (repeat (7, 7) 150) (armed 0%R)) = 0.
Proof.
  assert (Hlen : length (repeat (7, 7) 150) = 150%nat) by reflexivity.
  assert (Hall : Forall (fun x : Z * Z => fst x = snd x) (repeat (7, 7) 150))
    by (repeat constructor).
  assert (Hn : snd (9, 9) <= fst (9, 9)) by (simpl; lia).
  assert (Hs : 0 < 1) by lia.
  destruct (dark_sky_finalizes_on_zero (repeat (7, 7) 150) (9, 9) 0%R 1
              Hlen Hall Hn Hs) as (A & B & _).
  split; [exact A | exact B].
Defined.

(** X21.  The older sensor is a fallback only.  When [readTSL] reports the
    sensor available, the older sensor is not consulted; when it does
    not, the state of the light sensor is the one [readTSL] left, and the
    result is available exactly when the old sensor was requested, opened
    and delivered all seven bytes, its word over 100 then replacing the
    published reading. *)
Theorem old_sensor_is_fallback
    (trigger : bool) (b : Bus) (o : OldBus) (t : Sensor) :
  (snd (readTSL b t) = true ->
   readSQM trigger b o t = (fst (readTSL b t), true))
  /\ (snd (readTSL b t) = false ->
      let r := readSQM trigger b o t in
      set_SQM_READING (SQM_READING (fst (readTSL b t))) (fst r)
      = fst (readTSL b t)
      /\ (snd r = true <->
          trigger = true /\ 0 <= oldHandle o /\ 6 < oldRead o)
      /\ (snd r = true ->
          SQM_READING (fst r)
          = (0.01 * IZR (i2cData5 o * 256 + i2cData6 o))%R)
      /\ (snd r = false ->
          SQM_READING (fst r) = SQM_READING (fst (readTSL b t)))).
Proof.
  unfold readSQM. split; intros H; rewrite H; cbv zeta; [reflexivity|].
  destruct (fst (readTSL b t)) as [m a n f i off rd] eqn:E.
  destruct trigger; unfold readOLD.
  - destruct (Z.leb_spec 0 (oldHandle o)); [destruct (Z.ltb_spec 6 (oldRead o))|];
      cbn [fst snd set_SQM_READING TSLmode adcStartTime niter fullCumulative
           irCumulative SQMOffset SQM_READING];
      (split; [reflexivity|]); (split; [|split; intros; try reflexivity;
                                         discriminate]);
      split; intros; try discriminate; try (repeat split; assumption || lia);
      match goal with
      | Hx : _ /\ _ /\ _ |- _ => destruct Hx as (_ & ? & ?); lia
      end.
  - cbn [fst snd set_SQM_READING TSLmode adcStartTime niter fullCumulative
         irCumulative SQMOffset SQM_READING].
    split; [reflexivity|]. split; [|split; intros; try reflexivity; discriminate].
    split; [discriminate | intros (Hx & _); discriminate].
Qed.

Lemma old_sensor_is_fallback_witness :
  snd (readSQM true (bus_ok 1500 0 0) (mkOldBus 0 7 8 52) integrating) = true.
Proof.
  assert (H : snd (readTSL (bus_ok 1500 0 0) integrating) = false)
    by reflexivity.
  destruct (proj2 (old_sensor_is_fallback true (bus_ok 1500 0 0)
                     (mkOldBus 0 7 8 52) integrating) H) as (_ & A & _).
  apply (proj2 A). split; [reflexivity|]. simpl. lia.
Defined.

End SkyQualityProofs.

Module PowerOpsProofs.

Import Power PowerOps.

Local Open Scope Q_scope.

(** What every invocation that reaches the sensor does to the revision,
    the cycle index and the bytes sent. *)
Lemma readPower_advances (b : Bus) (m : Monitor) :
  (4 <= revision m)%Z -> (0 <= i2cHandle b)%Z ->
  let m' := fst (readPower b m) in
  revision m' = revision m
  /\ powerIndex m' = next_index (powerIndex m)
  /\ sent m' = (sent m ++ [if (Z.rem (powerIndex m) 2 =? 0)%Z
                           then trigger_command (powerIndex m) else [0%Z]])%list.
Proof.
  intros Hrev Hh. unfold readPower.
  rewrite (proj2 (Z.ltb_ge (revision m) 4) Hrev).
  rewrite (proj2 (Z.leb_le 0 (i2cHandle b)) Hh).
  destruct (Z.rem (powerIndex m) 2 =? 0)%Z; [repeat split; reflexivity|].
  destruct (written b =? 0)%Z; [destruct (0 <? read b)%Z|];
    repeat split; reflexivity.
Qed.

(** An invocation at an even index leaves readings and accumulators. *)
Lemma readPower_trigger (b : Bus) (m : Monitor) :
  (4 <= revision m)%Z -> (0 <= i2cHandle b)%Z ->
  Z.rem (powerIndex m) 2 = 0%Z ->
  let m' := fst (readPower b m) in
  POW_VIN m' = POW_VIN m /\ POW_VREG m' = POW_VREG m
  /\ POW_ITOT m' = POW_ITOT m
  /\ energyAs m' = energyAs m /\ energyWs m' = energyWs m.
Proof.
  intros Hrev Hh He. unfold readPower.
  rewrite (proj2 (Z.ltb_ge (revision m) 4) Hrev).
  rewrite (proj2 (Z.leb_le 0 (i2cHandle b)) Hh).
  rewrite He. change (0 =? 0)%Z with true. cbv iota.
  repeat split; reflexivity.
Qed.

(** An invocation at an odd index whose transfers succeed. *)
Lemma readPower_read (b : Bus) (m : Monitor) :
  (4 <= revision m)%Z -> (0 <= i2cHandle b)%Z ->
  Z.rem (powerIndex m) 2 <> 0%Z -> written b = 0%Z -> (0 < read b)%Z ->
  let m' := fst (readPower b m) in
  let v := inject_Z (to_int16 (readBuf0 b * 255 + readBuf1 b)) / 32768 in
  POW_VIN m' = (if (powerIndex m =? 1)%Z
                then v * (4096 # 1000) * (66 # 10) else POW_VIN m)
  /\ POW_VREG m' = (if (powerIndex m =? 3)%Z
                    then v * (4096 # 1000) * (66 # 10) else POW_VREG m)
  /\ POW_ITOT m' = (if (powerIndex m =? 5)%Z
                    then v * (4096 # 1000) * 1 * 20 else POW_ITOT m)
  /\ energyAs m' = energyAs m + POW_ITOT m' * (4 # 10)
  /\ energyWs m' = energyWs m + POW_VIN m' * POW_ITOT m' * (4 # 10).
Proof.
  intros Hrev Hh Ho Hw Hr. unfold readPower.
  rewrite (proj2 (Z.ltb_ge (revision m) 4) Hrev).
  rewrite (proj2 (Z.leb_le 0 (i2cHandle b)) Hh).
  rewrite (proj2 (Z.eqb_neq _ _) Ho), Hw, (proj2 (Z.ltb_lt _ _) Hr).
  change (0 =? 0)%Z with true. cbv iota.
  repeat split; reflexivity.
Qed.

(** X22.  Six invocations that reach the sensor make one cycle: the index is
    back where it was, and from index 0 the bytes sent are the trigger of
    Vin, the read request, the trigger of Vreg, the read request, the
    trigger of the third channel and the read request, whether or not the
    transfers succeed. *)
Theorem six_invocations_make_a_cycle
    (b0 b1 b2 b3 b4 b5 : Bus) (m : Monitor) :
  (4 <= revision m)%Z -> (0 <= powerIndex m <= 5)%Z ->
  (forall b, In b [b0; b1; b2; b3; b4; b5] -> (0 <= i2cHandle b)%Z) ->
  let m' := readPower_all [b0; b1; b2; b3; b4; b5] m in
  powerIndex m' = powerIndex m
  /\ (powerIndex m = 0%Z ->
      sent m' = (sent m ++ [[1; mux Vin; 35]; [0]; [1; mux Vreg; 35]; [0];
                            [1; mux Itot; 35]; [0]])%Z%list).
Proof.
  intros Hrev Hi Hb m'. subst m'. cbn [readPower_all].
  assert (H0 := Hb b0 ltac:(simpl; tauto)).
  assert (H1 := Hb b1 ltac:(simpl; tauto)).
  assert (H2 := Hb b2 ltac:(simpl; tauto)).
  assert (H3 := Hb b3 ltac:(simpl; tauto)).
  assert (H4 := Hb b4 ltac:(simpl; tauto)).
  assert (H5 := Hb b5 ltac:(simpl; tauto)).
  clear Hb.
  destruct (readPower_advances b0 m Hrev H0) as (R1 & I1 & S1).
  set (m1 := fst (readPower b0 m)) in *.
  rewrite <- R1 in Hrev.
  destruct (readPower_advances b1 m1 Hrev H1) as (R2 & I2 & S2).
  set (m2 := fst (readPower b1 m1)) in *.
  rewrite <- R2 in Hrev.
  destruct (readPower_advances b2 m2 Hrev H2) as (R3 & I3 & S3).
  set (m3 := fst (readPower b2 m2)) in *.
  rewrite <- R3 in Hrev.
  destruct (readPower_advances b3 m3 Hrev H3) as (R4 & I4 & S4).
  set (m4 := fst (readPower b3 m3)) in *.
  rewrite <- R4 in Hrev.
  destruct (readPower_advances b4 m4 Hrev H4) as (R5 & I5 & S5).
  set (m5 := fst (readPower b4 m4)) in *.
  rewrite <- R5 in Hrev.
  destruct (readPower_advances b5 m5 Hrev H5) as (R6 & I6 & S6).
  set (m6 := fst (readPower b5 m5)) in *.
  split.
  - rewrite I6, I5, I4, I3, I2, I1. clear - Hi.
    destruct (PowerProofs.index_cases _ Hi) as [E | [E | [E | [E | [E | E]]]]];
      rewrite E; reflexivity.
  - intros E.
    rewrite S6, S5, S4, S3, S2, S1, I5, I4, I3, I2, I1, E.
    rewrite <- !app_assoc. reflexivity.
Qed.

Lemma six_invocations_make_a_cycle_witness :
  powerIndex (readPower_all
                [bus_good 0 0; bus_good 95 70; bus_good 0 0; bus_good 40 0;
                 bus_good 0 0; bus_good 8 0] cycle_start)
  = powerIndex cycle_start.
Proof.
  assert (Hrev : (4 <= revision cycle_start)%Z) by (simpl; lia).
  assert (Hi : (0 <= powerIndex cycle_start <= 5)%Z) by (simpl; lia).
  refine (proj1 (six_invocations_make_a_cycle _ _ _ _ _ _ cycle_start
                   Hrev Hi _)).
  intros b Hb. simpl in Hb.
  destruct Hb as [<- | [<- | [<- | [<- | [<- | [<- | []]]]]]]; simpl; lia.
Defined.

(** X23.  Over one cycle of six invocations from index 0 whose three reads
    succeed, the three readings are the three scaled results, and every
    read integrates 0.4 s: the first two with the current of the previous
    cycle, the third with the new one, all three with the new input
    voltage. *)
Theorem energy_over_a_cycle
    (b0 b1 b2 b3 b4 b5 : Bus) (m : Monitor) :
  (4 <= revision m)%Z -> powerIndex m = 0%Z ->
  (forall b, In b [b0; b1; b2; b3; b4; b5] -> (0 <= i2cHandle b)%Z) ->
  (forall b, In b [b1; b3; b5] -> written b = 0%Z /\ (0 < read b)%Z) ->
  let m' := readPower_all [b0; b1; b2; b3; b4; b5] m in
  POW_VIN m' == scaled Vin b1
  /\ POW_VREG m' == scaled Vreg b3
  /\ POW_ITOT m' == scaled Itot b5
  /\ energyAs m' ==
     energyAs m + (4 # 10) * (2 * POW_ITOT m + scaled Itot b5)
  /\ energyWs m' ==
     energyWs m
     + (4 # 10) * scaled Vin b1 * (2 * POW_ITOT m + scaled Itot b5).
Proof.
  intros Hrev Hi Hb Hg m'. subst m'. cbn [readPower_all].
  assert (H0 := Hb b0 ltac:(simpl; tauto)).
  assert (H1 := Hb b1 ltac:(simpl; tauto)).
  assert (H2 := Hb b2 ltac:(simpl; tauto)).
  assert (H3 := Hb b3 ltac:(simpl; tauto)).
  assert (H4 := Hb b4 ltac:(simpl; tauto)).
  assert (H5 := Hb b5 ltac:(simpl; tauto)).
  destruct (Hg b1 ltac:(simpl; tauto)) as [W1 G1].
  destruct (Hg b3 ltac:(simpl; tauto)) as [W3 G3].
  destruct (Hg b5 ltac:(simpl; tauto)) as [W5 G5].
  clear Hb Hg.
  destruct (readPower_advances b0 m Hrev H0) as (R1 & I1 & _).
  destruct (readPower_trigger b0 m Hrev H0) as (V1 & _ & C1 & A1 & E1);
    [rewrite Hi; reflexivity|].
  set (m1 := fst (readPower b0 m)) in *.
  rewrite Hi in I1. change (next_index 0) with 1%Z in I1.
  rewrite <- R1 in Hrev.
  destruct (readPower_advances b1 m1 Hrev H1) as (R2 & I2 & _).
  destruct (readPower_read b1 m1 Hrev H1) as (V2 & _ & C2 & A2 & E2);
    [rewrite I1; discriminate | exact W1 | exact G1 |].
  set (m2 := fst (readPower b1 m1)) in *.
  rewrite I1 in I2, V2, C2. change (next_index 1) with 2%Z in I2.
  cbv zeta in V2, C2. change (1 =? 1)%Z with true in V2.
  change (1 =? 5)%Z with false in C2. cbv iota in V2, C2.
  rewrite <- R2 in Hrev.
  destruct (readPower_advances b2 m2 Hrev H2) as (R3 & I3 & _).
  destruct (readPower_trigger b2 m2 Hrev H2) as (V3 & _ & C3 & A3 & E3);
    [rewrite I2; reflexivity|].
  set (m3 := fst (readPower b2 m2)) in *.
  rewrite I2 in I3. change (next_index 2) with 3%Z in I3.
  rewrite <- R3 in Hrev.
  destruct (readPower_advances b3 m3 Hrev H3) as (R4 & I4 & _).
  destruct (readPower_read b3 m3 Hrev H3) as (V4 & G4 & C4 & A4 & E4);
    [rewrite I3; discriminate | exact W3 | exact G3 |].
  set (m4 := fst (readPower b3 m3)) in *.
  rewrite I3 in I4, V4, G4, C4. change (next_index 3) with 4%Z in I4.
  cbv zeta in V4, G4, C4. change (3 =? 1)%Z with false in V4.
  change (3 =? 3)%Z with true in G4.
  change (3 =? 5)%Z with false in C4. cbv iota in V4, G4, C4.
  rewrite <- R4 in Hrev.
  destruct (readPower_advances b4 m4 Hrev H4) as (R5 & I5 & _).
  destruct (readPower_trigger b4 m4 Hrev H4) as (V5 & G5' & C5 & A5 & E5);
    [rewrite I4; reflexivity|].
  set (m5 := fst (readPower b4 m4)) in *.
  rewrite I4 in I5. change (next_index 4) with 5%Z in I5.
  rewrite <- R5 in Hrev.
  destruct (readPower_read b5 m5 Hrev H5) as (V6 & G6 & C6 & A6 & E6);
    [rewrite I5; discriminate | exact W5 | exact G5 |].
  set (m6 := fst (readPower b5 m5)) in *.
  rewrite I5 in V6, G6, C6.
  cbv zeta in V6, G6, C6. change (5 =? 1)%Z with false in V6.
  change (5 =? 3)%Z with false in G6.
  change (5 =? 5)%Z with true in C6. cbv iota in V6, G6, C6.
  assert (HV : POW_VIN m6 == scaled Vin b1).
  { rewrite V6, V5, V4, V3, V2. unfold scaled, gain. ring. }
  assert (HI : POW_ITOT m6 == scaled Itot b5).
  { rewrite C6. unfold scaled, gain. ring. }
  split; [exact HV|].
  split; [rewrite G6, G5', G4; unfold scaled, gain; ring|].
  split; [exact HI|].
  split.
  - rewrite A6, A5, A4, A3, A2, A1, HI, C4, C3, C2, C1. ring.
  - rewrite E6, E5, E4, E3, E2, E1, HV, HI.
    rewrite V4, V3, C4, C3, C2, C1.
    assert (HV2 : POW_VIN m2 == scaled Vin b1)
      by (rewrite V2; unfold scaled, gain; ring).
    rewrite HV2. ring.
Qed.

Lemma energy_over_a_cycle_witness :
  POW_ITOT (readPower_all
              [bus_good 0 0; bus_good 95 70; bus_good 0 0; bus_good 40 0;
               bus_good 0 0; bus_good 8 0] cycle_start)
  == scaled Itot (bus_good 8 0).
Proof.
  assert (Hrev : (4 <= revision cycle_start)%Z) by (simpl; lia).
  refine (proj1 (proj2 (proj2
            (energy_over_a_cycle _ _ _ _ _ _ cycle_start Hrev eq_refl _ _)))).
  - intros b Hb. simpl in Hb.
    destruct Hb as [<- | [<- | [<- | [<- | [<- | [<- | []]]]]]]; simpl; lia.
  - intros b Hb. simpl in Hb.
    destruct Hb as [<- | [<- | [<- | []]]]; simpl; split; lia.
Defined.

(** X24.  A read whose transfer fails changes no reading and no accumulator:
    the state becomes ALERT and the index moves on, so the channel keeps
    its previous value until the next cycle. *)
Theorem failed_read_keeps_readings (b : Bus) (m : Monitor) :
  (4 <= revision m)%Z -> (0 <= i2cHandle b)%Z ->
  Z.rem (powerIndex m) 2 <> 0%Z ->
  written b <> 0%Z \/ (read b <= 0)%Z ->
  readPower b m =
  (mkMonitor (revision m) (next_index (powerIndex m))
     (POW_VIN m) (POW_VREG m) (POW_ITOT m) (POW_PTOT m) (POW_AH m) (POW_WH m)
     (energyAs m) (energyWs m) IPS_ALERT (sent m ++ [[0%Z]]), true).
Proof.
  intros Hrev Hh Ho Hf. unfold readPower.
  rewrite (proj2 (Z.ltb_ge (revision m) 4) Hrev).
  rewrite (proj2 (Z.leb_le 0 (i2cHandle b)) Hh).
  rewrite (proj2 (Z.eqb_neq _ _) Ho).
  destruct (Z.eqb_spec (written b) 0) as [Hw | Hw]; [|reflexivity].
  destruct Hf as [Hf | Hf]; [contradiction|].
  rewrite (proj2 (Z.ltb_ge _ _) Hf). reflexivity.
Qed.

Lemma failed_read_keeps_readings_witness :
  POW_VIN (fst (readPower (mkBus 0 0 0 95 70) reading_vin)) = 12.
Proof.
  assert (Hrev : (4 <= revision reading_vin)%Z) by (simpl; lia).
  assert (Hh : (0 <= i2cHandle (mkBus 0 0 0 95 70))%Z) by (simpl; lia).
  assert (Ho : Z.rem (powerIndex reading_vin) 2 <> 0%Z)
    by (vm_compute; discriminate).
  assert (Hf : written (mkBus 0 0 0 95 70) <> 0%Z
               \/ (read (mkBus 0 0 0 95 70) <= 0)%Z) by (right; simpl; lia).
  rewrite (failed_read_keeps_readings _ reading_vin Hrev Hh Ho Hf).
  reflexivity.
Defined.

(** X25.  The result word is assembled as high byte x 255 + low byte, so the
    byte pairs (h + 1, 0) and (h, 255) cannot be told apart: they leave
    the monitor in the same state. *)
Theorem result_bytes_collide (hd wr rd h : Z) (m : Monitor) :
  readPower (mkBus hd wr rd (h + 1) 0) m = readPower (mkBus hd wr rd h 255) m.
Proof.
  unfold readPower. cbn [i2cHandle written read readBuf0 readBuf1].
  replace ((h + 1) * 255 + 0)%Z with (h * 255 + 255)%Z by ring.
  reflexivity.
Qed.

End PowerOpsProofs.

Module WeatherProofs.

Import Focuser FocuserProofs FocuserOpsProofs Weather.

Lemma byte_pair_range (hi lo : Z) :
  0 <= hi <= 255 -> 0 <= lo <= 255 ->
  (0 <= inject_Z (hi * 256 + lo) <= 65535)%Q.
Proof.
  intros Hh Hl. change 0%Q with (inject_Z 0).
  change 65535%Q with (inject_Z 65535).
  rewrite <- !Zle_Qle. lia.
Qed.

(** X26.  A successful measurement of bytes within 0..255 publishes a
    temperature between -45 and 130 degrees and a humidity between 0 and
    100 percent, and makes that temperature the focuser temperature. *)
Theorem sht_reading_ranges (b : SHTBus) (w : Station) :
  0 <= shtHandle b -> shtWritten b = 0 -> 4 < shtRead b ->
  0 <= i2cData0 b <= 255 -> 0 <= i2cData1 b <= 255 ->
  0 <= i2cData3 b <= 255 -> 0 <= i2cData4 b <= 255 ->
  let w' := fst (readSHT b w) in
  snd (readSHT b w) = true
  /\ (-45 <= WEATHER_TEMPERATURE w' <= 130)%Q
  /\ (0 <= WEATHER_HUMIDITY w' <= 100)%Q
  /\ focuserTemperature w' = WEATHER_TEMPERATURE w'
  /\ WEATHER_SKY_TEMP w' = WEATHER_SKY_TEMP w
  /\ WEATHER_SKY_DIFF w' = WEATHER_SKY_DIFF w
  /\ MLXavailable w' = MLXavailable w.
Proof.
  intros Hh Hw Hr H0 H1 H3 H4. unfold readSHT.
  rewrite (proj2 (Z.leb_le _ _) Hh), Hw, (proj2 (Z.ltb_lt _ _) Hr).
  change (0 =? 0) with true.
  cbn [fst snd SHTavailable negb WEATHER_TEMPERATURE WEATHER_HUMIDITY
       focuserTemperature WEATHER_SKY_TEMP WEATHER_SKY_DIFF MLXavailable].
  split; [reflexivity|].
  split; [|split; [|repeat split; reflexivity]].
  - unfold sht_temperature.
    pose proof (byte_pair_range _ _ H0 H1) as Hx.
    set (x := inject_Z _) in *.
    setoid_replace (-45 + 175 * x / 65535)%Q
      with (-45 + (175 # 65535) * x)%Q by field.
    split; Lqa.lra.
  - unfold sht_humidity.
    pose proof (byte_pair_range _ _ H3 H4) as Hx.
    rewrite inject_Z_plus, inject_Z_mult in Hx.
    change (inject_Z 256) with 256%Q in Hx.
    set (x := inject_Z (i2cData3 b)) in *.
    set (y := inject_Z (i2cData4 b)) in *.
    setoid_replace (100 * (x * 256 + y) / 65535)%Q
      with ((100 # 65535) * (x * 256 + y))%Q by field.
    split; Lqa.lra.
Qed.

Lemma sht_reading_ranges_witness :
  (-45 <= WEATHER_TEMPERATURE (fst (readSHT (sht_good 100 0 128 0) station0))
   <= 130)%Q.
Proof.
  refine (proj1 (proj2 (sht_reading_ranges (sht_good 100 0 128 0) station0
                          _ eq_refl _ _ _ _ _))); simpl; lia.
Defined.

(** X27.  A measurement answered with too few bytes changes nothing: after a
    good measurement it is reported as available again, with the values
    of that earlier measurement; after a failed one it stays
    unavailable, with zeros published. *)
Theorem short_read_keeps_stale_values (b : SHTBus) (w : Station) :
  0 <= shtHandle b -> shtWritten b = 0 -> shtRead b <= 4 ->
  (SHTavailable w = true -> readSHT b w = (w, true))
  /\ (SHTavailable w = false ->
      readSHT b w =
      (mkStation 0 0 0%R (WEATHER_SKY_TEMP w) (WEATHER_SKY_DIFF w)
         (focuserTemperature w) false (MLXavailable w), false)).
Proof.
  intros Hh Hw Hr. unfold readSHT.
  rewrite (proj2 (Z.leb_le _ _) Hh), Hw, (proj2 (Z.ltb_ge _ _) Hr).
  change (0 =? 0) with true. cbv iota zeta.
  split; intros Ha; rewrite Ha; cbn [negb]; cbv iota; cbn [SHTavailable];
    rewrite ?Ha; reflexivity.
Qed.

Lemma short_read_keeps_stale_values_witness :
  snd (readSHT sht_short (fst (readSHT (sht_good 100 0 128 0) station0)))
  = true.
Proof.
  assert (Hh : 0 <= shtHandle sht_short) by (simpl; lia).
  assert (Hr : shtRead sht_short <= 4) by (simpl; lia).
  rewrite (proj1 (short_read_keeps_stale_values sht_short
                    (fst (readSHT (sht_good 100 0 128 0) station0))
                    Hh eq_refl Hr) eq_refl).
  reflexivity.
Defined.

Lemma readSHT_down (b : SHTBus) (w : Station) :
  shtHandle b < 0 \/ shtWritten b <> 0 ->
  readSHT b w =
  (mkStation 0 0 0%R (WEATHER_SKY_TEMP w) (WEATHER_SKY_DIFF w)
     (focuserTemperature w) false (MLXavailable w), false).
Proof.
  intros Hf. unfold readSHT.
  destruct (Z.leb_spec 0 (shtHandle b)) as [Hh | Hh]; [|reflexivity].
  destruct Hf as [Hf | Hf]; [lia|].
  rewrite (proj2 (Z.eqb_neq _ _) Hf). reflexivity.
Qed.

Lemma readMLX_down (b : MLXBus) (w : Station) :
  mlxHandle b < 0 \/ Tamb b < 0 \/ Tobj b < 0 ->
  readMLX b w =
  (mkStation (WEATHER_TEMPERATURE w) (WEATHER_HUMIDITY w) (WEATHER_DEWPOINT w)
     0 0 (focuserTemperature w) (SHTavailable w) false, false).
Proof.
  intros Hf. unfold readMLX.
  destruct (Z.leb_spec 0 (mlxHandle b)) as [Hh | Hh]; [|reflexivity].
  assert (E : (0 <=? Tamb b) && (0 <=? Tobj b) = false).
  { apply andb_false_iff.
    destruct Hf as [Hf | [Hf | Hf]]; [lia | left | right];
      apply Z.leb_gt; exact Hf. }
  rewrite E. reflexivity.
Qed.

Lemma readMLX_up (b : MLXBus) (w : Station) :
  0 <= mlxHandle b -> 0 <= Tamb b -> 0 <= Tobj b ->
  readMLX b w =
  (mkStation (WEATHER_TEMPERATURE w) (WEATHER_HUMIDITY w) (WEATHER_DEWPOINT w)
     (mlx_celsius (Tobj b)) ((2 # 100) * inject_Z (Tobj b - Tamb b))%Q
     (if negb (SHTavailable w) then mlx_celsius (Tamb b)
      else focuserTemperature w)
     (SHTavailable w) true, true).
Proof.
  intros Hh Ha Ho. unfold readMLX.
  rewrite (proj2 (Z.leb_le _ _) Hh), (proj2 (Z.leb_le _ _) Ha),
    (proj2 (Z.leb_le _ _) Ho).
  reflexivity.
Qed.

(** Evaluates the record operations of the station and of the published
    focuser temperature. *)
Ltac station_simpl :=
  cbv beta iota zeta delta
    [fst snd negb orb set_SHTavailable set_MLXavailable SHTavailable
     MLXavailable focuserTemperature WEATHER_TEMPERATURE WEATHER_HUMIDITY
     WEATHER_DEWPOINT WEATHER_SKY_TEMP WEATHER_SKY_DIFF
     set_FocusTemperature FocusTemperature].

(** X28.  Where the focuser temperature comes from when the temperature read
    is due.  A successful SHT measurement supplies it whatever the MLX
    delivers; with the SHT down, a readable MLX supplies its ambient
    temperature, and the sky difference it publishes is the sky
    temperature minus that ambient temperature; with both down the
    temperature published is 0 and the state is ALERT. *)
Theorem focuser_temperature_source
    (sb : SHTBus) (mb : MLXBus) (w : Station) (s : Driver) :
  let w' := fst (fst (TimerHit_temperature sb mb w s)) in
  let s' := snd (fst (TimerHit_temperature sb mb w s)) in
  let state := snd (TimerHit_temperature sb mb w s) in
  (0 <= shtHandle sb -> shtWritten sb = 0 -> 4 < shtRead sb ->
   FocusTemperature s' = sht_temperature sb /\ state = IPS_OK)
  /\ (shtHandle sb < 0 \/ shtWritten sb <> 0 ->
      0 <= mlxHandle mb -> 0 <= Tamb mb -> 0 <= Tobj mb ->
      FocusTemperature s' = mlx_celsius (Tamb mb) /\ state = IPS_OK
      /\ (WEATHER_SKY_DIFF w'
          == WEATHER_SKY_TEMP w' - mlx_celsius (Tamb mb))%Q)
  /\ (shtHandle sb < 0 \/ shtWritten sb <> 0 ->
      mlxHandle mb < 0 \/ Tamb mb < 0 \/ Tobj mb < 0 ->
      FocusTemperature s' = 0%Q /\ state = IPS_ALERT
      /\ WEATHER_TEMPERATURE w' = 0%Q /\ WEATHER_SKY_TEMP w' = 0%Q).
Proof.
  cbv zeta. unfold TimerHit_temperature. split; [|split].
  - intros Hh Hw Hr.
    assert (E : readSHT sb w =
                (mkStation (sht_temperature sb) (sht_humidity sb)
                   (dewpoint (sht_temperature sb) (sht_humidity sb))
                   (WEATHER_SKY_TEMP w) (WEATHER_SKY_DIFF w)
                   (sht_temperature sb) true (MLXavailable w), true)).
    { unfold readSHT.
      rewrite (proj2 (Z.leb_le _ _) Hh), Hw, (proj2 (Z.ltb_lt _ _) Hr).
      reflexivity. }
    rewrite E. cbn [fst snd set_SHTavailable WEATHER_TEMPERATURE
                    WEATHER_HUMIDITY WEATHER_DEWPOINT WEATHER_SKY_TEMP
                    WEATHER_SKY_DIFF focuserTemperature MLXavailable].
    set (w1 := mkStation _ _ _ _ _ _ true _).
    assert (F : SHTavailable (fst (readMLX mb w1)) = true
                /\ focuserTemperature (fst (readMLX mb w1))
                   = sht_temperature sb).
    { unfold readMLX.
      destruct (0 <=? mlxHandle mb);
        [destruct ((0 <=? Tamb mb) && (0 <=? Tobj mb))|];
        split; reflexivity. }
    destruct F as [F1 F2].
    change (set_SHTavailable true w1) with w1.
    change (SHTavailable (set_MLXavailable (snd (readMLX mb w1))
                            (fst (readMLX mb w1))))
      with (SHTavailable (fst (readMLX mb w1))).
    change (focuserTemperature (set_MLXavailable (snd (readMLX mb w1))
                                  (fst (readMLX mb w1))))
      with (focuserTemperature (fst (readMLX mb w1))).
    rewrite F1, F2. cbn [orb fst snd]. split; reflexivity.
  - intros Hs Hh Ha Ho.
    rewrite (readSHT_down sb w Hs). station_simpl.
    rewrite (readMLX_up mb _ Hh Ha Ho). station_simpl.
    split; [reflexivity|]. split; [reflexivity|].
    unfold mlx_celsius, Z.sub. rewrite inject_Z_plus, inject_Z_opp. ring.
  - intros Hs Hm.
    rewrite (readSHT_down sb w Hs). station_simpl.
    rewrite (readMLX_down mb _ Hm). station_simpl.
    repeat split; reflexivity.
Qed.

Lemma focuser_temperature_source_witness :
  FocusTemperature
    (snd (fst (TimerHit_temperature sht_absent (mlx_good 14000 13000)
                 station0 at_rest)))
  = mlx_celsius 14000.
Proof.
  assert (Hs : shtHandle sht_absent < 0 \/ shtWritten sht_absent <> 0)
    by (left; simpl; lia).
  assert (Hh : 0 <= mlxHandle (mlx_good 14000 13000)) by (simpl; lia).
  assert (Ha : 0 <= Tamb (mlx_good 14000 13000)) by (simpl; lia).
  assert (Ho : 0 <= Tobj (mlx_good 14000 13000)) by (simpl; lia).
  exact (proj1 (proj1 (proj2 (focuser_temperature_source sht_absent
                                (mlx_good 14000 13000) station0 at_rest))
                  Hs Hh Ha Ho)).
Defined.

Lemma fields_after_FocusTemperature (q : Q) (s : Driver) :
  isConnected (set_FocusTemperature q s) = isConnected s
  /\ TemperatureCompensate (set_FocusTemperature q s) = TemperatureCompensate s
  /\ FocusTemperature (set_FocusTemperature q s) = q
  /\ lastTemperature (set_FocusTemperature q s) = lastTemperature s
  /\ TemperatureCoef (set_FocusTemperature q s) = TemperatureCoef s
  /\ FocuserInfoN (set_FocusTemperature q s) = FocuserInfoN s
  /\ Position (set_FocusTemperature q s) = Position s.
Proof. repeat split; reflexivity. Qed.

(** X29.  The loss of both temperature sensors is read as 0 degrees by the
    compensator: it does not look at the ALERT state, so with
    compensation enabled and coefficient x lastTemperature beyond half
    a critical focus zone it requests a move by
    round(coefficient x (0 - lastTemperature)) steps and records 0 as the
    last temperature. *)
Theorem sensor_loss_is_compensated_as_zero
    (cvt : Z -> Z) (sb : SHTBus) (mb : MLXBus) (w : Station) (s : Driver) :
  shtHandle sb < 0 \/ shtWritten sb <> 0 ->
  mlxHandle mb < 0 \/ Tamb mb < 0 \/ Tobj mb < 0 ->
  isConnected s = true -> TemperatureCompensate s = true ->
  ~ (lastTemperature s == 0)%Q ->
  (FOC_STEPS_CFZ (FocuserInfoN s) / 2
   < Qabs (TemperatureCoef s * (0 - lastTemperature s)))%Q ->
  let s1 := snd (fst (TimerHit_temperature sb mb w s)) in
  snd (TimerHit_temperature sb mb w s) = IPS_ALERT
  /\ s1 = set_FocusTemperature 0 s
  /\ temperatureCompensation cvt s1 =
     set_lastTemperature 0
       (fst (MoveAbsFocuser
               (cvt (Position s
                     + c_round (TemperatureCoef s * (0 - lastTemperature s))))
               s1)).
Proof.
  intros Hs Hm Hconn Hc Hne Hlt s1.
  assert (E : TimerHit_temperature sb mb w s
              = (mkStation 0 0 0%R 0 0 (focuserTemperature w) false false,
                 set_FocusTemperature 0 s, IPS_ALERT)).
  { unfold TimerHit_temperature.
    rewrite (readSHT_down sb w Hs). station_simpl.
    rewrite (readMLX_down mb _ Hm). reflexivity. }
  subst s1. rewrite E. cbn [fst snd].
  split; [reflexivity|]. split; [reflexivity|].
  destruct (fields_after_FocusTemperature 0 s)
    as (F1 & F2 & F3 & F4 & F5 & F6 & F7).
  rewrite (compensation_due cvt (set_FocusTemperature 0 s)).
  - unfold deltaPos. rewrite F3, F4, F5, F7. reflexivity.
  - rewrite F1. exact Hconn.
  - rewrite F2. exact Hc.
  - rewrite F3, F4. intros H. apply Hne. symmetry. exact H.
  - unfold deltaPos. rewrite F3, F4, F5, F6. exact Hlt.
Qed.

Lemma sensor_loss_is_compensated_as_zero_witness :
  snd (TimerHit_temperature sht_absent mlx_absent station0 steady)
  = IPS_ALERT.
Proof.
  assert (Hs : shtHandle sht_absent < 0 \/ shtWritten sht_absent <> 0)
    by (left; simpl; lia).
  assert (Hm : mlxHandle mlx_absent < 0 \/ Tamb mlx_absent < 0
               \/ Tobj mlx_absent < 0) by (left; simpl; lia).
  assert (Hne : ~ (lastTemperature steady == 0)%Q)
    by (vm_compute; discriminate).
  assert (Hlt : (FOC_STEPS_CFZ (FocuserInfoN steady) / 2
                 < Qabs (TemperatureCoef steady * (0 - lastTemperature steady)))%Q)
    by (vm_compute; reflexivity).
  exact (proj1 (sensor_loss_is_compensated_as_zero to_uint32 sht_absent
                  mlx_absent station0 steady Hs Hm eq_refl eq_refl Hne Hlt)).
Defined.

End WeatherProofs.

Module FanProofs.

Import Fan.

(** X30.  With the fan pin claimed, the duty cycle and the reported power grow
    with the temperature and the duty cycle never exceeds the reported
    power; up to 65 degrees the duty cycle is 0 while 33 percent is
    reported. *)
Theorem fan_follows_temperature (t1 t2 : Z) (f1 f2 : FanState) :
  t1 <= t2 ->
  duty (fanUpdate 0 t1 f1) <= duty (fanUpdate 0 t2 f2)
  /\ FanPower (fanUpdate 0 t1 f1) <= FanPower (fanUpdate 0 t2 f2)
  /\ duty (fanUpdate 0 t1 f1) <= FanPower (fanUpdate 0 t1 f1)
  /\ (duty (fanUpdate 0 t1 f1) = 0 <-> t1 <= 65)
  /\ 33 <= FanPower (fanUpdate 0 t1 f1)
  /\ (t1 <= 65 -> FanPower (fanUpdate 0 t1 f1) = 33)
  /\ FanPowerNP_s (fanUpdate 0 t1 f1) = IPS_OK.
Proof.
  intros Hle. unfold fanUpdate, duty. change (0 =? 0) with true.
  cbn [pwm FanPower FanPowerNP_s].
  destruct (Z.ltb_spec 70 t1); destruct (Z.ltb_spec 65 t1);
    destruct (Z.ltb_spec 70 t2); destruct (Z.ltb_spec 65 t2);
    repeat split; try lia; try reflexivity.
Qed.

Lemma fan_follows_temperature_witness :
  duty (fanUpdate 0 60 fan0) <= duty (fanUpdate 0 68 fan0).
Proof.
  assert (H : 60 <= 68) by lia.
  exact (proj1 (fan_follows_temperature 60 68 fan0 fan0 H)).
Defined.

End FanProofs.
